(** * The IPFS RPC client (stolab/ipfs-api): request building, [Add],
    [AddBinary], [Cat] and the decoding of the answer of [add].

    The repository holds the client twice:
    - [src/api.go] (package main); the first text of [src/client/api.go] is
      the same code, comments apart.  It is embedded in [Module PkgMain].
    - the second text of [src/client/api.go] (package client), where the
      request builders are methods of [Client] and [AddBinary] exists.  It is
      embedded in [Module PkgClient].
    [Cat], [readIPFSResponse], [NewIPFSApi] and the types are the same in
    both and are embedded once.

    Go strings and byte slices are [string] (sequences of 8-bit characters).
    The operating system, the network and the Go packages the code calls are
    a [World]: what [stat], [readdir], [open] answer, what the transport
    answers to a request, which URLs [net/url] rejects, what [encoding/json]
    stores.  Effects are a trace of events in a small state monad. *)

From Stdlib Require Import String Ascii List Bool Arith Lia.
Import ListNotations.
Local Open Scope string_scope.

(** ** Errors *)

(** Error numbers of the system calls behind [os.Stat], [os.ReadDir],
    [os.Open] and [File.Read]. *)
Inductive Errno : Type := ENOENT | EACCES | ENOTDIR | EISDIR | EIO.

Inductive JSONFailure : Type :=
| SyntaxError            (* *json.SyntaxError *)
| UnmarshalTypeError.    (* *json.UnmarshalTypeError *)

(** Go's [error] values the code can meet; [nil] is [None : option error]. *)
Inductive error : Type :=
| IOError (op path : string) (errno : Errno)   (* *fs.PathError *)
| URLError (op url : string)                   (* *url.Error of http.NewRequest *)
| NetworkError (reason : string)               (* what httpClient.Do reports *)
| PartError                                    (* write to a finished multipart part *)
| DecodeError (f : JSONFailure).               (* what json.Unmarshal reports *)

Inductive Sys (A : Type) : Type :=
| SysOk (a : A)
| SysErr (errno : Errno).
Arguments SysOk {A} a.
Arguments SysErr {A} errno.

(** A Go pair [(T, error)] of a library call that gives exactly one of the
    two. *)
Inductive Res (A : Type) : Type :=
| Ok (a : A)
| Err (e : error).
Arguments Ok {A} a.
Arguments Err {A} e.

(** ** Files, streams, HTTP messages *)

Record FileInfo : Type := { fi_IsDir : bool }.

Record DirEntry : Type := { de_Name : string; de_IsDir : bool }.

(** An [io.Reader] read to its end: the bytes it yields, then either EOF
    ([None]) or the error that stops the reading. *)
Record Reader : Type := { r_data : string; r_err : option error }.

(** What an opened file yields when read. *)
Record FileData : Type := { fd_data : string; fd_err : option Errno }.

Record File : Type := { f_name : string; f_content : FileData }.

Definition File_Reader (f : File) : Reader :=
  {| r_data := fd_data (f_content f);
     r_err := option_map (IOError "read" (f_name f)) (fd_err (f_content f)) |}.

(** One part of a multipart body, as [CreateFormFile] and the writes to it
    leave it. *)
Record Part : Type :=
  { p_name : string; p_filename : string; p_data : string }.

(** The [bytes.Buffer] a [multipart.Writer] writes to, with the writer's
    boundary: the parts written so far and whether [Close] wrote the final
    delimiter. *)
Record Multipart : Type :=
  { mp_boundary : string; mp_parts : list Part; mp_closed : bool }.

(** The delimiter lines of the buffer: [--boundary] before each part and
    [--boundary--] once closed. *)
Definition delimiters (m : Multipart) : list string :=
  map (fun _ => "--" ++ mp_boundary m) (mp_parts m)
  ++ (if mp_closed m then ["--" ++ mp_boundary m ++ "--"] else []).

Record Request : Type :=
  { Method : string;
    URL : string;
    Header : list (string * string);
    ReqBody : option Multipart }.

Record Response : Type := { StatusCode : nat; Body : Reader }.

Record IPFSResponse : Type :=
  { Name : string; Hash : string; Size : string }.

(** [new(IPFSResponse)]: the zero value. *)
Definition zeroIPFSResponse : IPFSResponse :=
  {| Name := ""; Hash := ""; Size := "" |}.

Record HttpClient : Type := { Timeout : nat (* seconds *) }.

Record Client : Type :=
  { base : string; httpClient : HttpClient; url : string }.

(** ** The world *)

Record World : Type :=
  { sys_stat : string -> Sys FileInfo;
    sys_readdir : string -> Sys (list DirEntry);
    sys_open : string -> Sys FileData;
    (* the boundary multipart.NewWriter draws *)
    rand_boundary : string;
    (* net/url.Parse rejects the text *)
    url_rejects : string -> bool;
    (* the round trip of httpClient.Do, timeout included *)
    transport : Request -> Res Response;
    (* json.Unmarshal(data, v): the value v holds afterwards, and the error *)
    json_Unmarshal : string -> IPFSResponse -> IPFSResponse * option error }.

(** ** Events and the monad *)

Inductive Event : Type :=
| EvOpen (path : string)                    (* os.Open succeeded *)
| EvFileClose (path : string)               (* Close of an os.File *)
| EvDo (req : Request) (r : Res Response)   (* httpClient.Do(req) and its answer *)
| EvReadAll                                 (* io.ReadAll(resp.Body) *)
| EvBodyClose.                              (* resp.Body.Close() *)

(** The state of one call: the multipart writer it allocated, if any, and
    the events so far, oldest first. *)
Record State : Type :=
  { st_writer : option Multipart; st_trace : list Event }.

Definition init : State := {| st_writer := None; st_trace := [] |}.

Inductive Outcome (A : Type) : Type :=
| Done (a : A) (s : State)
| Panic (s : State)        (* nil dereference *)
| OutOfFuel.
Arguments Done {A} a s.
Arguments Panic {A} s.
Arguments OutOfFuel {A}.

Definition M (A : Type) : Type := State -> Outcome A.

Definition ret {A} (a : A) : M A := fun s => Done a s.

Definition bind {A B} (m : M A) (k : A -> M B) : M B :=
  fun s =>
    match m s with
    | Done a s' => k a s'
    | Panic s' => Panic s'
    | OutOfFuel => OutOfFuel
    end.

Definition panic {A} : M A := fun s => Panic s.
Definition outOfFuel {A} : M A := fun _ => OutOfFuel.

Declare Scope go_scope.
Delimit Scope go_scope with go.
Notation "x <- c ;; k" := (bind c (fun x => k))
  (at level 100, c at next level, right associativity) : go_scope.
Notation "' pat <- c ;; k" := (bind c (fun x => match x with pat => k end))
  (at level 100, pat pattern, c at next level, right associativity) : go_scope.
Notation "c ;; k" := (bind c (fun _ => k))
  (at level 100, right associativity) : go_scope.
Local Open Scope go_scope.

Definition emit (e : Event) : M unit :=
  fun s => Done tt {| st_writer := st_writer s; st_trace := st_trace s ++ [e] |}.

(** Observations of a finished run. *)
Definition exec {A} (m : M A) : Outcome A := m init.

Definition result {A} (o : Outcome A) : option A :=
  match o with Done a _ => Some a | _ => None end.

Definition events {A} (o : Outcome A) : list Event :=
  match o with
  | Done _ s => st_trace s
  | Panic s => st_trace s
  | OutOfFuel => []
  end.

(** The requests handed to [httpClient.Do], in order. *)
Fixpoint sent (tr : list Event) : list Request :=
  match tr with
  | [] => []
  | EvDo req _ :: tr' => req :: sent tr'
  | _ :: tr' => sent tr'
  end.

(** The first request sent, for naming it in examples. *)
Definition first_sent (tr : list Event) : Request :=
  hd {| Method := ""; URL := ""; Header := []; ReqBody := None |} (sent tr).

(** The number of response bodies acquired and not closed at the end of a
    trace. *)
Fixpoint open_bodies (n : nat) (tr : list Event) : nat :=
  match tr with
  | [] => n
  | EvDo _ (Ok _) :: tr' => open_bodies (S n) tr'
  | EvBodyClose :: tr' => open_bodies (pred n) tr'
  | _ :: tr' => open_bodies n tr'
  end.

(** ** The Go packages the code calls *)

(** [path.Base]: the last element of a slash-separated path, trailing
    slashes removed first; ["."] for the empty path, ["/"] for a path of
    slashes only. *)
Definition isSlash (c : ascii) : bool := Ascii.eqb c "/"%char.

Fixpoint dropSlashes (l : list ascii) : list ascii :=
  match l with
  | c :: l' => if isSlash c then dropSlashes l' else l
  | [] => []
  end.

Fixpoint upToSlash (l : list ascii) : list ascii :=
  match l with
  | c :: l' => if isSlash c then [] else c :: upToSlash l'
  | [] => []
  end.

Definition path_Base (path : string) : string :=
  if String.eqb path "" then "."
  else
    (* the path read from its end: strip the slashes, keep the last element *)
    match upToSlash (dropSlashes (rev (list_ascii_of_string path))) with
    | [] => "/"
    | elem => string_of_list_ascii (rev elem)
    end.

(** A Go map from string to string; a missing key reads as the zero value. *)
Fixpoint map_index (m : list (string * string)) (k : string) : string :=
  match m with
  | [] => ""
  | (k', v) :: m' => if String.eqb k k' then v else map_index m' k
  end.

Section Packages.
Variable w : World.

Definition os_Stat (name : string) : Res FileInfo :=
  match sys_stat w name with
  | SysOk fi => Ok fi
  | SysErr errno => Err (IOError "stat" name errno)
  end.

Definition os_ReadDir (name : string) : Res (list DirEntry) :=
  match sys_readdir w name with
  | SysOk entries => Ok entries
  | SysErr errno => Err (IOError "readdir" name errno)
  end.

Definition os_Open (name : string) : M (Res File) :=
  match sys_open w name with
  | SysOk d => emit (EvOpen name) ;; ret (Ok {| f_name := name; f_content := d |})
  | SysErr errno => ret (Err (IOError "open" name errno))
  end.

Definition File_Close (f : File) : M unit := emit (EvFileClose (f_name f)).

(** [multipart.NewWriter(new(bytes.Buffer))]. *)
Definition multipart_NewWriter : M unit :=
  fun s =>
    Done tt {| st_writer := Some {| mp_boundary := rand_boundary w;
                                    mp_parts := [];
                                    mp_closed := false |};
               st_trace := st_trace s |}.

(** An operation on the writer of the call; a nil writer panics. *)
Definition withWriter {A} (f : Multipart -> A * Multipart) : M A :=
  fun s =>
    match st_writer s with
    | None => Panic s
    | Some m =>
        let (a, m') := f m in
        Done a {| st_writer := Some m'; st_trace := st_trace s |}
    end.

(** [writer.CreateFormFile(fieldname, filename)]: the part's header goes
    to the buffer at once; the [io.Writer] returned is the part, here its
    index.  Writing to a [bytes.Buffer] does not fail. *)
Definition Writer_CreateFormFile (fieldname filename : string)
  : M (nat * option error) :=
  withWriter (fun m =>
    ((length (mp_parts m), None),
     {| mp_boundary := mp_boundary m;
        mp_parts := mp_parts m ++ [{| p_name := fieldname;
                                      p_filename := filename;
                                      p_data := "" |}];
        mp_closed := mp_closed m |})).

(** A part takes writes while it is the last one and the writer is open. *)
Definition writable (m : Multipart) (formFile : nat) : bool :=
  Nat.eqb (S formFile) (length (mp_parts m)) && negb (mp_closed m).

Definition appendData (d : string) (p : Part) : Part :=
  {| p_name := p_name p; p_filename := p_filename p; p_data := p_data p ++ d |}.

Fixpoint writeLast (d : string) (ps : list Part) : list Part :=
  match ps with
  | [] => []
  | [p] => [appendData d p]
  | p :: ps' => p :: writeLast d ps'
  end.

(** [io.Copy(formFile, src)]: what [src] yields goes to the part, and the
    error that stopped the reading, if any, is returned. *)
Definition io_Copy (formFile : nat) (src : Reader) : M (option error) :=
  withWriter (fun m =>
    if writable m formFile then
      (r_err src,
       {| mp_boundary := mp_boundary m;
          mp_parts := writeLast (r_data src) (mp_parts m);
          mp_closed := mp_closed m |})
    else
      ((if String.eqb (r_data src) "" then r_err src else Some PartError), m)).

Definition Writer_Close : M unit :=
  withWriter (fun m =>
    (tt, {| mp_boundary := mp_boundary m;
            mp_parts := mp_parts m;
            mp_closed := true |})).

Definition Writer_Boundary : M string :=
  withWriter (fun m => (mp_boundary m, m)).

(** The buffer the writer writes to, as [http.NewRequest] receives it. *)
Definition buffer : M Multipart := withWriter (fun m => (m, m)).

(** [http.NewRequest(method, url, body)] fails when [url.Parse] does. *)
Definition http_NewRequest (method url : string) (body : option Multipart)
  : Res Request :=
  if url_rejects w url then Err (URLError "parse" url)
  else Ok {| Method := method; URL := url; Header := []; ReqBody := body |}.

(** [req.Header.Set(key, value)]. *)
Definition Header_Set (req : Request) (key value : string) : Request :=
  {| Method := Method req;
     URL := URL req;
     Header := (key, value)
               :: filter (fun kv => negb (String.eqb (fst kv) key)) (Header req);
     ReqBody := ReqBody req |}.

Definition Header_Get (req : Request) (key : string) : string :=
  map_index (Header req) key.

(** [client.httpClient.Do(req)]. *)
Definition httpClient_Do (client : Client) (req : Request) : M (Res Response) :=
  emit (EvDo req (transport w req)) ;; ret (transport w req).

(** ** Code common to the two packages *)

Definition apiPath : string := "/api/v0/".

Definition apiEndpoint : list (string * string) :=
  [("add", apiPath ++ "add"); ("cat", apiPath ++ "cat")].

Definition NewIPFSApi (Url : string) (timeout : nat)
  : option Client * option error :=
  if url_rejects w Url then (None, Some (URLError "parse" Url))
  else (Some {| base := Url;
                httpClient := {| Timeout := timeout |};
                url := Url |}, None).

Definition NewLocalApi : option Client * option error :=
  NewIPFSApi "http://127.0.0.1:5001" 4.

(** [readIPFSResponse]; the deferred [resp.Body.Close()] runs at each
    return. *)
Definition readIPFSResponse (resp : Response) : M (option IPFSResponse) :=
  let ret0 := zeroIPFSResponse in
  emit EvReadAll ;;
  match r_err (Body resp) with
  | Some _ => emit EvBodyClose ;; ret None
  | None =>
      let (ret1, _) := json_Unmarshal w (r_data (Body resp)) ret0 in
      emit EvBodyClose ;; ret (Some ret1)
  end.

Definition Cat (client : Client) (id : string)
  : M (option Response * option error) :=
  match http_NewRequest "POST"
          (((url client ++ map_index apiEndpoint "cat") ++ "?arg=") ++ id) None with
  | Err e => ret (None, Some e)
  | Ok req =>
      r <- httpClient_Do client req ;;
      match r with
      | Err e => ret (None, Some e)
      | Ok apiResponse => ret (Some apiResponse, None)
      end
  end.

(** The end of [Add] and [AddBinary] in both packages: the exchange, then
    the decoding. *)
Definition exchange (client : Client) (req : Request)
  : M (option IPFSResponse * option error) :=
  r <- httpClient_Do client req ;;
  match r with
  | Err e => ret (None, Some e)
  | Ok apiResponse =>
      v <- readIPFSResponse apiResponse ;;
      ret (v, None)
  end.

End Packages.

(** [for index, file := range entries { body }] with the variables the body
    assigns threaded as [acc]. *)
Fixpoint rangeEntries {A} (body : nat -> DirEntry -> A -> M A)
    (index : nat) (entries : list DirEntry) (acc : A) : M A :=
  match entries with
  | [] => ret acc
  | file :: rest =>
      acc' <- body index file acc ;;
      rangeEntries body (S index) rest acc'
  end.

(** ** Package main: [src/api.go] *)

Module PkgMain.
Section WithWorld.
Variable w : World.

(** [createMultiPartBody] and [createDirectoryMultiPartBody] call each
    other; [fuel] bounds the depth of the calls.  The [*multipart.Writer]
    argument is the writer of the call, held in the state. *)
Fixpoint createMultiPartBody (fuel : nat) (pathName : string) {struct fuel}
  : M (string * option error) :=
  match fuel with
  | O => outOfFuel
  | S fuel' =>
      let writerBoundary := "" in
      match os_Stat w pathName with
      | Err e => ret ("", Some e)
      | Ok fileInfo =>
          if fi_IsDir fileInfo then
            '(writerBoundary, _) <- createDirectoryMultiPartBody fuel' pathName ;;
            ret (writerBoundary, None)
          else
            '(formFile, err) <- Writer_CreateFormFile "file" (path_Base pathName) ;;
            match err with
            | Some e => ret (writerBoundary, Some e)
            | None =>
                r <- os_Open w pathName ;;
                match r with
                | Err e => ret (writerBoundary, Some e)
                | Ok file =>
                    (* defer file.Close() *)
                    err <- io_Copy formFile (File_Reader file) ;;
                    match err with
                    | Some e => File_Close file ;; ret (writerBoundary, Some e)
                    | None =>
                        writerBoundary <- Writer_Boundary ;;
                        File_Close file ;;
                        ret (writerBoundary, None)
                    end
                end
            end
      end
  end
with createDirectoryMultiPartBody (fuel : nat) (pathName : string) {struct fuel}
  : M (string * option error) :=
  match fuel with
  | O => outOfFuel
  | S fuel' =>
      let writerBoundary := "" in
      match os_ReadDir w pathName with
      | Err e => ret (writerBoundary, Some e)
      | Ok entries =>
          writerBoundary <-
            rangeEntries
              (fun index file writerBoundary =>
                 if de_IsDir file then
                   createDirectoryMultiPartBody fuel' (pathName ++ de_Name file) ;;
                   ret writerBoundary
                 else if Nat.eqb index 0 || String.eqb writerBoundary "" then
                   '(writerBoundary, _) <-
                     createMultiPartBody fuel' ((pathName ++ "/") ++ de_Name file) ;;
                   ret writerBoundary
                 else
                   createMultiPartBody fuel' ((pathName ++ "/") ++ de_Name file) ;;
                   ret writerBoundary)
              0 entries writerBoundary ;;
          ret (writerBoundary, None)
      end
  end.

Definition Add (fuel : nat) (client : Client) (pathName : string)
  : M (option IPFSResponse * option error) :=
  multipart_NewWriter w ;;
  '(boundary, err) <- createMultiPartBody fuel pathName ;;
  match err with
  | Some e => ret (None, Some e)
  | None =>
      Writer_Close ;;
      multiPartBody <- buffer ;;
      let r := http_NewRequest w "POST"
                 (url client ++ map_index apiEndpoint "add") (Some multiPartBody) in
      let contentType := "multipart/form-data; boundary=" ++ boundary in
      match r with
      | Err _ => panic   (* req is nil when req.Header.Set runs *)
      | Ok req =>
          let req := Header_Set req "Content-Type" contentType in
          exchange w client req
      end
  end.

End WithWorld.
End PkgMain.

(** ** Package client: the second text of [src/client/api.go] *)

Module PkgClient.
Section WithWorld.
Variable w : World.

Definition createMultiPartBody (client : Client) (file : Reader) (fileName : string)
  : M (option Request * option error) :=
  multipart_NewWriter w ;;
  '(formFile, err) <- Writer_CreateFormFile "file" fileName ;;
  match err with
  | Some e => ret (None, Some e)
  | None =>
      err <- io_Copy formFile file ;;
      match err with
      | Some e => ret (None, Some e)
      | None =>
          Writer_Close ;;
          multipartBody <- buffer ;;
          match http_NewRequest w "POST"
                  (url client ++ map_index apiEndpoint "add") (Some multipartBody) with
          | Err e => ret (None, Some e)
          | Ok req =>
              boundary <- Writer_Boundary ;;
              let contenType := "multipart/form-data; boundary=" ++ boundary in
              ret (Some (Header_Set req "Content-Type" contenType), None)
          end
      end
  end.

(** The loop of [createDirectoryMultiPartBody].  Each opened file is
    closed by a deferred call, so the loop hands back the files opened so
    far, last first, with the error that ends it early. *)
Fixpoint directoryLoop (path : string) (entries : list DirEntry)
    (deferred : list File) : M (option error * list File) :=
  match entries with
  | [] => ret (None, deferred)
  | file :: rest =>
      if de_IsDir file then
        directoryLoop path rest deferred   (* continue *)
      else
        '(formFile, err) <- Writer_CreateFormFile "file" (de_Name file) ;;
        match err with
        | Some e => ret (Some e, deferred)
        | None =>
            r <- os_Open w ((path ++ "/") ++ de_Name file) ;;
            match r with
            | Err e =>
                (* the deferred Close of the nil file does nothing *)
                ret (Some e, deferred)
            | Ok fileContent =>
                (* the error of io.Copy is assigned and never read *)
                io_Copy formFile (File_Reader fileContent) ;;
                directoryLoop path rest (fileContent :: deferred)
            end
        end
  end.

Fixpoint runDeferred (deferred : list File) : M unit :=
  match deferred with
  | [] => ret tt
  | f :: rest => File_Close f ;; runDeferred rest
  end.

Definition createDirectoryMultiPartBody (client : Client) (path : string)
  : M (option Request * option error) :=
  multipart_NewWriter w ;;
  match os_ReadDir w path with
  | Err e => ret (None, Some e)
  | Ok entries =>
      '(err, deferred) <- directoryLoop path entries [] ;;
      match err with
      | Some e => runDeferred deferred ;; ret (None, Some e)
      | None =>
          multipartBody <- buffer ;;
          match http_NewRequest w "POST"
                  (url client ++ map_index apiEndpoint "add") (Some multipartBody) with
          | Err e => runDeferred deferred ;; ret (None, Some e)
          | Ok req =>
              boundary <- Writer_Boundary ;;
              let contenType := "multipart/form-data; boundary=" ++ boundary in
              runDeferred deferred ;;
              ret (Some (Header_Set req "Content-Type" contenType), None)
          end
      end
  end.

(** [client.httpClient.Do(request)] and what follows; a nil request
    panics in [Do]. *)
Definition doRequest (client : Client) (request : option Request)
  : M (option IPFSResponse * option error) :=
  match request with
  | None => panic
  | Some req => exchange w client req
  end.

Definition Add (client : Client) (pathName : string)
  : M (option IPFSResponse * option error) :=
  match os_Stat w pathName with
  | Err e => ret (None, Some e)
  | Ok fileInfo =>
      if fi_IsDir fileInfo then
        '(request, err) <- createDirectoryMultiPartBody client pathName ;;
        match err with
        | Some e => ret (None, Some e)
        | None => doRequest client request
        end
      else
        r <- os_Open w pathName ;;
        match r with
        | Err e =>
            (* defer file.Close() on the nil file does nothing *)
            ret (None, Some e)
        | Ok file =>
            (* defer file.Close() *)
            '(request, err) <- createMultiPartBody client (File_Reader file) pathName ;;
            match err with
            | Some e => File_Close file ;; ret (None, Some e)
            | None =>
                v <- doRequest client request ;;
                File_Close file ;;
                ret v
            end
      end
  end.

Definition AddBinary (client : Client) (content : Reader) (fileName : string)
  : M (option IPFSResponse * option error) :=
  '(req, err) <- createMultiPartBody client content fileName ;;
  match err with
  | Some e => ret (None, Some e)
  | None => doRequest client req
  end.

End WithWorld.
End PkgClient.

(** ** Observations on traces *)

Definition fileEvent (e : Event) : bool :=
  match e with
  | EvOpen _ | EvFileClose _ => true
  | _ => false
  end.

(** A quiet computation adds only file events to the trace and keeps an
    allocated writer allocated. *)
Definition quiet {A} (m : M A) : Prop :=
  forall s,
    match m s with
    | Done _ s' | Panic s' =>
        (exists l, st_trace s' = (st_trace s ++ l)%list /\ forallb fileEvent l = true)
        /\ (st_writer s <> None -> st_writer s' <> None)
    | OutOfFuel => True
    end.

(** What [Add] and [AddBinary] return once a request reaches
    [httpClient.Do], and the events of that exchange, read off the world. *)
Definition exchange_result (w : World) (req : Request)
  : option IPFSResponse * option error :=
  match transport w req with
  | Err e => (None, Some e)
  | Ok resp =>
      match r_err (Body resp) with
      | Some _ => (None, None)
      | None =>
          (Some (fst (json_Unmarshal w (r_data (Body resp)) zeroIPFSResponse)), None)
      end
  end.

Definition exchange_events (w : World) (req : Request) : list Event :=
  EvDo req (transport w req)
  :: match transport w req with
     | Ok _ => [EvReadAll; EvBodyClose]
     | Err _ => []
     end.

(** The two ways a run of [Add] or [AddBinary] can go: it ends before any
    request is sent, or it sends one request between file events and
    returns what the exchange gives. *)
Definition add_shape (w : World)
    (o : Outcome (option IPFSResponse * option error)) : Prop :=
  forallb fileEvent (events o) = true
  \/ exists l req l',
       forallb fileEvent l = true /\ forallb fileEvent l' = true
       /\ events o = (l ++ exchange_events w req ++ l')%list
       /\ result o = Some (exchange_result w req).

Definition add_shape_from (w : World)
    (m : M (option IPFSResponse * option error)) : Prop :=
  forall s, forallb fileEvent (st_trace s) = true -> add_shape w (m s).

(** A response body is acquired and closed again: every answer of
    [httpClient.Do] in the trace is followed by the closing of its body. *)
Definition closes_bodies (tr : list Event) : Prop :=
  forall req resp,
    In (EvDo req (Ok resp)) tr ->
    exists l l', tr = (l ++ EvDo req (Ok resp) :: l')%list /\ In EvBodyClose l'.

(** What [json.Unmarshal] leaves in the fresh [IPFSResponse] for the bytes
    of a response body. *)
Definition decoded (w : World) (resp : Response) : IPFSResponse :=
  fst (json_Unmarshal w (r_data (Body resp)) zeroIPFSResponse).

(** The specification's sentence on answers that cannot be parsed, for a
    run [o]: whenever the exchange completes, the body is read to its end
    and [json.Unmarshal] reports an error, the run returns the zero value
    and a nil error. *)
Definition parse_failure_gives_zero (w : World)
    (o : Outcome (option IPFSResponse * option error)) : Prop :=
  forall req resp e,
    In (EvDo req (Ok resp)) (events o) ->
    r_err (Body resp) = None ->
    snd (json_Unmarshal w (r_data (Body resp)) zeroIPFSResponse) = Some e ->
    result o = Some (Some zeroIPFSResponse, None).

(** The request of [Cat]. *)
Definition catRequest (client : Client) (id : string) : Request :=
  {| Method := "POST";
     URL := url client ++ "/api/v0/cat?arg=" ++ id;
     Header := [];
     ReqBody := None |}.

(** ** Concrete worlds, after the repository's tests *)

Definition table {A} (t : list (string * A)) (name : string) : Sys A :=
  match find (fun kv => String.eqb (fst kv) name) t with
  | Some (_, a) => SysOk a
  | None => SysErr ENOENT
  end.

Definition regular : FileInfo := {| fi_IsDir := false |}.
Definition directory : FileInfo := {| fi_IsDir := true |}.
Definition fileEntry (name : string) : DirEntry := {| de_Name := name; de_IsDir := false |}.
Definition dirEntry (name : string) : DirEntry := {| de_Name := name; de_IsDir := true |}.
Definition content (data : string) : FileData := {| fd_data := data; fd_err := None |}.

Definition localClient : Client :=
  {| base := "http://127.0.0.1:5001";
     httpClient := {| Timeout := 4 |};
     url := "http://127.0.0.1:5001" |}.

(** The files of the repository's tests: [/tmp/test.txt] of TestAddFile and
    the directory of TestAddFolder, here [/tmp/test]; besides, an empty
    directory [/tmp/empty] and a directory [/tmp/tree] with a file and a
    subdirectory (a doubled slash in a path reads as one).  [files] says
    what opening each file gives; the node gives [answer] to every request
    and the decoder behaves as [unmarshal]. *)
Definition testWorldWith (files : string -> Sys FileData) (answer : Res Response)
    (unmarshal : string -> IPFSResponse -> IPFSResponse * option error) : World :=
  {| sys_stat := table [("/tmp/test.txt", regular);
                        ("/tmp/test", directory);
                        ("/tmp/test/test1", regular);
                        ("/tmp/test/test2", regular);
                        ("/tmp/empty", directory);
                        ("/tmp/tree", directory);
                        ("/tmp/tree/", directory);
                        ("/tmp/tree/top", regular);
                        ("/tmp/tree//top", regular);
                        ("/tmp/tree/sub", directory);
                        ("/tmp/tree/sub/inner", regular)];
     sys_readdir := table [("/tmp/test", [fileEntry "test1"; fileEntry "test2"]);
                           ("/tmp/empty", []);
                           ("/tmp/tree", [dirEntry "sub"; fileEntry "top"]);
                           ("/tmp/tree/", [dirEntry "sub"; fileEntry "top"]);
                           ("/tmp/tree/sub", [fileEntry "inner"])];
     sys_open := files;
     rand_boundary := "7d3f1c";
     url_rejects := fun _ => false;
     transport := fun _ => answer;
     json_Unmarshal := unmarshal |}.

Definition testFiles : string -> Sys FileData :=
  table [("/tmp/test.txt", content "test for file");
         ("/tmp/test/test1", content "Hello 1");
         ("/tmp/test/test2", content "Hello 2");
         ("/tmp/tree/top", content "top");
         ("/tmp/tree//top", content "top");
         ("/tmp/tree/sub/inner", content "inner")].

Definition testWorld : Res Response ->
    (string -> IPFSResponse -> IPFSResponse * option error) -> World :=
  testWorldWith testFiles.

Definition quote : string := String (ascii_of_nat 34) EmptyString.
Definition quoted (s : string) : string := quote ++ s ++ quote.

(** A decoder that stores nothing and reports a syntax error. *)
Definition rejectAll (data : string) (v : IPFSResponse) : IPFSResponse * option error :=
  (v, Some (DecodeError SyntaxError)).

Definition bytesReader (data : string) : Reader := {| r_data := data; r_err := None |}.

(** A body whose stream breaks before its end. *)
Definition brokenBody : Response :=
  {| StatusCode := 200;
     Body := {| r_data := "{"; r_err := Some (NetworkError "unexpected EOF") |} |}.

(** The JSON object with a number where the string [Hash] is expected. *)
Definition hashIsNumber : string :=
  "{" ++ quoted "Name" ++ ":" ++ quoted "a" ++ ","
      ++ quoted "Hash" ++ ":1,"
      ++ quoted "Size" ++ ":" ++ quoted "2" ++ "}".

(** [encoding/json] on [hashIsNumber]: [Name] and [Size] are stored, the
    number is skipped and reported as an [UnmarshalTypeError]; any other
    text is taken as rejected here. *)
Definition unmarshalHashIsNumber (data : string) (v : IPFSResponse)
  : IPFSResponse * option error :=
  if String.eqb data hashIsNumber then
    ({| Name := "a"; Hash := Hash v; Size := "2" |},
     Some (DecodeError UnmarshalTypeError))
  else rejectAll data v.

Definition hashIsNumberResponse : Response :=
  {| StatusCode := 200; Body := {| r_data := hashIsNumber; r_err := None |} |}.

Definition hashIsNumberWorld : World :=
  testWorld (Ok hashIsNumberResponse) unmarshalHashIsNumber.

Definition brokenBodyWorld : World := testWorld (Ok brokenBody) rejectAll.

(** ** The requests [Add] builds *)

(** The bytes a part receives from the file at [name]: all of the file,
    what could be read of it before a read error, nothing when it cannot be
    opened. *)
Definition readData (w : World) (name : string) : string :=
  match sys_open w name with
  | SysOk d => fd_data d
  | SysErr _ => ""
  end.

Definition opens (w : World) (name : string) : bool :=
  match sys_open w name with
  | SysOk _ => true
  | SysErr _ => false
  end.

Definition regularEntries (entries : list DirEntry) : list DirEntry :=
  filter (fun e => negb (de_IsDir e)) entries.

Definition subdirectories (entries : list DirEntry) : list DirEntry :=
  filter de_IsDir entries.

Definition entryPath (path : string) (e : DirEntry) : string :=
  (path ++ "/") ++ de_Name e.

(** The part for a directory entry: field ["file"], the entry's name, the
    bytes of the file. *)
Definition entryPart (w : World) (path : string) (e : DirEntry) : Part :=
  {| p_name := "file";
     p_filename := de_Name e;
     p_data := readData w (entryPath path e) |}.

(** The request both packages build around a buffer: a POST to the [add]
    endpoint whose Content-Type names [boundary]. *)
Definition multipartRequest (client : Client) (m : Multipart) (boundary : string)
  : Request :=
  {| Method := "POST";
     URL := url client ++ "/api/v0/add";
     Header := [("Content-Type", "multipart/form-data; boundary=" ++ boundary)];
     ReqBody := Some m |}.

(** The boundary a request announces in its Content-Type is the one its
    body is delimited with. *)
Definition boundary_consistent (req : Request) : Prop :=
  exists m,
    ReqBody req = Some m
    /\ Header_Get req "Content-Type"
       = "multipart/form-data; boundary=" ++ mp_boundary m.

(** The parts of a directory upload as the specification describes them:
    one part named ["file"] per entry that is not a directory, under the
    entry's name, in the order of the listing. *)
Definition directory_parts (entries : list DirEntry) (m : Multipart) : Prop :=
  map (fun p => (p_name p, p_filename p)) (mp_parts m)
  = map (fun e => ("file", de_Name e)) (regularEntries entries).

(** A name as a directory listing gives it: not empty, no slash. *)
Definition validName (name : string) : bool :=
  negb (String.eqb name "")
  && forallb (fun c => negb (isSlash c)) (list_ascii_of_string name).

(** The buffer and the request of package client for a directory whose
    listing is [entries]. *)
Definition directoryBuffer (w : World) (path : string) (entries : list DirEntry)
  : Multipart :=
  {| mp_boundary := rand_boundary w;
     mp_parts := map (entryPart w path) (regularEntries entries);
     mp_closed := false |}.

Definition directoryRequest (w : World) (client : Client) (path : string)
    (entries : list DirEntry) : Request :=
  multipartRequest client (directoryBuffer w path entries) (rand_boundary w).

(** The buffer and the request of package client for one stream sent under
    [fileName]. *)
Definition fileBuffer (w : World) (fileName data : string) : Multipart :=
  {| mp_boundary := rand_boundary w;
     mp_parts := [{| p_name := "file"; p_filename := fileName; p_data := data |}];
     mp_closed := true |}.

Definition fileRequest (w : World) (client : Client) (fileName data : string)
  : Request :=
  multipartRequest client (fileBuffer w fileName data) (rand_boundary w).

(** The part package main writes for the file at [name]. *)
Definition filePart (w : World) (name : string) : Part :=
  {| p_name := "file"; p_filename := path_Base name; p_data := readData w name |}.

(** The file at [name] opens and reads to its end. *)
Definition readable (w : World) (name : string) : bool :=
  match sys_open w name with
  | SysOk d => match fd_err d with None => true | Some _ => false end
  | SysErr _ => false
  end.

Definition statsRegular (w : World) (name : string) : bool :=
  match sys_stat w name with
  | SysOk fi => negb (fi_IsDir fi)
  | SysErr _ => false
  end.

Definition unlistable (w : World) (name : string) : bool :=
  match sys_readdir w name with
  | SysOk _ => false
  | SysErr _ => true
  end.

(** The node's answer to a successful [add] of [/tmp/test.txt]: one JSON
    object, and the value [encoding/json] decodes it to. *)
Definition addedJSON : string :=
  "{" ++ quoted "Name" ++ ":" ++ quoted "test.txt" ++ ","
      ++ quoted "Hash" ++ ":" ++ quoted "QmRNXpcZH7UYceKenWYnXaHX3KiuggX19v2Knc5EB1vrcH" ++ ","
      ++ quoted "Size" ++ ":" ++ quoted "21" ++ "}".

Definition added : IPFSResponse :=
  {| Name := "test.txt"; Hash := "QmRNXpcZH7UYceKenWYnXaHX3KiuggX19v2Knc5EB1vrcH";
     Size := "21" |}.

Definition okResponse : Response :=
  {| StatusCode := 200; Body := bytesReader addedJSON |}.

Definition storeAdded (data : string) (v : IPFSResponse) : IPFSResponse * option error :=
  if String.eqb data addedJSON then (added, None) else rejectAll data v.

(** The node answers every request with [okResponse]. *)
Definition nodeWorld : World := testWorld (Ok okResponse) storeAdded.

(** As [nodeWorld], but [/tmp/test/test1] cannot be opened. *)
Definition lockedFileWorld : World :=
  testWorldWith
    (fun name => if String.eqb name "/tmp/test/test1" then SysErr EACCES
                 else testFiles name)
    (Ok okResponse) storeAdded.

(** As [nodeWorld], but reading [/tmp/test/test1] fails after three bytes. *)
Definition failingReadWorld : World :=
  testWorldWith
    (fun name => if String.eqb name "/tmp/test/test1"
                 then SysOk {| fd_data := "Hel"; fd_err := Some EIO |}
                 else testFiles name)
    (Ok okResponse) storeAdded.

(** A computation that, started with a writer of boundary [b], ends with a
    writer of boundary [b] and a value satisfying [P]. *)
Definition preserves (b : string) {A} (P : A -> Prop) (m : M A) : Prop :=
  forall s wr,
    st_writer s = Some wr -> mp_boundary wr = b ->
    match m s with
    | Done a s' => (exists wr', st_writer s' = Some wr' /\ mp_boundary wr' = b) /\ P a
    | Panic _ | OutOfFuel => True
    end.

(** What the builders of package main return as the boundary: the
    writer's, or the empty string. *)
Definition boundary_or_empty (b : string) (r : string * option error) : Prop :=
  fst r = "" \/ fst r = b.

(** ** File handles in a trace *)

Fixpoint remove_first (name : string) (l : list string) : list string :=
  match l with
  | [] => []
  | x :: l' => if String.eqb x name then l' else x :: remove_first name l'
  end.

(** The files open at the end of a trace that starts with [opened] open,
    the last opened first. *)
Fixpoint open_files (opened : list string) (tr : list Event) : list string :=
  match tr with
  | [] => opened
  | EvOpen name :: tr' => open_files (name :: opened) tr'
  | EvFileClose name :: tr' => open_files (remove_first name opened) tr'
  | _ :: tr' => open_files opened tr'
  end.

(** The largest number of files open at once along a trace. *)
Fixpoint peak_open (opened : list string) (tr : list Event) : nat :=
  match tr with
  | [] => length opened
  | EvOpen name :: tr' => Nat.max (length opened) (peak_open (name :: opened) tr')
  | EvFileClose name :: tr' =>
      Nat.max (length opened) (peak_open (remove_first name opened) tr')
  | _ :: tr' => peak_open opened tr'
  end.

(** A trace made of files opened and closed again one after the other. *)
Fixpoint pairs (l : list Event) : bool :=
  match l with
  | [] => true
  | EvOpen name :: EvFileClose name' :: l' => String.eqb name name' && pairs l'
  | _ => false
  end.

(** A computation that, given a writer, does not panic, keeps the writer
    and adds only such pairs to the trace. *)
Definition paired {A} (m : M A) : Prop :=
  forall s,
    st_writer s <> None ->
    match m s with
    | Done _ s' =>
        st_writer s' <> None
        /\ exists l, st_trace s' = (st_trace s ++ l)%list /\ pairs l = true
    | Panic _ => False
    | OutOfFuel => True
    end.

(** Files opened one after the other, all held, then closed in the reverse
    order. *)
Definition held_then_released (names : list string) : list Event :=
  (map EvOpen names ++ map EvFileClose (rev names))%list.

(** ** What [Add] and [AddBinary] can return *)

(** A run of [Add] or [AddBinary] either ends before any request is sent,
    with no answer at all (a panic, no fuel) or with a nil result and an
    error, or sends one request between file events and returns what the
    exchange gives. *)
Definition add_outcome (w : World)
    (o : Outcome (option IPFSResponse * option error)) : Prop :=
  (forallb fileEvent (events o) = true
   /\ (result o = None \/ exists e, result o = Some (None, Some e)))
  \/ exists l req l',
       forallb fileEvent l = true /\ forallb fileEvent l' = true
       /\ events o = (l ++ exchange_events w req ++ l')%list
       /\ result o = Some (exchange_result w req).

Definition add_outcome_from (w : World)
    (m : M (option IPFSResponse * option error)) : Prop :=
  forall s, forallb fileEvent (st_trace s) = true -> add_outcome w (m s).

(** As [nodeWorld], but the directory [/tmp/empty] cannot be listed. *)
Definition sealedDirectoryWorld : World :=
  {| sys_stat := sys_stat nodeWorld;
     sys_readdir := fun name => if String.eqb name "/tmp/empty" then SysErr EACCES
                                else sys_readdir nodeWorld name;
     sys_open := sys_open nodeWorld;
     rand_boundary := rand_boundary nodeWorld;
     url_rejects := url_rejects nodeWorld;
     transport := transport nodeWorld;
     json_Unmarshal := json_Unmarshal nodeWorld |}.

(** The run ended in a panic. *)
Definition panicked {A} (o : Outcome A) : bool :=
  match o with
  | Panic _ => true
  | _ => false
  end.

(** [url.Parse] refuses a string that holds an ASCII control character. *)
Definition hasControl (u : string) : bool :=
  existsb (fun c => Nat.ltb (nat_of_ascii c) 32 || Nat.eqb (nat_of_ascii c) 127)
          (list_ascii_of_string u).

Definition newline : string := String (ascii_of_nat 10) EmptyString.

(** As [nodeWorld], with that check of [url.Parse]. *)
Definition strictUrlWorld : World :=
  {| sys_stat := sys_stat nodeWorld;
     sys_readdir := sys_readdir nodeWorld;
     sys_open := sys_open nodeWorld;
     rand_boundary := rand_boundary nodeWorld;
     url_rejects := hasControl;
     transport := transport nodeWorld;
     json_Unmarshal := json_Unmarshal nodeWorld |}.

(** A client whose URL was read with its end of line. *)
Definition newlineClient : Client :=
  {| base := "http://127.0.0.1:5001" ++ newline;
     httpClient := {| Timeout := 4 |};
     url := "http://127.0.0.1:5001" ++ newline |}.

(** As [nodeWorld], but [/tmp/test/test2] cannot be opened. *)
Definition lockedSecondWorld : World :=
  testWorldWith
    (fun name => if String.eqb name "/tmp/test/test2" then SysErr EACCES
                 else testFiles name)
    (Ok okResponse) storeAdded.

(** * Properties *)

Local Open Scope list_scope.

(** ** Traces *)

Lemma sent_app (l1 l2 : list Event) : sent (l1 ++ l2) = (sent l1 ++ sent l2)%list.
Proof.
  induction l1 as [|e l1 IH]; simpl; [reflexivity|].
  destruct e; simpl; rewrite IH; reflexivity.
Qed.

Lemma sent_fileEvents (l : list Event) : forallb fileEvent l = true -> sent l = [].
Proof.
  induction l as [|e l IH]; simpl; [reflexivity|].
  destruct e; simpl; intros H; try discriminate; auto.
Qed.

Lemma open_bodies_app (l1 l2 : list Event) (n : nat) :
  open_bodies n (l1 ++ l2) = open_bodies (open_bodies n l1) l2.
Proof.
  revert n. induction l1 as [|e l1 IH]; intros n; simpl; [reflexivity|].
  destruct e as [p|p|req [resp|err]| |]; simpl; apply IH.
Qed.

Lemma open_bodies_fileEvents (l : list Event) (n : nat) :
  forallb fileEvent l = true -> open_bodies n l = n.
Proof.
  revert n. induction l as [|e l IH]; intros n; simpl; [reflexivity|].
  destruct e; simpl; intros H; try discriminate; auto.
Qed.

Lemma fileEvents_no_Do (l : list Event) (req : Request) (r : Res Response) :
  forallb fileEvent l = true -> ~ In (EvDo req r) l.
Proof.
  intros H Hin. rewrite forallb_forall in H. apply H in Hin. discriminate.
Qed.

Lemma quiet_ret {A} (a : A) : quiet (ret a).
Proof.
  intros s; simpl. split; [exists []; rewrite app_nil_r; auto | auto].
Qed.

Lemma quiet_panic {A} : quiet (@panic A).
Proof.
  intros s; simpl. split; [exists []; rewrite app_nil_r; auto | auto].
Qed.

Lemma quiet_outOfFuel {A} : quiet (@outOfFuel A).
Proof. intros s; exact I. Qed.

Lemma quiet_bind {A B} (m : M A) (k : A -> M B) :
  quiet m -> (forall a, quiet (k a)) -> quiet (bind m k).
Proof.
  intros Hm Hk s. unfold bind. specialize (Hm s).
  destruct (m s) as [a s1|s1|]; [|exact Hm|exact I].
  destruct Hm as [[l1 [E1 F1]] W1].
  specialize (Hk a s1).
  destruct (k a s1) as [b s2|s2|]; [| |exact I];
    destruct Hk as [[l2 [E2 F2]] W2];
    (split; [exists (l1 ++ l2); rewrite E2, E1, app_assoc, forallb_app, F1, F2; auto
            | auto]).
Qed.

Lemma quiet_emit (e : Event) : fileEvent e = true -> quiet (emit e).
Proof.
  intros H s; simpl. split; [exists [e]; simpl; rewrite H; auto | auto].
Qed.

Lemma quiet_withWriter {A} (f : Multipart -> A * Multipart) : quiet (withWriter f).
Proof.
  intros s. unfold withWriter.
  destruct (st_writer s) as [m|] eqn:E.
  - destruct (f m) as [a m']. simpl.
    split; [exists []; rewrite app_nil_r; auto | intros _; discriminate].
  - simpl. split; [exists []; rewrite app_nil_r; auto | rewrite E; auto].
Qed.

Lemma quiet_NewWriter (w : World) : quiet (multipart_NewWriter w).
Proof.
  intros s; simpl. split; [exists []; rewrite app_nil_r; auto | intros _; discriminate].
Qed.

Lemma quiet_Open (w : World) (name : string) : quiet (os_Open w name).
Proof.
  unfold os_Open. destruct (sys_open w name).
  - apply quiet_bind; [apply quiet_emit; reflexivity | intros; apply quiet_ret].
  - apply quiet_ret.
Qed.

Lemma quiet_Close (f : File) : quiet (File_Close f).
Proof. apply quiet_emit; reflexivity. Qed.

Lemma quiet_rangeEntries {A} (body : nat -> DirEntry -> A -> M A) :
  (forall i e a, quiet (body i e a)) ->
  forall entries i a, quiet (rangeEntries body i entries a).
Proof.
  intros Hb entries. induction entries as [|e rest IH]; intros i a; simpl.
  - apply quiet_ret.
  - apply quiet_bind; [apply Hb | intros a'; apply IH].
Qed.

Create HintDb quiet.
#[export] Hint Resolve quiet_ret quiet_panic quiet_outOfFuel quiet_withWriter
  quiet_NewWriter quiet_Open quiet_Close : quiet.

Ltac quiet_step :=
  match goal with
  | |- quiet (bind _ _) => apply quiet_bind; [| intros ]
  | |- quiet (match ?x with _ => _ end) => destruct x
  | |- quiet (if ?b then _ else _) => destruct b
  | |- quiet (let (_, _) := ?p in _) => destruct p
  | |- quiet _ => solve [auto with quiet]
  end.

Ltac quiet_tac := repeat quiet_step.

Section MainQuiet.
Variable w : World.

Lemma main_quiet_builders (fuel : nat) :
  (forall pathName, quiet (PkgMain.createMultiPartBody w fuel pathName))
  /\ (forall pathName, quiet (PkgMain.createDirectoryMultiPartBody w fuel pathName)).
Proof.
  induction fuel as [|fuel [IHf IHd]]; split; intros pathName; simpl;
    try apply quiet_outOfFuel.
  - unfold Writer_CreateFormFile, io_Copy, Writer_Boundary. quiet_tac.
  - quiet_tac. apply quiet_rangeEntries. intros i e b. quiet_tac; auto.
Qed.

End MainQuiet.

(** ** The exchange *)

Lemma exchange_run (w : World) (client : Client) (req : Request) (s : State) :
  exchange w client req s
  = Done (exchange_result w req)
         {| st_writer := st_writer s;
            st_trace := st_trace s ++ exchange_events w req |}.
Proof.
  unfold exchange, httpClient_Do, exchange_result, exchange_events, bind, emit, ret.
  destruct (transport w req) as [resp|e]; simpl.
  - unfold readIPFSResponse, bind, emit, ret.
    destruct (r_err (Body resp)); simpl.
    + rewrite <- !app_assoc. reflexivity.
    + destruct (json_Unmarshal w (r_data (Body resp)) zeroIPFSResponse); simpl.
      rewrite <- !app_assoc. reflexivity.
  - reflexivity.
Qed.

Lemma exchange_events_bodies (w : World) (req : Request) (n : nat) :
  open_bodies n (exchange_events w req) = n.
Proof.
  unfold exchange_events. destruct (transport w req); reflexivity.
Qed.

Lemma exchange_events_sent (w : World) (req : Request) :
  sent (exchange_events w req) = [req].
Proof.
  unfold exchange_events. destruct (transport w req); reflexivity.
Qed.

Lemma exchange_events_Do (w : World) (req req' : Request) (r : Res Response) :
  In (EvDo req' r) (exchange_events w req) -> req' = req /\ r = transport w req.
Proof.
  unfold exchange_events. intros [H|H].
  - inversion H; auto.
  - destruct (transport w req); simpl in H; intuition discriminate.
Qed.

(** Consequences of [add_shape]. *)

Lemma add_shape_bodies (w : World) o : add_shape w o -> open_bodies 0 (events o) = 0.
Proof.
  intros [H|(l & req & l' & Hl & Hl' & E & _)].
  - apply open_bodies_fileEvents; exact H.
  - rewrite E, !open_bodies_app, (open_bodies_fileEvents l), exchange_events_bodies by assumption.
    apply open_bodies_fileEvents; assumption.
Qed.

Lemma add_shape_Do (w : World) o (req : Request) (r : Res Response) :
  add_shape w o -> In (EvDo req r) (events o) ->
  r = transport w req /\ result o = Some (exchange_result w req).
Proof.
  intros [H|(l & req0 & l' & Hl & Hl' & E & R)] Hin.
  - exfalso. exact (fileEvents_no_Do _ _ _ H Hin).
  - rewrite E in Hin. apply in_app_or in Hin. destruct Hin as [Hin|Hin].
    + exfalso. exact (fileEvents_no_Do _ _ _ Hl Hin).
    + apply in_app_or in Hin. destruct Hin as [Hin|Hin].
      * apply exchange_events_Do in Hin. destruct Hin; subst. auto.
      * exfalso. exact (fileEvents_no_Do _ _ _ Hl' Hin).
Qed.

Lemma add_shape_sent (w : World) o :
  add_shape w o -> length (sent (events o)) <= 1.
Proof.
  intros [H|(l & req & l' & Hl & Hl' & E & _)].
  - rewrite sent_fileEvents by assumption. simpl; lia.
  - rewrite E, !sent_app, (sent_fileEvents l), (sent_fileEvents l'), exchange_events_sent
      by assumption.
    simpl; lia.
Qed.

(** A quiet builder followed by the exchange. *)
Lemma quiet_run {A} (m : M A) (s : State) :
  quiet m ->
  match m s with
  | Done _ s' | Panic s' =>
      exists l, st_trace s' = st_trace s ++ l /\ forallb fileEvent l = true
  | OutOfFuel => True
  end.
Proof.
  intros H. specialize (H s). destruct (m s); tauto.
Qed.

Section MainShape.
Variable w : World.

Lemma main_Add_shape (fuel : nat) (client : Client) (pathName : string) :
  add_shape w (exec (PkgMain.Add w fuel client pathName)).
Proof.
  unfold exec, PkgMain.Add, bind. simpl.
  set (s0 := {| st_writer := _; st_trace := [] |}).
  pose proof (proj1 (main_quiet_builders w fuel) pathName s0) as Q.
  destruct (PkgMain.createMultiPartBody w fuel pathName s0) as [[b err] s1|s1|];
    [| left; simpl; destruct Q as [[l [E F]] _]; rewrite E; exact F
     | left; reflexivity ].
  destruct Q as [[l [E F]] W]. simpl in E.
  destruct err as [e|].
  - left. simpl. rewrite E. exact F.
  - unfold Writer_Close, buffer, withWriter.
    destruct (st_writer s1) as [m|] eqn:Em; [|exfalso; apply W; [discriminate|reflexivity]].
    simpl. unfold http_NewRequest.
    destruct (url_rejects w _).
    + left. simpl. rewrite E. exact F.
    + rewrite exchange_run. right.
      eexists l, _, []. cbn [events result st_trace].
      rewrite E, app_nil_r. repeat split; auto.
Qed.

End MainShape.

Section ClientShape.
Variable w : World.

Lemma shape_ret v : add_shape_from w (ret v).
Proof. intros s H. left. exact H. Qed.

Lemma shape_panic : add_shape_from w panic.
Proof. intros s H. left. exact H. Qed.

Lemma shape_bind_quiet {A} (m : M A) k :
  quiet m -> (forall a, add_shape_from w (k a)) -> add_shape_from w (bind m k).
Proof.
  intros Q Hk s Hs. unfold bind.
  pose proof (quiet_run m s Q) as R.
  destruct (m s) as [a s1|s1|].
  - destruct R as [l [E F]]. apply Hk. rewrite E, forallb_app, Hs, F. reflexivity.
  - destruct R as [l [E F]]. left. simpl. rewrite E, forallb_app, Hs, F. reflexivity.
  - left. reflexivity.
Qed.

Lemma shape_exchange (client : Client) (req : Request) :
  add_shape_from w (exchange w client req).
Proof.
  intros s Hs. rewrite exchange_run. right.
  exists (st_trace s), req, []. cbn [events result st_trace].
  rewrite app_nil_r. repeat split; auto.
Qed.

Lemma shape_exchange_close (client : Client) (req : Request) (f : File) :
  add_shape_from w (v <- exchange w client req ;; File_Close f ;; ret v).
Proof.
  intros s Hs. unfold bind. rewrite exchange_run. right.
  exists (st_trace s), req, [EvFileClose (f_name f)]. cbn.
  rewrite <- app_assoc. repeat split; auto.
Qed.

Lemma client_quiet_createMultiPartBody client file fileName :
  quiet (PkgClient.createMultiPartBody w client file fileName).
Proof.
  unfold PkgClient.createMultiPartBody, Writer_CreateFormFile, io_Copy,
    Writer_Close, buffer, Writer_Boundary.
  quiet_tac.
Qed.

Lemma client_quiet_directoryLoop path entries :
  forall deferred, quiet (PkgClient.directoryLoop w path entries deferred).
Proof.
  induction entries as [|e rest IH]; intros deferred; simpl.
  - apply quiet_ret.
  - unfold Writer_CreateFormFile, io_Copy. quiet_tac; auto.
Qed.

Lemma client_quiet_runDeferred deferred : quiet (PkgClient.runDeferred deferred).
Proof.
  induction deferred as [|f rest IH]; simpl; quiet_tac.
Qed.

Lemma client_quiet_createDirectoryMultiPartBody client path :
  quiet (PkgClient.createDirectoryMultiPartBody w client path).
Proof.
  unfold PkgClient.createDirectoryMultiPartBody, buffer, Writer_Boundary.
  pose proof client_quiet_runDeferred. pose proof client_quiet_directoryLoop.
  quiet_tac; auto.
Qed.

Lemma client_Add_shape (client : Client) (pathName : string) :
  add_shape w (exec (PkgClient.Add w client pathName)).
Proof.
  enough (H : add_shape_from w (PkgClient.Add w client pathName))
    by (apply H; reflexivity).
  unfold PkgClient.Add.
  destruct (os_Stat w pathName) as [fi|e]; [|apply shape_ret].
  destruct (fi_IsDir fi).
  - apply shape_bind_quiet; [apply client_quiet_createDirectoryMultiPartBody|].
    intros [request [e|]]; [apply shape_ret|].
    destruct request as [req|]; [apply shape_exchange | apply shape_panic].
  - apply shape_bind_quiet; [apply quiet_Open|].
    intros [file|e]; [|apply shape_ret].
    apply shape_bind_quiet; [apply client_quiet_createMultiPartBody|].
    intros [request [e|]].
    + apply shape_bind_quiet; [apply quiet_Close | intros; apply shape_ret].
    + destruct request as [req|]; [apply shape_exchange_close|].
      unfold PkgClient.doRequest. intros s Hs. left. exact Hs.
Qed.

Lemma client_AddBinary_shape (client : Client) (content : Reader) (fileName : string) :
  add_shape w (exec (PkgClient.AddBinary w client content fileName)).
Proof.
  enough (H : add_shape_from w (PkgClient.AddBinary w client content fileName))
    by (apply H; reflexivity).
  unfold PkgClient.AddBinary.
  apply shape_bind_quiet; [apply client_quiet_createMultiPartBody|].
  intros [request [e|]]; [apply shape_ret|].
  destruct request as [req|]; [apply shape_exchange | apply shape_panic].
Qed.

End ClientShape.

(** ** The repository's tests, run in the model *)

(** TestAddFile: [/tmp/test.txt] goes out as one part and the node's answer
    comes back decoded; the body is closed before the file. *)
Example TestAddFile_client :
  exec (PkgClient.Add nodeWorld localClient "/tmp/test.txt")
  = Done (Some added, None)
      {| st_writer := Some (fileBuffer nodeWorld "/tmp/test.txt" "test for file");
         st_trace :=
           [EvOpen "/tmp/test.txt";
            EvDo (fileRequest nodeWorld localClient "/tmp/test.txt" "test for file")
                 (Ok okResponse);
            EvReadAll; EvBodyClose;
            EvFileClose "/tmp/test.txt"] |}.
Proof. reflexivity. Qed.

(** TestAddFolder in package main: each file is opened, copied and closed
    in turn, then the request goes out. *)
Example TestAddFolder_main :
  events (exec (PkgMain.Add nodeWorld 3 localClient "/tmp/test"))
  = [EvOpen "/tmp/test/test1"; EvFileClose "/tmp/test/test1";
     EvOpen "/tmp/test/test2"; EvFileClose "/tmp/test/test2";
     EvDo (multipartRequest localClient
             {| mp_boundary := "7d3f1c";
                mp_parts := [entryPart nodeWorld "/tmp/test" (fileEntry "test1");
                             entryPart nodeWorld "/tmp/test" (fileEntry "test2")];
                mp_closed := true |} "7d3f1c")
          (Ok okResponse);
     EvReadAll; EvBodyClose].
Proof. reflexivity. Qed.

(** With too little fuel the model of package main gives no answer. *)
Example TestAddFolder_main_fuel :
  exec (PkgMain.Add nodeWorld 2 localClient "/tmp/test") = OutOfFuel.
Proof. reflexivity. Qed.

(** TestCat. *)
Example TestCat :
  exec (Cat nodeWorld localClient "QmRNXpcZH7UYceKenWYnXaHX3KiuggX19v2Knc5EB1vrcH")
  = Done (Some okResponse, None)
      {| st_writer := None;
         st_trace :=
           [EvDo (catRequest localClient "QmRNXpcZH7UYceKenWYnXaHX3KiuggX19v2Knc5EB1vrcH")
                 (Ok okResponse)] |}.
Proof. reflexivity. Qed.

(** ** Strings *)


(** ** What [Add] and [AddBinary] do with the response *)

Lemma closes_bodies_shape (w : World) o : add_shape w o -> closes_bodies (events o).
Proof.
  intros Sh req resp Hin.
  destruct (add_shape_Do w o req (Ok resp) Sh Hin) as [T _].
  destruct Sh as [H|(l & req0 & l' & Hl & Hl' & E & R)].
  - exfalso. exact (fileEvents_no_Do _ _ _ H Hin).
  - rewrite E in Hin |- *.
    apply in_app_or in Hin. destruct Hin as [Hin|Hin];
      [exfalso; exact (fileEvents_no_Do _ _ _ Hl Hin)|].
    apply in_app_or in Hin. destruct Hin as [Hin|Hin];
      [|exfalso; exact (fileEvents_no_Do _ _ _ Hl' Hin)].
    apply exchange_events_Do in Hin. destruct Hin as [-> _].
    unfold exchange_events. rewrite <- T.
    exists l, ([EvReadAll; EvBodyClose] ++ l'). split; [reflexivity|].
    simpl; auto.
Qed.

(** C10: every response [Add] (either package) or [AddBinary] receives has
    its body closed by the end of the call: each answer of [httpClient.Do]
    in the trace is followed by [Body.Close], and no body is left open. *)
Theorem C10_response_body_closed (w : World) (fuel : nat) (client : Client)
    (pathName : string) (content : Reader) (fileName : string) :
  (closes_bodies (events (exec (PkgMain.Add w fuel client pathName)))
   /\ open_bodies 0 (events (exec (PkgMain.Add w fuel client pathName))) = 0)
  /\ (closes_bodies (events (exec (PkgClient.Add w client pathName)))
      /\ open_bodies 0 (events (exec (PkgClient.Add w client pathName))) = 0)
  /\ (closes_bodies (events (exec (PkgClient.AddBinary w client content fileName)))
      /\ open_bodies 0 (events (exec (PkgClient.AddBinary w client content fileName))) = 0).
Proof.
  pose proof (main_Add_shape w fuel client pathName) as S1.
  pose proof (client_Add_shape w client pathName) as S2.
  pose proof (client_AddBinary_shape w client content fileName) as S3.
  repeat split; eauto using closes_bodies_shape, add_shape_bodies.
Qed.

Lemma shape_read_failure (w : World) o req resp e :
  add_shape w o -> In (EvDo req (Ok resp)) (events o) ->
  r_err (Body resp) = Some e -> result o = Some (None, None).
Proof.
  intros Sh Hin He. destruct (add_shape_Do w o req (Ok resp) Sh Hin) as [T R].
  rewrite R. unfold exchange_result. rewrite <- T, He. reflexivity.
Qed.

Lemma shape_read_success (w : World) o req resp :
  add_shape w o -> In (EvDo req (Ok resp)) (events o) ->
  r_err (Body resp) = None -> result o = Some (Some (decoded w resp), None).
Proof.
  intros Sh Hin He. destruct (add_shape_Do w o req (Ok resp) Sh Hin) as [T R].
  rewrite R. unfold exchange_result. rewrite <- T, He. reflexivity.
Qed.

(** C9: when the exchange of [Add] (either package) or [AddBinary]
    succeeds and reading the response body fails, the operation returns a
    nil result together with a nil error. *)
Theorem C9_read_failure_returns_nil_nil (w : World) (fuel : nat) (client : Client)
    (pathName : string) (content : Reader) (fileName : string)
    (req : Request) (resp : Response) (e : error) :
  r_err (Body resp) = Some e ->
  (In (EvDo req (Ok resp)) (events (exec (PkgMain.Add w fuel client pathName))) ->
   result (exec (PkgMain.Add w fuel client pathName)) = Some (None, None))
  /\ (In (EvDo req (Ok resp)) (events (exec (PkgClient.Add w client pathName))) ->
      result (exec (PkgClient.Add w client pathName)) = Some (None, None))
  /\ (In (EvDo req (Ok resp))
         (events (exec (PkgClient.AddBinary w client content fileName))) ->
      result (exec (PkgClient.AddBinary w client content fileName)) = Some (None, None)).
Proof.
  intros He. repeat split; intros Hin.
  - exact (shape_read_failure w _ req resp e (main_Add_shape w fuel client pathName) Hin He).
  - exact (shape_read_failure w _ req resp e (client_Add_shape w client pathName) Hin He).
  - exact (shape_read_failure w _ req resp e
             (client_AddBinary_shape w client content fileName) Hin He).
Qed.

(** C4, as amended: when the exchange completes and the body is read to its
    end, [Add] (either package) and [AddBinary] return a nil error together
    with the value [json.Unmarshal] left in the fresh [IPFSResponse],
    whatever error [json.Unmarshal] reported. *)
Theorem C4_returns_what_unmarshal_stored (w : World) (fuel : nat) (client : Client)
    (pathName : string) (content : Reader) (fileName : string)
    (req : Request) (resp : Response) :
  r_err (Body resp) = None ->
  (In (EvDo req (Ok resp)) (events (exec (PkgMain.Add w fuel client pathName))) ->
   result (exec (PkgMain.Add w fuel client pathName))
   = Some (Some (decoded w resp), None))
  /\ (In (EvDo req (Ok resp)) (events (exec (PkgClient.Add w client pathName))) ->
      result (exec (PkgClient.Add w client pathName))
      = Some (Some (decoded w resp), None))
  /\ (In (EvDo req (Ok resp))
         (events (exec (PkgClient.AddBinary w client content fileName))) ->
      result (exec (PkgClient.AddBinary w client content fileName))
      = Some (Some (decoded w resp), None)).
Proof.
  intros He. repeat split; intros Hin.
  - exact (shape_read_success w _ req resp (main_Add_shape w fuel client pathName) Hin He).
  - exact (shape_read_success w _ req resp (client_Add_shape w client pathName) Hin He).
  - exact (shape_read_success w _ req resp
             (client_AddBinary_shape w client content fileName) Hin He).
Qed.

Lemma C9_read_failure_witness :
  let wd := brokenBodyWorld in
  let o1 := exec (PkgMain.Add wd 3 localClient "/tmp/test") in
  let o2 := exec (PkgClient.Add wd localClient "/tmp/test.txt") in
  let o3 := exec (PkgClient.AddBinary wd localClient (bytesReader "Hello") "hello.txt") in
  (In (EvDo (first_sent (events o1)) (Ok brokenBody)) (events o1)
   /\ result o1 = Some (None, None))
  /\ (In (EvDo (first_sent (events o2)) (Ok brokenBody)) (events o2)
      /\ result o2 = Some (None, None))
  /\ (In (EvDo (first_sent (events o3)) (Ok brokenBody)) (events o3)
      /\ result o3 = Some (None, None)).
Proof.
  intros wd o1 o2 o3.
  assert (H1 : In (EvDo (first_sent (events o1)) (Ok brokenBody)) (events o1))
    by (vm_compute; tauto).
  assert (H2 : In (EvDo (first_sent (events o2)) (Ok brokenBody)) (events o2))
    by (vm_compute; tauto).
  assert (H3 : In (EvDo (first_sent (events o3)) (Ok brokenBody)) (events o3))
    by (vm_compute; tauto).
  split; [split; [exact H1|] | split; [split; [exact H2|] | split; [exact H3|]]].
  - exact (proj1 (C9_read_failure_returns_nil_nil wd 3 localClient "/tmp/test"
                    (bytesReader "Hello") "hello.txt" _ brokenBody _ eq_refl) H1).
  - exact (proj1 (proj2 (C9_read_failure_returns_nil_nil wd 3 localClient "/tmp/test.txt"
                    (bytesReader "Hello") "hello.txt" _ brokenBody _ eq_refl)) H2).
  - exact (proj2 (proj2 (C9_read_failure_returns_nil_nil wd 3 localClient "/tmp/test.txt"
                    (bytesReader "Hello") "hello.txt" _ brokenBody _ eq_refl)) H3).
Defined.

(** C4 as stated fails: the node answers [Add] of [/tmp/test.txt] with a
    JSON object whose [Hash] is a number; [json.Unmarshal] reports an error,
    and [Add] returns the partly filled result, not the zero value. *)
Lemma C4_partly_filled_result :
  ~ parse_failure_gives_zero hashIsNumberWorld
      (exec (PkgClient.Add hashIsNumberWorld localClient "/tmp/test.txt")).
Proof.
  intros H.
  specialize (H (first_sent (events (exec (PkgClient.Add hashIsNumberWorld localClient
                                             "/tmp/test.txt"))))
                hashIsNumberResponse (DecodeError UnmarshalTypeError)).
  assert (E : result (exec (PkgClient.Add hashIsNumberWorld localClient "/tmp/test.txt"))
              = Some (Some {| Name := "a"; Hash := ""; Size := "2" |}, None))
    by (vm_compute; reflexivity).
  rewrite E in H.
  assert (F : Some (Some {| Name := "a"; Hash := ""; Size := "2" |}, @None error)
              = Some (Some zeroIPFSResponse, None) -> False) by discriminate.
  apply F, H; vm_compute; tauto.
Qed.

Lemma C4_returns_what_unmarshal_stored_witness :
  let wd := hashIsNumberWorld in
  let o1 := exec (PkgMain.Add wd 3 localClient "/tmp/test.txt") in
  let o2 := exec (PkgClient.Add wd localClient "/tmp/test.txt") in
  let o3 := exec (PkgClient.AddBinary wd localClient (bytesReader "Hello") "hello.txt") in
  result o1 = Some (Some {| Name := "a"; Hash := ""; Size := "2" |}, None)
  /\ result o2 = Some (Some {| Name := "a"; Hash := ""; Size := "2" |}, None)
  /\ result o3 = Some (Some {| Name := "a"; Hash := ""; Size := "2" |}, None).
Proof.
  intros wd o1 o2 o3.
  assert (H1 : In (EvDo (first_sent (events o1)) (Ok hashIsNumberResponse)) (events o1))
    by (vm_compute; tauto).
  assert (H2 : In (EvDo (first_sent (events o2)) (Ok hashIsNumberResponse)) (events o2))
    by (vm_compute; tauto).
  assert (H3 : In (EvDo (first_sent (events o3)) (Ok hashIsNumberResponse)) (events o3))
    by (vm_compute; tauto).
  split; [|split].
  - exact (proj1 (C4_returns_what_unmarshal_stored wd 3 localClient "/tmp/test.txt"
                    (bytesReader "Hello") "hello.txt" _ hashIsNumberResponse eq_refl) H1).
  - exact (proj1 (proj2 (C4_returns_what_unmarshal_stored wd 3 localClient "/tmp/test.txt"
                    (bytesReader "Hello") "hello.txt" _ hashIsNumberResponse eq_refl)) H2).
  - exact (proj2 (proj2 (C4_returns_what_unmarshal_stored wd 3 localClient "/tmp/test.txt"
                    (bytesReader "Hello") "hello.txt" _ hashIsNumberResponse eq_refl)) H3).
Defined.

(** ** A path that cannot be examined *)

(** C7: when [os.Stat] fails on the path (a path that does not exist gives
    [ENOENT]), [Add] of either package returns the [IOError] of that call
    with a nil result, and nothing happens besides: no file is opened and no
    request is handed to the HTTP client. *)
Theorem C7_missing_path_no_request (w : World) (fuel : nat) (client : Client)
    (pathName : string) (errno : Errno) :
  sys_stat w pathName = SysErr errno ->
  (result (exec (PkgMain.Add w (S fuel) client pathName))
   = Some (None, Some (IOError "stat" pathName errno))
   /\ events (exec (PkgMain.Add w (S fuel) client pathName)) = [])
  /\ (result (exec (PkgClient.Add w client pathName))
      = Some (None, Some (IOError "stat" pathName errno))
      /\ events (exec (PkgClient.Add w client pathName)) = []).
Proof.
  intros H.
  unfold exec, PkgMain.Add, PkgClient.Add, bind; simpl.
  unfold os_Stat. rewrite H. simpl. auto.
Qed.

Lemma C7_missing_path_witness :
  sys_stat (testWorld (Err (NetworkError "unreachable")) rejectAll) "/tmp/missing"
  = SysErr ENOENT
  /\ result (exec (PkgMain.Add (testWorld (Err (NetworkError "unreachable")) rejectAll)
                               1 localClient "/tmp/missing"))
     = Some (None, Some (IOError "stat" "/tmp/missing" ENOENT))
  /\ sent (events (exec (PkgClient.Add (testWorld (Err (NetworkError "unreachable")) rejectAll)
                                      localClient "/tmp/missing"))) = [].
Proof.
  pose proof (C7_missing_path_no_request
                (testWorld (Err (NetworkError "unreachable")) rejectAll)
                0 localClient "/tmp/missing" ENOENT eq_refl) as [[R1 _] [_ E2]].
  split; [reflexivity|]. split; [exact R1|]. rewrite E2. reflexivity.
Defined.

(** ** [Cat] *)




(** ** The multipart writer *)

Lemma writeLast_snoc (d : string) (ps : list Part) (p : Part) :
  writeLast d (ps ++ [p]) = ps ++ [appendData d p].
Proof.
  induction ps as [|q ps IH]; simpl; [reflexivity|].
  rewrite IH. destruct (ps ++ [p]) eqn:E; [|reflexivity].
  destruct ps; discriminate.
Qed.

Lemma writable_snoc (b : string) (ps : list Part) (p : Part) :
  writable {| mp_boundary := b; mp_parts := ps ++ [p]; mp_closed := false |}
           (length ps) = true.
Proof.
  unfold writable; simpl. rewrite length_app, Nat.add_comm. simpl.
  rewrite Nat.eqb_refl. reflexivity.
Qed.

(** What [CreateFormFile] followed by [io.Copy] leaves in the buffer. *)
Lemma create_and_copy (b : string) (ps : list Part) (tr : list Event)
    (fieldname filename : string) (src : Reader) :
  ('(formFile, _) <- Writer_CreateFormFile fieldname filename ;;
   io_Copy formFile src)
    {| st_writer := Some {| mp_boundary := b; mp_parts := ps; mp_closed := false |};
       st_trace := tr |}
  = Done (r_err src)
      {| st_writer :=
           Some {| mp_boundary := b;
                   mp_parts := ps ++ [{| p_name := fieldname;
                                         p_filename := filename;
                                         p_data := r_data src |}];
                   mp_closed := false |};
         st_trace := tr |}.
Proof.
  unfold bind, Writer_CreateFormFile, io_Copy, withWriter. simpl.
  rewrite writable_snoc, writeLast_snoc. reflexivity.
Qed.

(** ** Package client: the directory loop *)

Section ClientDirectory.
Variable w : World.

Lemma client_directoryLoop_spec (path : string) (entries : list DirEntry) :
  forall (b : string) (ps : list Part) (tr : list Event) (deferred : list File),
  exists err deferred' l ps',
    PkgClient.directoryLoop w path entries deferred
      {| st_writer := Some {| mp_boundary := b; mp_parts := ps; mp_closed := false |};
         st_trace := tr |}
    = Done (err, deferred')
        {| st_writer := Some {| mp_boundary := b; mp_parts := ps'; mp_closed := false |};
           st_trace := tr ++ l |}
    /\ forallb fileEvent l = true
    /\ (err = None <->
        forallb (fun e => opens w (entryPath path e)) (regularEntries entries) = true)
    /\ (err = None -> ps' = ps ++ map (entryPart w path) (regularEntries entries)).
Proof.
  induction entries as [|e rest IH]; intros b ps tr deferred.
  - exists None, deferred, [], ps. simpl. rewrite !app_nil_r.
    repeat split; auto.
  - simpl PkgClient.directoryLoop. unfold regularEntries. simpl filter.
    destruct (de_IsDir e) eqn:Ed; simpl negb; cbv iota.
    + apply IH.
    + fold (regularEntries rest).
      unfold bind at 1. unfold Writer_CreateFormFile at 1, withWriter at 1.
      cbn [st_writer st_trace mp_parts mp_boundary mp_closed].
      unfold bind at 1. unfold os_Open, opens, entryPath in *.
      simpl forallb.
      destruct (sys_open w ((path ++ "/") ++ de_Name e)%string) as [d|errno] eqn:Eo.
      * unfold bind at 1, emit at 1, ret at 1.
        cbn [st_writer st_trace].
        unfold bind at 1, io_Copy at 1, withWriter at 1.
        cbn [st_writer st_trace].
        rewrite writable_snoc. cbn [mp_parts mp_boundary mp_closed].
        rewrite writeLast_snoc.
        destruct (IH b (ps ++ [appendData (r_data (File_Reader
                     {| f_name := ((path ++ "/") ++ de_Name e)%string; f_content := d |}))
                     {| p_name := "file"; p_filename := de_Name e; p_data := "" |}])
                    (tr ++ [EvOpen ((path ++ "/") ++ de_Name e)%string])
                    ({| f_name := ((path ++ "/") ++ de_Name e)%string; f_content := d |}
                       :: deferred))
          as (err & deferred' & l & ps' & Hrun & Hl & Herr & Hps).
        exists err, deferred', (EvOpen ((path ++ "/") ++ de_Name e)%string :: l), ps'.
        rewrite Hrun. rewrite <- app_assoc. simpl.
        repeat split; auto; try (apply Herr).
        intros He. rewrite (Hps He), <- app_assoc. simpl.
        unfold entryPart, entryPath, readData, appendData. rewrite Eo. reflexivity.
      * exists (Some (IOError "open" ((path ++ "/") ++ de_Name e)%string errno)),
          deferred, [],
          (ps ++ [{| p_name := "file"; p_filename := de_Name e; p_data := "" |}]).
        unfold ret. rewrite app_nil_r. simpl.
        repeat split; intros; discriminate.
Qed.

End ClientDirectory.

Section ClientRequests.
Variable w : World.

Lemma client_runDeferred_run (deferred : list File) (s : State) :
  exists l,
    PkgClient.runDeferred deferred s
    = Done tt {| st_writer := st_writer s; st_trace := st_trace s ++ l |}
    /\ forallb fileEvent l = true.
Proof.
  revert s. induction deferred as [|f rest IH]; intros s; simpl.
  - exists []. rewrite app_nil_r. destruct s; auto.
  - unfold bind, File_Close, emit.
    destruct (IH {| st_writer := st_writer s;
                    st_trace := st_trace s ++ [EvFileClose (f_name f)] |})
      as (l & E & F).
    exists (EvFileClose (f_name f) :: l). rewrite E. simpl.
    rewrite <- app_assoc. auto.
Qed.

(** The directory builder, from any state: it opens and closes files and
    gives either an error and no request, or the request of the listing. *)
Lemma client_createDirectoryMultiPartBody_run (client : Client) (path : string)
    (entries : list DirEntry) (s : State) :
  sys_readdir w path = SysOk entries ->
  exists v l s',
    PkgClient.createDirectoryMultiPartBody w client path s = Done v s'
    /\ st_trace s' = st_trace s ++ l
    /\ forallb fileEvent l = true
    /\ (forallb (fun e => opens w (entryPath path e)) (regularEntries entries) = true ->
        url_rejects w (url client ++ "/api/v0/add")%string = false ->
        v = (Some (directoryRequest w client path entries), None))
    /\ (v = (Some (directoryRequest w client path entries), None)
        \/ exists e, v = (None, Some e))
    /\ (forallb (fun e => opens w (entryPath path e)) (regularEntries entries) = false ->
        exists e, v = (None, Some e)).
Proof.
  intros Hd. unfold PkgClient.createDirectoryMultiPartBody.
  unfold bind at 1, multipart_NewWriter at 1. unfold os_ReadDir. rewrite Hd.
  unfold bind at 1.
  destruct (client_directoryLoop_spec w path entries (rand_boundary w) [] (st_trace s) [])
    as (err & deferred & l & ps' & Hrun & Hl & Herr & Hps).
  rewrite Hrun. destruct err as [e|].
  - destruct (client_runDeferred_run deferred
                {| st_writer := Some {| mp_boundary := rand_boundary w;
                                        mp_parts := ps'; mp_closed := false |};
                   st_trace := st_trace s ++ l |}) as (l2 & E2 & F2).
    unfold bind. rewrite E2. unfold ret.
    eexists _, (l ++ l2), _. split; [reflexivity|]. simpl.
    rewrite app_assoc, forallb_app, Hl, F2.
    repeat split; eauto.
    intros Ho _. apply Herr in Ho. discriminate.
  - specialize (Hps eq_refl). simpl in Hps. subst ps'.
    unfold bind at 1, buffer at 1, withWriter at 1. cbn [st_writer st_trace].
    unfold http_NewRequest.
    change (url client ++ map_index apiEndpoint "add")%string
      with (url client ++ "/api/v0/add")%string.
    destruct (url_rejects w (url client ++ "/api/v0/add")%string) eqn:Eu.
    + match goal with
      | |- context [bind (PkgClient.runDeferred deferred) _ ?s0] =>
          destruct (client_runDeferred_run deferred s0) as (l2 & E2 & F2)
      end.
      unfold bind. rewrite E2. unfold ret.
      eexists _, (l ++ l2), _. split; [reflexivity|]. simpl.
      rewrite app_assoc, forallb_app, Hl, F2.
      repeat split; eauto. intros _ Hu; discriminate.
    + unfold bind at 1, Writer_Boundary at 1, withWriter at 1. cbn [st_writer st_trace].
      match goal with
      | |- context [bind (PkgClient.runDeferred deferred) _ ?s0] =>
          destruct (client_runDeferred_run deferred s0) as (l2 & E2 & F2)
      end.
      unfold bind. rewrite E2. unfold ret.
      eexists _, (l ++ l2), _. split; [reflexivity|]. simpl.
      rewrite app_assoc, forallb_app, Hl, F2.
      repeat split; auto.
      intros Ho. rewrite (proj1 Herr eq_refl) in Ho. discriminate.
Qed.

(** The single-stream builder, from any state. *)
Lemma client_createMultiPartBody_run (client : Client) (file : Reader)
    (fileName : string) (s : State) :
  exists v m,
    PkgClient.createMultiPartBody w client file fileName s
    = Done v {| st_writer := Some m; st_trace := st_trace s |}
    /\ (r_err file = None ->
        url_rejects w (url client ++ "/api/v0/add")%string = false ->
        v = (Some (fileRequest w client fileName (r_data file)), None))
    /\ (v = (Some (fileRequest w client fileName (r_data file)), None)
        \/ exists e, v = (None, Some e)).
Proof.
  unfold PkgClient.createMultiPartBody.
  unfold bind at 1, multipart_NewWriter at 1.
  unfold bind at 1, Writer_CreateFormFile at 1, withWriter at 1.
  cbn [st_writer st_trace mp_parts mp_boundary mp_closed app length].
  unfold bind at 1, io_Copy at 1, withWriter at 1.
  cbn [st_writer st_trace mp_parts mp_boundary mp_closed writable length Nat.eqb negb andb
       writeLast appendData p_name p_filename p_data].
  destruct (r_err file) as [e|] eqn:Er.
  - eexists _, _. split; [reflexivity|].
    split; [intros; discriminate | right; eauto].
  - unfold bind at 1, Writer_Close at 1, withWriter at 1. cbn [st_writer st_trace].
    unfold bind at 1, buffer at 1, withWriter at 1. cbn [st_writer st_trace].
    unfold http_NewRequest.
    change (url client ++ map_index apiEndpoint "add")%string
      with (url client ++ "/api/v0/add")%string.
    destruct (url_rejects w (url client ++ "/api/v0/add")%string) eqn:Eu.
    + eexists _, _. split; [reflexivity|].
      split; [intros; discriminate | right; eauto].
    + unfold bind at 1, Writer_Boundary at 1, withWriter at 1. cbn [st_writer st_trace].
      eexists _, _. split; [reflexivity|].
      split; [intros; reflexivity | left; reflexivity].
Qed.

End ClientRequests.

(** ** Package client: what [Add] and [AddBinary] send *)

Section ClientAdd.
Variable w : World.

Lemma sent_exchange (l l' : list Event) (req : Request) :
  forallb fileEvent l = true -> forallb fileEvent l' = true ->
  sent (l ++ exchange_events w req ++ l') = [req].
Proof.
  intros F F'.
  rewrite !sent_app, (sent_fileEvents l F), (sent_fileEvents l' F'), exchange_events_sent.
  reflexivity.
Qed.

Lemma client_Add_directory (client : Client) (path : string) (entries : list DirEntry) :
  sys_stat w path = SysOk directory ->
  sys_readdir w path = SysOk entries ->
  let o := exec (PkgClient.Add w client path) in
  (forallb (fun e => opens w (entryPath path e)) (regularEntries entries) = true ->
   url_rejects w (url client ++ "/api/v0/add")%string = false ->
   sent (events o) = [directoryRequest w client path entries]
   /\ result o = Some (exchange_result w (directoryRequest w client path entries)))
  /\ (sent (events o) = [directoryRequest w client path entries]
      \/ sent (events o) = [] /\ exists e, result o = Some (None, Some e))
  /\ (forallb (fun e => opens w (entryPath path e)) (regularEntries entries) = false ->
      sent (events o) = [] /\ exists e, result o = Some (None, Some e)).
Proof.
  intros Hs Hd o.
  destruct (client_createDirectoryMultiPartBody_run w client path entries init Hd)
    as (v & l & s' & E & T & F & Hok & Hgen & Hbad).
  assert (Eo : o = (let (request, err) := v in
                    match err with
                    | Some e => ret (None, Some e)
                    | None => PkgClient.doRequest w client request
                    end) s').
  { subst o. unfold exec, PkgClient.Add, os_Stat. rewrite Hs.
    cbn [fi_IsDir directory]. unfold bind. rewrite E. reflexivity. }
  rewrite Eo. clear Eo o. simpl in T.
  assert (Hreq : forall s1, st_trace s1 = l ->
            let o := PkgClient.doRequest w client
                       (Some (directoryRequest w client path entries)) s1 in
            sent (events o) = [directoryRequest w client path entries]
            /\ result o = Some (exchange_result w (directoryRequest w client path entries))).
  { intros s1 T1. simpl. rewrite exchange_run. cbn [events result st_trace].
    rewrite T1. split; [|reflexivity].
    rewrite <- (app_nil_r (exchange_events _ _)). apply sent_exchange; auto. }
  assert (Hfail : forall e, v = (None, Some e) ->
            sent (events ((let (request, err) := v in
                           match err with
                           | Some e => ret (None, Some e)
                           | None => PkgClient.doRequest w client request
                           end) s')) = []
            /\ exists e0, result ((let (request, err) := v in
                                   match err with
                                   | Some e => ret (None, Some e)
                                   | None => PkgClient.doRequest w client request
                                   end) s') = Some (None, Some e0)).
  { intros e ->. cbn. rewrite T. split; [apply sent_fileEvents; exact F | eauto]. }
  split; [|split].
  - intros Ho Hu. rewrite (Hok Ho Hu). apply (Hreq s' T).
  - destruct Hgen as [->|[e He]].
    + left. apply (Hreq s' T).
    + right. exact (Hfail e He).
  - intros Ho. destruct (Hbad Ho) as [e He]. exact (Hfail e He).
Qed.

Lemma client_Add_file (client : Client) (path : string) (d : FileData) :
  sys_stat w path = SysOk regular ->
  sys_open w path = SysOk d ->
  let o := exec (PkgClient.Add w client path) in
  (fd_err d = None ->
   url_rejects w (url client ++ "/api/v0/add")%string = false ->
   sent (events o) = [fileRequest w client path (fd_data d)]
   /\ result o = Some (exchange_result w (fileRequest w client path (fd_data d))))
  /\ (sent (events o) = [fileRequest w client path (fd_data d)]
      \/ sent (events o) = [] /\ exists e, result o = Some (None, Some e)).
Proof.
  intros Hs Ho o.
  pose (f := {| f_name := path; f_content := d |}).
  destruct (client_createMultiPartBody_run w client (File_Reader f) path
              {| st_writer := None; st_trace := [EvOpen path] |})
    as (v & m & E & Hok & Hgen).
  assert (Eo : o = (let (request, err) := v in
                    match err with
                    | Some e => File_Close f ;; ret (None, Some e)
                    | None => v <- PkgClient.doRequest w client request ;;
                              File_Close f ;; ret v
                    end) {| st_writer := Some m; st_trace := [EvOpen path] |}).
  { subst o. unfold exec, PkgClient.Add, os_Stat. rewrite Hs.
    cbn [fi_IsDir regular]. unfold bind at 1, os_Open. rewrite Ho.
    unfold bind at 1, emit at 1, ret at 1. unfold bind at 1.
    cbn [st_writer st_trace init app]. fold f. rewrite E. reflexivity. }
  rewrite Eo. clear Eo o.
  cbn [File_Reader r_data r_err f_content f_name st_trace init app f] in *.
  assert (Hreq :
            let o := (v <- PkgClient.doRequest w client
                             (Some (fileRequest w client path (fd_data d))) ;;
                      File_Close {| f_name := path; f_content := d |} ;; ret v)
                       {| st_writer := Some m; st_trace := [EvOpen path] |} in
            sent (events o) = [fileRequest w client path (fd_data d)]
            /\ result o = Some (exchange_result w (fileRequest w client path (fd_data d)))).
  { unfold bind, PkgClient.doRequest. rewrite exchange_run.
    unfold File_Close, emit, ret. cbn [events result st_trace st_writer f_name].
    split; [|reflexivity].
    rewrite !sent_app, exchange_events_sent. reflexivity. }
  split.
  - intros He Hu. rewrite Hok; [exact Hreq | rewrite He; reflexivity | exact Hu].
  - destruct Hgen as [->|[e ->]].
    + left. apply Hreq.
    + right. cbn. eauto.
Qed.

Lemma client_AddBinary_sent (client : Client) (content : Reader) (fileName : string) :
  let o := exec (PkgClient.AddBinary w client content fileName) in
  (r_err content = None ->
   url_rejects w (url client ++ "/api/v0/add")%string = false ->
   sent (events o) = [fileRequest w client fileName (r_data content)]
   /\ result o = Some (exchange_result w (fileRequest w client fileName (r_data content))))
  /\ (sent (events o) = [fileRequest w client fileName (r_data content)]
      \/ sent (events o) = [] /\ exists e, result o = Some (None, Some e)).
Proof.
  intros o.
  destruct (client_createMultiPartBody_run w client content fileName init)
    as (v & m & E & Hok & Hgen).
  assert (Eo : o = (let (req, err) := v in
                    match err with
                    | Some e => ret (None, Some e)
                    | None => PkgClient.doRequest w client req
                    end) {| st_writer := Some m; st_trace := st_trace init |}).
  { subst o. unfold exec, PkgClient.AddBinary. unfold bind. rewrite E. reflexivity. }
  rewrite Eo. clear Eo o.
  assert (Hreq :
            let o := PkgClient.doRequest w client
                       (Some (fileRequest w client fileName (r_data content)))
                       {| st_writer := Some m; st_trace := st_trace init |} in
            sent (events o) = [fileRequest w client fileName (r_data content)]
            /\ result o
               = Some (exchange_result w (fileRequest w client fileName (r_data content)))).
  { unfold PkgClient.doRequest. rewrite exchange_run.
    cbn [events result st_trace st_writer init app].
    split; [|reflexivity]. apply exchange_events_sent. }
  split.
  - intros He Hu. rewrite (Hok He Hu). exact Hreq.
  - destruct Hgen as [->|[e ->]].
    + left. apply Hreq.
    + right. cbn. eauto.
Qed.

End ClientAdd.

(** ** [path.Base] *)

Lemma list_ascii_of_string_app (a b : string) :
  list_ascii_of_string (a ++ b) = list_ascii_of_string a ++ list_ascii_of_string b.
Proof. induction a as [|x a IH]; simpl; [reflexivity | rewrite IH; reflexivity]. Qed.

Lemma upToSlash_app (l x : list ascii) :
  forallb (fun c => negb (isSlash c)) l = true ->
  upToSlash (l ++ "/"%char :: x) = l.
Proof.
  induction l as [|c l IH]; simpl; [reflexivity|].
  intros H. apply andb_prop in H. destruct H as [Hc Hl].
  destruct (isSlash c); [discriminate|]. rewrite (IH Hl). reflexivity.
Qed.

Lemma forallb_rev {A} (f : A -> bool) (l : list A) :
  forallb f (rev l) = forallb f l.
Proof.
  induction l as [|a l IH]; simpl; [reflexivity|].
  rewrite forallb_app, IH. simpl. rewrite andb_true_r. apply andb_comm.
Qed.

(** The base name of [dir/name] is [name], for a name as listings give it. *)
Lemma path_Base_join (dir name : string) :
  validName name = true -> path_Base ((dir ++ "/") ++ name) = name.
Proof.
  unfold validName. intros H. apply andb_prop in H. destruct H as [Hne Hns].
  unfold path_Base.
  assert (Hl : list_ascii_of_string ((dir ++ "/") ++ name)
               = list_ascii_of_string dir ++ "/"%char :: list_ascii_of_string name).
  { rewrite !list_ascii_of_string_app, <- app_assoc. reflexivity. }
  destruct (String.eqb_spec ((dir ++ "/") ++ name)%string "") as [E|_].
  { rewrite E in Hl. simpl in Hl. destruct (list_ascii_of_string dir); discriminate. }
  rewrite Hl, rev_app_distr. simpl rev. rewrite <- app_assoc. simpl app.
  set (n := list_ascii_of_string name) in *.
  assert (Hn : n <> []).
  { intros En. subst n. rewrite <- (string_of_list_ascii_of_string name), En in Hne.
    discriminate. }
  assert (Hr : forallb (fun c => negb (isSlash c)) (rev n) = true)
    by (rewrite forallb_rev; exact Hns).
  destruct (rev n) as [|c r] eqn:Er.
  { exfalso. apply Hn. rewrite <- (rev_involutive n), Er. reflexivity. }
  simpl in Hr. apply andb_prop in Hr. destruct Hr as [Hc Hr].
  simpl app. simpl dropSlashes. destruct (isSlash c) eqn:Ec; [discriminate|].
  change (c :: r ++ "/"%char :: rev (list_ascii_of_string dir))
    with ((c :: r) ++ "/"%char :: rev (list_ascii_of_string dir)).
  rewrite upToSlash_app by (simpl; rewrite Ec, Hr; reflexivity).
  cbv iota. change (rev r ++ [c]) with (rev (c :: r)).
  rewrite <- Er, rev_involutive. subst n. apply string_of_list_ascii_of_string.
Qed.

(** ** Package main: the builders *)

Section MainBuilders.
Variable w : World.

Lemma main_createMultiPartBody_S (fuel : nat) (pathName : string) :
  PkgMain.createMultiPartBody w (S fuel) pathName
  = match os_Stat w pathName with
    | Err e => ret ("", Some e)
    | Ok fileInfo =>
        if fi_IsDir fileInfo then
          '(writerBoundary, _) <- PkgMain.createDirectoryMultiPartBody w fuel pathName ;;
          ret (writerBoundary, None)
        else
          '(formFile, err) <- Writer_CreateFormFile "file" (path_Base pathName) ;;
          match err with
          | Some e => ret ("", Some e)
          | None =>
              r <- os_Open w pathName ;;
              match r with
              | Err e => ret ("", Some e)
              | Ok file =>
                  err <- io_Copy formFile (File_Reader file) ;;
                  match err with
                  | Some e => File_Close file ;; ret ("", Some e)
                  | None =>
                      writerBoundary <- Writer_Boundary ;;
                      File_Close file ;;
                      ret (writerBoundary, None)
                  end
              end
          end
    end.
Proof. reflexivity. Qed.

Lemma main_createDirectoryMultiPartBody_S (fuel : nat) (pathName : string) :
  PkgMain.createDirectoryMultiPartBody w (S fuel) pathName
  = match os_ReadDir w pathName with
    | Err e => ret ("", Some e)
    | Ok entries =>
        writerBoundary <-
          rangeEntries
            (fun index file writerBoundary =>
               if de_IsDir file then
                 PkgMain.createDirectoryMultiPartBody w fuel (pathName ++ de_Name file) ;;
                 ret writerBoundary
               else if Nat.eqb index 0 || String.eqb writerBoundary "" then
                 '(writerBoundary, _) <-
                   PkgMain.createMultiPartBody w fuel ((pathName ++ "/") ++ de_Name file) ;;
                 ret writerBoundary
               else
                 PkgMain.createMultiPartBody w fuel ((pathName ++ "/") ++ de_Name file) ;;
                 ret writerBoundary)
            0 entries "" ;;
        ret (writerBoundary, None)
    end.
Proof. reflexivity. Qed.

(** A regular file: one part, whatever happens when the file is opened and
    read; the boundary is returned when the file was read to its end. *)
Lemma main_file_run (fuel : nat) (name : string) (b : string) (ps : list Part)
    (tr : list Event) :
  statsRegular w name = true ->
  exists bnd err l,
    PkgMain.createMultiPartBody w (S fuel) name
      {| st_writer := Some {| mp_boundary := b; mp_parts := ps; mp_closed := false |};
         st_trace := tr |}
    = Done (bnd, err)
        {| st_writer := Some {| mp_boundary := b;
                                mp_parts := ps ++ [filePart w name];
                                mp_closed := false |};
           st_trace := tr ++ l |}
    /\ forallb fileEvent l = true
    /\ (bnd = "" \/ bnd = b)
    /\ (readable w name = true -> bnd = b /\ err = None).
Proof.
  unfold statsRegular, readable, filePart, readData. intros Hs.
  rewrite main_createMultiPartBody_S. unfold os_Stat.
  destruct (sys_stat w name) as [fi|]; [|discriminate].
  destruct (fi_IsDir fi); [discriminate|].
  unfold bind at 1, Writer_CreateFormFile at 1, withWriter at 1.
  cbn [st_writer st_trace mp_parts mp_boundary mp_closed].
  unfold bind at 1, os_Open.
  destruct (sys_open w name) as [d|errno].
  - unfold bind at 1, emit at 1, ret at 1. cbn [st_writer st_trace].
    unfold bind at 1, io_Copy at 1, withWriter at 1. cbn [st_writer st_trace].
    rewrite writable_snoc. cbn [mp_parts mp_boundary mp_closed].
    rewrite writeLast_snoc.
    cbn [File_Reader r_data r_err f_content f_name appendData p_name p_filename p_data
         String.append].
    destruct (fd_err d) as [errno|]; cbn [option_map].
    + unfold bind, File_Close, emit, ret. cbn [st_writer st_trace f_name].
      eexists _, _, [EvOpen name; EvFileClose name].
      rewrite <- app_assoc. split; [reflexivity|].
      repeat split; auto. discriminate. discriminate.
    + unfold bind, Writer_Boundary, withWriter, File_Close, emit, ret.
      cbn [st_writer st_trace f_name mp_boundary].
      eexists _, _, [EvOpen name; EvFileClose name].
      rewrite <- app_assoc. split; [reflexivity|].
      repeat split; auto.
  - unfold ret. eexists _, _, []. rewrite app_nil_r. split; [reflexivity|].
    repeat split; auto; discriminate.
Qed.

End MainBuilders.

Section MainDirectory.
Variable w : World.

(** The loop of [createDirectoryMultiPartBody] over a listing whose files
    can be examined and whose subdirectory names, appended to the path
    without a separator, name nothing that can be listed. *)
Lemma main_rangeEntries_run (fuel : nat) (pathName : string) (b : string)
    (entries : list DirEntry) :
  forallb (fun e => statsRegular w (entryPath pathName e) && validName (de_Name e))
          (regularEntries entries) = true ->
  forallb (fun e => unlistable w (pathName ++ de_Name e)%string)
          (subdirectories entries) = true ->
  forall (index : nat) (acc : string) (ps : list Part) (tr : list Event),
  exists acc' l,
    rangeEntries
      (fun index file writerBoundary =>
         if de_IsDir file then
           PkgMain.createDirectoryMultiPartBody w (S fuel) (pathName ++ de_Name file) ;;
           ret writerBoundary
         else if Nat.eqb index 0 || String.eqb writerBoundary "" then
           '(writerBoundary, _) <-
             PkgMain.createMultiPartBody w (S fuel) ((pathName ++ "/") ++ de_Name file) ;;
           ret writerBoundary
         else
           PkgMain.createMultiPartBody w (S fuel) ((pathName ++ "/") ++ de_Name file) ;;
           ret writerBoundary)
      index entries acc
      {| st_writer := Some {| mp_boundary := b; mp_parts := ps; mp_closed := false |};
         st_trace := tr |}
    = Done acc'
        {| st_writer :=
             Some {| mp_boundary := b;
                     mp_parts := ps ++ map (entryPart w pathName) (regularEntries entries);
                     mp_closed := false |};
           st_trace := tr ++ l |}
    /\ forallb fileEvent l = true
    /\ (acc = "" \/ acc = b -> acc' = "" \/ acc' = b).
Proof.
  induction entries as [|e rest IH]; intros Hreg Hsub index acc ps tr.
  - exists acc, []. simpl. rewrite !app_nil_r. auto.
  - unfold regularEntries, subdirectories in Hreg, Hsub |- *.
    simpl filter in Hreg, Hsub |- *. cbn [rangeEntries].
    destruct (de_IsDir e) eqn:Ed; simpl negb in Hreg |- *; cbv iota in Hreg, Hsub |- *.
    + simpl in Hsub. apply andb_prop in Hsub. destruct Hsub as [Hu Hsub].
      unfold bind at 1. unfold bind at 1.
      rewrite main_createDirectoryMultiPartBody_S. unfold os_ReadDir.
      unfold unlistable in Hu.
      destruct (sys_readdir w (pathName ++ de_Name e)%string); [discriminate|].
      unfold ret at 1. unfold ret at 1.
      apply (IH Hreg Hsub).
    + simpl in Hreg. apply andb_prop in Hreg. destruct Hreg as [He Hreg].
      apply andb_prop in He. destruct He as [Hst Hv].
      destruct (main_file_run w fuel (entryPath pathName e) b ps tr Hst)
        as (bnd & err & l1 & Hrun & Hl1 & Hb & _).
      assert (Hp : filePart w (entryPath pathName e) = entryPart w pathName e).
      { unfold filePart, entryPart, entryPath. rewrite (path_Base_join _ _ Hv). reflexivity. }
      rewrite Hp in Hrun. unfold entryPath in Hrun at 1.
      destruct (Nat.eqb index 0 || String.eqb acc "").
      * unfold bind at 1. unfold bind at 1. rewrite Hrun. unfold ret at 1.
        destruct (IH Hreg Hsub (S index) bnd (ps ++ [entryPart w pathName e]) (tr ++ l1))
          as (acc' & l2 & Hrun2 & Hl2 & Hb2).
        exists acc', (l1 ++ l2). rewrite Hrun2.
        rewrite <- !app_assoc, forallb_app, Hl1, Hl2. simpl. auto.
      * unfold bind at 1. unfold bind at 1. rewrite Hrun. unfold ret at 1.
        destruct (IH Hreg Hsub (S index) acc (ps ++ [entryPart w pathName e]) (tr ++ l1))
          as (acc' & l2 & Hrun2 & Hl2 & Hb2).
        exists acc', (l1 ++ l2). rewrite Hrun2.
        rewrite <- !app_assoc, forallb_app, Hl1, Hl2. simpl. auto.
Qed.

(** [Add] of package main on such a directory. *)
Lemma main_Add_directory (fuel : nat) (client : Client) (pathName : string)
    (entries : list DirEntry) :
  sys_stat w pathName = SysOk directory ->
  sys_readdir w pathName = SysOk entries ->
  forallb (fun e => statsRegular w (entryPath pathName e) && validName (de_Name e))
          (regularEntries entries) = true ->
  forallb (fun e => unlistable w (pathName ++ de_Name e)%string)
          (subdirectories entries) = true ->
  exists bnd req,
    req = multipartRequest client
            {| mp_boundary := rand_boundary w;
               mp_parts := map (entryPart w pathName) (regularEntries entries);
               mp_closed := true |} bnd
    /\ (bnd = "" \/ bnd = rand_boundary w)
    /\ (url_rejects w (url client ++ "/api/v0/add")%string = false ->
        sent (events (exec (PkgMain.Add w (S (S (S fuel))) client pathName))) = [req]
        /\ result (exec (PkgMain.Add w (S (S (S fuel))) client pathName))
           = Some (exchange_result w req))
    /\ (sent (events (exec (PkgMain.Add w (S (S (S fuel))) client pathName))) = [req]
        \/ sent (events (exec (PkgMain.Add w (S (S (S fuel))) client pathName))) = []).
Proof.
  intros Hs Hd Hreg Hsub.
  destruct (main_rangeEntries_run fuel pathName (rand_boundary w) entries Hreg Hsub
              0 "" [] []) as (bnd & l & Hrun & Hl & Hb).
  exists bnd. eexists. split; [reflexivity|]. split; [apply Hb; auto|].
  set (m := {| mp_boundary := rand_boundary w;
               mp_parts := map (entryPart w pathName) (regularEntries entries);
               mp_closed := true |}).
  set (req := multipartRequest client m bnd).
  set (o := exec (PkgMain.Add w (S (S (S fuel))) client pathName)).
  assert (Eo : o = if url_rejects w (url client ++ "/api/v0/add")%string
                   then Panic {| st_writer := Some m; st_trace := l |}
                   else Done (exchange_result w req)
                          {| st_writer := Some m;
                             st_trace := l ++ exchange_events w req |}).
  { subst o. unfold exec, PkgMain.Add.
    unfold bind at 1, multipart_NewWriter at 1. cbn [st_trace init].
    unfold bind at 1. rewrite main_createMultiPartBody_S.
    unfold os_Stat. rewrite Hs. cbn [fi_IsDir directory].
    unfold bind at 1. rewrite main_createDirectoryMultiPartBody_S.
    unfold os_ReadDir. rewrite Hd.
    unfold bind at 1. rewrite Hrun. unfold ret at 1. unfold ret at 1.
    unfold bind at 1, Writer_Close at 1, withWriter at 1. cbn [st_writer st_trace].
    unfold bind at 1, buffer at 1, withWriter at 1. cbn [st_writer st_trace].
    unfold http_NewRequest.
    change (url client ++ map_index apiEndpoint "add")%string
      with (url client ++ "/api/v0/add")%string.
    destruct (url_rejects w (url client ++ "/api/v0/add")%string); [reflexivity|].
    rewrite exchange_run. reflexivity. }
  rewrite Eo. clear Eo o.
  assert (Hsent : sent (l ++ exchange_events w req) = [req]).
  { rewrite <- (app_nil_r (exchange_events _ _)). apply sent_exchange; auto. }
  split.
  - intros ->. cbn [events result st_trace]. auto.
  - destruct (url_rejects w (url client ++ "/api/v0/add")%string);
      cbn [events st_trace]; [right; apply sent_fileEvents; exact Hl | left; exact Hsent].
Qed.

End MainDirectory.

(** ** Directory uploads *)

Lemma directoryRequest_parts (w : World) (client : Client) (path : string)
    (entries : list DirEntry) :
  ReqBody (directoryRequest w client path entries)
  = Some (directoryBuffer w path entries)
  /\ directory_parts entries (directoryBuffer w path entries).
Proof.
  split; [reflexivity|].
  unfold directory_parts, directoryBuffer. cbn [mp_parts].
  rewrite map_map. reflexivity.
Qed.



(** C1 as stated fails for package main: [Add] of [/tmp/tree/], a directory
    holding the file [top] and the subdirectory [sub], lists
    [/tmp/tree/sub] too and sends a part for the file [inner] found there. *)
Lemma C1_main_descends_into_subdirectory :
  sys_stat nodeWorld "/tmp/tree/" = SysOk directory
  /\ sys_readdir nodeWorld "/tmp/tree/" = SysOk [dirEntry "sub"; fileEntry "top"]
  /\ exists req m,
       sent (events (exec (PkgMain.Add nodeWorld 4 localClient "/tmp/tree/"))) = [req]
       /\ ReqBody req = Some m
       /\ map p_filename (mp_parts m) = ["inner"; "top"]
       /\ ~ directory_parts [dirEntry "sub"; fileEntry "top"] m.
Proof.
  split; [reflexivity|]. split; [reflexivity|].
  eexists _, _. split; [vm_compute; reflexivity|].
  split; [reflexivity|]. split; [reflexivity|].
  unfold directory_parts. simpl. discriminate.
Qed.

(** C1, as amended.  For a path that names a directory with listing
    [entries]:
    - every request [Add] of package client sends carries exactly one part
      named ["file"] per entry that is not a directory, under the entry's
      name, in the order of the listing, and nothing for the subdirectory
      entries; the request is sent when each of these files opens and the
      URL of the node is accepted;
    - the same holds of [Add] of package main when each of these entries is
      a regular file and no subdirectory entry's name, appended to the path
      without a separator, names a directory that can be listed; the
      request is sent when the URL of the node is accepted. *)
Theorem C1_directory_parts (w : World) (fuel : nat) (client : Client)
    (pathName : string) (entries : list DirEntry) :
  sys_stat w pathName = SysOk directory ->
  sys_readdir w pathName = SysOk entries ->
  ((forall req,
      In req (sent (events (exec (PkgClient.Add w client pathName)))) ->
      exists m, ReqBody req = Some m /\ directory_parts entries m)
   /\ (forallb (fun e => opens w (entryPath pathName e)) (regularEntries entries) = true ->
       url_rejects w (url client ++ "/api/v0/add")%string = false ->
       exists req, sent (events (exec (PkgClient.Add w client pathName))) = [req]))
  /\ (forallb (fun e => statsRegular w (entryPath pathName e) && validName (de_Name e))
              (regularEntries entries) = true ->
      forallb (fun e => unlistable w (pathName ++ de_Name e)%string)
              (subdirectories entries) = true ->
      (forall req,
         In req (sent (events (exec (PkgMain.Add w (S (S (S fuel))) client pathName)))) ->
         exists m, ReqBody req = Some m /\ directory_parts entries m)
      /\ (url_rejects w (url client ++ "/api/v0/add")%string = false ->
          exists req,
            sent (events (exec (PkgMain.Add w (S (S (S fuel))) client pathName))) = [req])).
Proof.
  intros Hs Hd.
  destruct (client_Add_directory w client pathName entries Hs Hd) as [Hok [Hgen _]].
  split; [split|].
  - intros req Hin.
    destruct Hgen as [E|[E _]]; rewrite E in Hin; simpl in Hin; [|contradiction].
    destruct Hin as [<-|[]].
    exists (directoryBuffer w pathName entries).
    apply directoryRequest_parts.
  - intros Ho Hu. destruct (Hok Ho Hu) as [E _]. eauto.
  - intros Hreg Hsub.
    destruct (main_Add_directory w fuel client pathName entries Hs Hd Hreg Hsub)
      as (bnd & req0 & -> & _ & Hok1 & Hgen1).
    split.
    + intros req Hin.
      destruct Hgen1 as [E|E]; rewrite E in Hin; simpl in Hin; [|contradiction].
      destruct Hin as [<-|[]].
      eexists. split; [reflexivity|].
      unfold directory_parts. cbn [mp_parts]. rewrite map_map. reflexivity.
    + intros Hu. destruct (Hok1 Hu) as [E _]. eauto.
Qed.

Lemma C1_directory_parts_witness :
  (exists req m,
     sent (events (exec (PkgClient.Add nodeWorld localClient "/tmp/tree"))) = [req]
     /\ ReqBody req = Some m
     /\ directory_parts [dirEntry "sub"; fileEntry "top"] m)
  /\ (exists req m,
        sent (events (exec (PkgMain.Add nodeWorld 3 localClient "/tmp/tree"))) = [req]
        /\ ReqBody req = Some m
        /\ directory_parts [dirEntry "sub"; fileEntry "top"] m).
Proof.
  destruct (C1_directory_parts nodeWorld 0 localClient "/tmp/tree"
              [dirEntry "sub"; fileEntry "top"] eq_refl eq_refl)
    as [[Hall Hex] Hmain].
  split.
  - destruct (Hex eq_refl eq_refl) as [req E].
    destruct (Hall req) as [m Hm]; [rewrite E; left; reflexivity|].
    exists req, m. tauto.
  - destruct (Hmain eq_refl eq_refl) as [Hall1 Hex1].
    destruct (Hex1 eq_refl) as [req E].
    destruct (Hall1 req) as [m Hm]; [rewrite E; left; reflexivity|].
    exists req, m. tauto.
Defined.

(** ** Single files *)

Section SingleFile.
Variable w : World.

(** Package main names the part of a regular file by [path.Base]. *)
Lemma main_Add_regular_file (fuel : nat) (client : Client) (pathName : string) :
  statsRegular w pathName = true ->
  readable w pathName = true ->
  url_rejects w (url client ++ "/api/v0/add")%string = false ->
  sent (events (exec (PkgMain.Add w (S fuel) client pathName)))
  = [multipartRequest client
       {| mp_boundary := rand_boundary w;
          mp_parts := [{| p_name := "file";
                          p_filename := path_Base pathName;
                          p_data := readData w pathName |}];
          mp_closed := true |}
       (rand_boundary w)].
Proof.
  intros Hs Hr Hu.
  destruct (main_file_run w fuel pathName (rand_boundary w) [] [] Hs)
    as (bnd & err & l & Hrun & Hl & _ & Hb).
  destruct (Hb Hr) as [-> ->].
  unfold exec, PkgMain.Add.
  unfold bind at 1, multipart_NewWriter at 1. cbn [st_trace init].
  unfold bind at 1. rewrite Hrun.
  unfold bind at 1, Writer_Close at 1, withWriter at 1. cbn [st_writer st_trace].
  unfold bind at 1, buffer at 1, withWriter at 1. cbn [st_writer st_trace].
  unfold http_NewRequest.
  change (url client ++ map_index apiEndpoint "add")%string
    with (url client ++ "/api/v0/add")%string.
  rewrite Hu. rewrite exchange_run. cbn [events st_trace app].
  rewrite <- (app_nil_r (exchange_events _ _)). apply sent_exchange; auto.
Qed.

(** Package client names it by the path [Add] was given. *)
Lemma client_Add_regular_file (client : Client) (pathName : string) :
  statsRegular w pathName = true ->
  readable w pathName = true ->
  url_rejects w (url client ++ "/api/v0/add")%string = false ->
  sent (events (exec (PkgClient.Add w client pathName)))
  = [multipartRequest client
       {| mp_boundary := rand_boundary w;
          mp_parts := [{| p_name := "file";
                          p_filename := pathName;
                          p_data := readData w pathName |}];
          mp_closed := true |}
       (rand_boundary w)].
Proof.
  unfold statsRegular, readable, readData. intros Hs Hr Hu.
  destruct (sys_stat w pathName) as [[isDir]|] eqn:Es; [|discriminate].
  destruct isDir; [discriminate|].
  destruct (sys_open w pathName) as [d|] eqn:Eo; [|discriminate].
  destruct (fd_err d) eqn:Ee; [discriminate|].
  destruct (client_Add_file w client pathName d Es Eo) as [Hok _].
  destruct (Hok Ee Hu) as [E _]. exact E.
Qed.

End SingleFile.

(** C2 at [/tmp/test.txt]: package client's [Add] sends the one part under
    the full path, where [path.Base] gives [test.txt]; package main sends it
    under [test.txt]. *)
Theorem C2_client_names_part_by_full_path :
  (exists req m,
     sent (events (exec (PkgClient.Add nodeWorld localClient "/tmp/test.txt"))) = [req]
     /\ ReqBody req = Some m
     /\ mp_parts m = [{| p_name := "file";
                         p_filename := "/tmp/test.txt";
                         p_data := "test for file" |}])
  /\ path_Base "/tmp/test.txt" = "test.txt"
  /\ (exists req m,
        sent (events (exec (PkgMain.Add nodeWorld 1 localClient "/tmp/test.txt"))) = [req]
        /\ ReqBody req = Some m
        /\ mp_parts m = [{| p_name := "file";
                            p_filename := "test.txt";
                            p_data := "test for file" |}]).
Proof.
  split; [|split; [reflexivity|]].
  - eexists _, _. split; [exact (client_Add_regular_file nodeWorld localClient
                                    "/tmp/test.txt" eq_refl eq_refl eq_refl)|].
    split; reflexivity.
  - eexists _, _. split; [exact (main_Add_regular_file nodeWorld 0 localClient
                                    "/tmp/test.txt" eq_refl eq_refl eq_refl)|].
    split; reflexivity.
Qed.

(** ** Failures inside a directory *)

(** Package client: when a file of the directory cannot be opened, [Add]
    returns an error and sends nothing. *)
Lemma client_Add_unopenable_file (w : World) (client : Client) (pathName : string)
    (entries : list DirEntry) :
  sys_stat w pathName = SysOk directory ->
  sys_readdir w pathName = SysOk entries ->
  forallb (fun e => opens w (entryPath pathName e)) (regularEntries entries) = false ->
  sent (events (exec (PkgClient.Add w client pathName))) = []
  /\ exists e, result (exec (PkgClient.Add w client pathName)) = Some (None, Some e).
Proof.
  intros Hs Hd Ho.
  exact (proj2 (proj2 (client_Add_directory w client pathName entries Hs Hd)) Ho).
Qed.

(** C3 at [/tmp/test]: when reading [test1] fails after three bytes,
    package client's [Add] still sends the request, with the three bytes as
    the part, and returns no error; when [test1] cannot be opened, package
    main's [Add] still sends the request, with an empty part, and returns no
    error.  (When [test1] cannot be opened, package client's [Add] does
    return the error and sends nothing.) *)
Theorem C3_directory_failure_still_sent :
  (exists req m v,
     sent (events (exec (PkgClient.Add failingReadWorld localClient "/tmp/test"))) = [req]
     /\ ReqBody req = Some m
     /\ mp_parts m = [{| p_name := "file"; p_filename := "test1"; p_data := "Hel" |};
                      {| p_name := "file"; p_filename := "test2"; p_data := "Hello 2" |}]
     /\ result (exec (PkgClient.Add failingReadWorld localClient "/tmp/test"))
        = Some (Some v, None))
  /\ (exists req m v,
        sent (events (exec (PkgMain.Add lockedFileWorld 3 localClient "/tmp/test"))) = [req]
        /\ ReqBody req = Some m
        /\ mp_parts m = [{| p_name := "file"; p_filename := "test1"; p_data := "" |};
                         {| p_name := "file"; p_filename := "test2"; p_data := "Hello 2" |}]
        /\ result (exec (PkgMain.Add lockedFileWorld 3 localClient "/tmp/test"))
           = Some (Some v, None))
  /\ (sent (events (exec (PkgClient.Add lockedFileWorld localClient "/tmp/test"))) = []
      /\ result (exec (PkgClient.Add lockedFileWorld localClient "/tmp/test"))
         = Some (None, Some (IOError "open" "/tmp/test/test1" EACCES))).
Proof.
  split; [|split].
  - eexists _, _, _. split; [vm_compute; reflexivity|].
    split; [reflexivity|]. split; reflexivity.
  - eexists _, _, _. split; [vm_compute; reflexivity|].
    split; [reflexivity|]. split; reflexivity.
  - split; reflexivity.
Qed.

(** ** Package main: the boundary handed back by the builders *)

Lemma preserves_ret (b : string) {A} (P : A -> Prop) (a : A) :
  P a -> preserves b P (ret a).
Proof. intros H s wr Hs Hb. simpl. eauto. Qed.

Lemma preserves_bind (b : string) {A B} (Q : A -> Prop) (P : B -> Prop)
    (m : M A) (k : A -> M B) :
  preserves b Q m -> (forall a, Q a -> preserves b P (k a)) ->
  preserves b P (bind m k).
Proof.
  intros Hm Hk s wr Hs Hb. unfold bind. specialize (Hm s wr Hs Hb).
  destruct (m s) as [a s1|s1|]; auto.
  destruct Hm as [(wr1 & Hs1 & Hb1) Ha].
  exact (Hk a Ha s1 wr1 Hs1 Hb1).
Qed.

Lemma preserves_withWriter (b : string) {A} (P : A -> Prop)
    (f : Multipart -> A * Multipart) :
  (forall m, mp_boundary m = b -> mp_boundary (snd (f m)) = b /\ P (fst (f m))) ->
  preserves b P (withWriter f).
Proof.
  intros Hf s wr Hs Hb. unfold withWriter. rewrite Hs.
  specialize (Hf wr Hb). destruct (f wr) as [a m']. simpl in *.
  destruct Hf. eauto.
Qed.

Lemma preserves_emit (b : string) (e : Event) : preserves b (fun _ => True) (emit e).
Proof. intros s wr Hs Hb. simpl. eauto. Qed.

Lemma preserves_Open (w : World) (b name : string) :
  preserves b (fun _ => True) (os_Open w name).
Proof.
  unfold os_Open. destruct (sys_open w name).
  - eapply preserves_bind; [apply preserves_emit|]. intros. apply preserves_ret. exact I.
  - apply preserves_ret. exact I.
Qed.

Lemma preserves_rangeEntries (b : string) {A} (P : A -> Prop)
    (body : nat -> DirEntry -> A -> M A) :
  (forall i e a, P a -> preserves b P (body i e a)) ->
  forall entries i a, P a -> preserves b P (rangeEntries body i entries a).
Proof.
  intros Hb entries. induction entries as [|e rest IH]; intros i a Ha; simpl.
  - apply preserves_ret. exact Ha.
  - eapply preserves_bind; [apply Hb; exact Ha|]. intros a' Ha'. apply IH. exact Ha'.
Qed.

Section MainBoundary.
Variable w : World.

Lemma main_builders_boundary (b : string) (fuel : nat) :
  (forall pathName,
     preserves b (boundary_or_empty b) (PkgMain.createMultiPartBody w fuel pathName))
  /\ (forall pathName,
        preserves b (boundary_or_empty b)
                  (PkgMain.createDirectoryMultiPartBody w fuel pathName)).
Proof.
  induction fuel as [|fuel [IHf IHd]]; split; intros pathName;
    try (intros s wr Hs Hb; exact I).
  - rewrite main_createMultiPartBody_S.
    destruct (os_Stat w pathName) as [fi|e]; [|apply preserves_ret; left; reflexivity].
    destruct (fi_IsDir fi).
    + eapply preserves_bind; [apply IHd|].
      intros [bnd err] H. apply preserves_ret. exact H.
    + eapply preserves_bind with (Q := fun _ => True).
      { apply preserves_withWriter. intros m Hm. simpl. auto. }
      intros [formFile [e|]] _; [apply preserves_ret; left; reflexivity|].
      eapply preserves_bind; [apply preserves_Open|].
      intros [file|e] _; [|apply preserves_ret; left; reflexivity].
      eapply preserves_bind with (Q := fun _ => True).
      { apply preserves_withWriter. intros m Hm.
        destruct (writable m formFile); simpl; auto. }
      intros [e|] _.
      * eapply preserves_bind; [apply preserves_emit|].
        intros. apply preserves_ret. left; reflexivity.
      * eapply preserves_bind with (Q := fun x => x = b).
        { apply preserves_withWriter. intros m Hm. simpl. auto. }
        intros bnd ->.
        eapply preserves_bind; [apply preserves_emit|].
        intros. apply preserves_ret. right; reflexivity.
  - rewrite main_createDirectoryMultiPartBody_S.
    destruct (os_ReadDir w pathName) as [entries|e];
      [|apply preserves_ret; left; reflexivity].
    eapply preserves_bind with (Q := fun x => x = "" \/ x = b).
    + apply preserves_rangeEntries; [|left; reflexivity].
      intros i e a Ha. destruct (de_IsDir e).
      * eapply preserves_bind; [apply IHd|]. intros. apply preserves_ret. exact Ha.
      * destruct (Nat.eqb i 0 || String.eqb a "").
        -- eapply preserves_bind; [apply IHf|].
           intros [bnd err] H. apply preserves_ret. exact H.
        -- eapply preserves_bind; [apply IHf|]. intros. apply preserves_ret. exact Ha.
    + intros bnd H. apply preserves_ret. exact H.
Qed.

(** Every request package main sends is delimited with the writer's
    boundary and announces either that boundary or the empty string. *)
Lemma main_Add_boundary (fuel : nat) (client : Client) (pathName : string)
    (req : Request) :
  In req (sent (events (exec (PkgMain.Add w fuel client pathName)))) ->
  exists m bnd,
    req = multipartRequest client m bnd
    /\ mp_boundary m = rand_boundary w
    /\ mp_closed m = true
    /\ (bnd = "" \/ bnd = rand_boundary w).
Proof.
  unfold exec, PkgMain.Add. unfold bind at 1, multipart_NewWriter at 1.
  cbn [st_trace init]. unfold bind at 1.
  set (s0 := {| st_writer := _; st_trace := [] |}).
  pose proof (proj1 (main_quiet_builders w fuel) pathName s0) as Q.
  pose proof (proj1 (main_builders_boundary (rand_boundary w) fuel) pathName s0 _
                eq_refl eq_refl) as B.
  destruct (PkgMain.createMultiPartBody w fuel pathName s0) as [[bnd err] s1|s1|].
  - destruct Q as [[l [E F]] _]. destruct B as [(wr & Hs1 & Hb1) Hbnd].
    simpl in E. destruct err as [e|].
    + simpl. rewrite E, (sent_fileEvents l F). intros [].
    + unfold bind at 1, Writer_Close at 1, withWriter at 1. rewrite Hs1.
      unfold bind at 1, buffer at 1, withWriter at 1. cbn [st_writer st_trace].
      unfold http_NewRequest.
      change (url client ++ map_index apiEndpoint "add")%string
        with (url client ++ "/api/v0/add")%string.
      destruct (url_rejects w (url client ++ "/api/v0/add")%string).
      * simpl. rewrite E, (sent_fileEvents l F). intros [].
      * rewrite exchange_run. cbn [events st_trace]. rewrite E.
        rewrite <- (app_nil_r (exchange_events _ _)), sent_exchange by auto.
        intros [<-|[]]. eexists _, bnd. split; [reflexivity|].
        cbn [mp_boundary mp_closed]. auto.
  - destruct Q as [[l [E F]] _]. simpl in E |- *.
    rewrite E, (sent_fileEvents l F). intros [].
  - simpl. intros [].
Qed.

End MainBoundary.

(** ** The boundary of package client, and the empty directory *)

Lemma multipartRequest_consistent (client : Client) (m : Multipart) :
  boundary_consistent (multipartRequest client m (mp_boundary m)).
Proof. exists m. split; reflexivity. Qed.

(** Every request package client sends announces the boundary of its
    body. *)
Lemma client_boundary_consistent (w : World) (client : Client) (pathName : string)
    (content : Reader) (fileName : string) (req : Request) :
  (In req (sent (events (exec (PkgClient.Add w client pathName)))) ->
   boundary_consistent req)
  /\ (In req (sent (events (exec (PkgClient.AddBinary w client content fileName)))) ->
      boundary_consistent req).
Proof.
  split.
  - destruct (sys_stat w pathName) as [[isDir]|errno] eqn:Es.
    + destruct isDir.
      * destruct (sys_readdir w pathName) as [entries|errno] eqn:Ed.
        -- destruct (client_Add_directory w client pathName entries Es Ed) as [_ [[E|[E _]] _]];
             rewrite E; simpl; [intros [<-|[]] | intros []].
           apply (multipartRequest_consistent client (directoryBuffer w pathName entries)).
        -- unfold exec, PkgClient.Add, os_Stat. rewrite Es. cbn [fi_IsDir].
           unfold PkgClient.createDirectoryMultiPartBody, os_ReadDir. rewrite Ed.
           simpl. intros [].
      * destruct (sys_open w pathName) as [d|errno] eqn:Eo.
        -- destruct (client_Add_file w client pathName d Es Eo) as [_ [E|[E _]]];
             rewrite E; simpl; [intros [<-|[]] | intros []].
           apply (multipartRequest_consistent client (fileBuffer w pathName (fd_data d))).
        -- unfold exec, PkgClient.Add, os_Stat. rewrite Es. cbn [fi_IsDir].
           unfold bind, os_Open. rewrite Eo. simpl. intros [].
    + unfold exec, PkgClient.Add, os_Stat. rewrite Es. simpl. intros [].
  - destruct (client_AddBinary_sent w client content fileName) as [_ [E|[E _]]];
      rewrite E; simpl; [intros [<-|[]] | intros []].
    apply (multipartRequest_consistent client (fileBuffer w fileName (r_data content))).
Qed.

(** C8 at the empty directory [/tmp/empty]: package main's [Add] sends a
    request whose Content-Type announces an empty boundary while the body
    ends with the delimiter of the writer's boundary. *)
Theorem C8_main_empty_directory_boundary :
  sys_readdir nodeWorld "/tmp/empty" = SysOk []
  /\ exists req m,
       sent (events (exec (PkgMain.Add nodeWorld 2 localClient "/tmp/empty"))) = [req]
       /\ ReqBody req = Some m
       /\ Header_Get req "Content-Type" = "multipart/form-data; boundary="%string
       /\ delimiters m = ["--7d3f1c--"%string]
       /\ ~ boundary_consistent req.
Proof.
  split; [reflexivity|].
  eexists _, _. split; [vm_compute; reflexivity|].
  split; [reflexivity|]. split; [reflexivity|]. split; [reflexivity|].
  intros (m & Hm & Hh). injection Hm as <-. vm_compute in Hh. discriminate.
Qed.

(** * Further properties *)

(** ** File handles *)

Lemma open_files_app (l1 l2 : list Event) (o : list string) :
  open_files o (l1 ++ l2) = open_files (open_files o l1) l2.
Proof.
  revert o. induction l1 as [|e l1 IH]; intros o; simpl; [reflexivity|].
  destruct e; apply IH.
Qed.

Lemma peak_open_ge (l : list Event) (o : list string) : length o <= peak_open o l.
Proof.
  revert o. induction l as [|e l IH]; intros o; simpl; [lia|].
  destruct e; try lia; apply IH.
Qed.

Lemma peak_open_app (l1 l2 : list Event) (o : list string) :
  peak_open o (l1 ++ l2) = Nat.max (peak_open o l1) (peak_open (open_files o l1) l2).
Proof.
  revert o. induction l1 as [|e l1 IH]; intros o; simpl.
  - pose proof (peak_open_ge l2 o). lia.
  - destruct e; rewrite IH; lia.
Qed.

Lemma pairs_app (l1 l2 : list Event) :
  pairs l1 = true -> pairs l2 = true -> pairs (l1 ++ l2) = true.
Proof.
  revert l1. fix IH 1. intros [|e [|e' l1]] H1 H2; simpl in *; try assumption.
  - destruct e; discriminate.
  - destruct e; try discriminate. destruct e'; try discriminate.
    apply andb_prop in H1. destruct H1 as [Hn H1]. rewrite Hn. simpl.
    apply IH; assumption.
Qed.

Lemma pairs_open_files (l : list Event) (o : list string) :
  pairs l = true -> open_files o l = o /\ peak_open o l <= S (length o).
Proof.
  revert l. fix IH 1. intros [|e [|e' l]] H; simpl in H.
  - split; [reflexivity | simpl; lia].
  - destruct e; discriminate.
  - destruct e; try discriminate. destruct e'; try discriminate.
    apply andb_prop in H. destruct H as [Hn H].
    apply String.eqb_eq in Hn. subst.
    cbn [open_files peak_open remove_first length]. rewrite String.eqb_refl.
    destruct (IH l H) as [E P]. split; [exact E | lia].
Qed.

Lemma pairs_fileEvents (l : list Event) : pairs l = true -> forallb fileEvent l = true.
Proof.
  revert l. fix IH 1. intros [|e [|e' l]] H; simpl in *; try reflexivity.
  - destruct e; discriminate.
  - destruct e; try discriminate. destruct e'; try discriminate.
    apply andb_prop in H. destruct H as [_ H]. simpl. apply IH; exact H.
Qed.

Lemma open_files_exchange (w : World) (req : Request) (o : list string) :
  open_files o (exchange_events w req) = o
  /\ peak_open o (exchange_events w req) = length o.
Proof.
  unfold exchange_events. destruct (transport w req); split; reflexivity.
Qed.

Lemma paired_ret {A} (a : A) : paired (ret a).
Proof.
  intros s Hs; simpl. split; [exact Hs|]. exists []. rewrite app_nil_r. auto.
Qed.

Lemma paired_bind {A B} (m : M A) (k : A -> M B) :
  paired m -> (forall a, paired (k a)) -> paired (bind m k).
Proof.
  intros Hm Hk s Hs. unfold bind. specialize (Hm s Hs).
  destruct (m s) as [a s1|s1|]; [|exact Hm|exact I].
  destruct Hm as [W1 [l1 [E1 P1]]].
  specialize (Hk a s1 W1).
  destruct (k a s1) as [b s2|s2|]; [|exact Hk|exact I].
  destruct Hk as [W2 [l2 [E2 P2]]].
  split; [exact W2|]. exists (l1 ++ l2).
  rewrite E2, E1, app_assoc. split; [reflexivity | apply pairs_app; assumption].
Qed.

Lemma paired_withWriter {A} (f : Multipart -> A * Multipart) : paired (withWriter f).
Proof.
  intros s Hs. unfold withWriter.
  destruct (st_writer s) as [m|]; [|exact (Hs eq_refl)].
  destruct (f m) as [a m']. simpl.
  split; [discriminate|]. exists []. rewrite app_nil_r. auto.
Qed.

Lemma paired_rangeEntries {A} (body : nat -> DirEntry -> A -> M A) :
  (forall i e a, paired (body i e a)) ->
  forall entries i a, paired (rangeEntries body i entries a).
Proof.
  intros Hb entries. induction entries as [|e rest IH]; intros i a; simpl.
  - apply paired_ret.
  - apply paired_bind; [apply Hb | intros a'; apply IH].
Qed.

Section MainHandles.
Variable w : World.

(** Opening, copying and closing one file. *)
Lemma paired_open_copy_close {A} (name : string) (formFile : nat)
    (k1 : error -> A) (k2 : error -> A) (k3 : string -> A) :
  paired (r <- os_Open w name ;;
          match r with
          | Err e => ret (k1 e)
          | Ok file =>
              err <- io_Copy formFile (File_Reader file) ;;
              match err with
              | Some e => File_Close file ;; ret (k2 e)
              | None =>
                  writerBoundary <- Writer_Boundary ;;
                  File_Close file ;;
                  ret (k3 writerBoundary)
              end
          end).
Proof.
  intros s Hs. unfold bind at 1, os_Open.
  destruct (sys_open w name) as [d|errno].
  - unfold bind at 1, emit at 1, ret at 1.
    unfold bind at 1, io_Copy at 1, withWriter at 1. cbn [st_writer st_trace].
    destruct (st_writer s) as [m|]; [|exact (Hs eq_refl)].
    match goal with
    | |- context [let (_, _) := ?p in _] => destruct p as [[e|] m'] eqn:Ep
    end.
    + unfold bind, File_Close, emit, ret. cbn [st_writer st_trace f_name].
      split; [discriminate|]. exists [EvOpen name; EvFileClose name].
      rewrite <- app_assoc. simpl. rewrite String.eqb_refl. auto.
    + unfold bind, Writer_Boundary, withWriter, File_Close, emit, ret.
      cbn [st_writer st_trace f_name].
      split; [discriminate|]. exists [EvOpen name; EvFileClose name].
      rewrite <- app_assoc. simpl. rewrite String.eqb_refl. auto.
  - unfold ret. split; [exact Hs|]. exists []. rewrite app_nil_r. auto.
Qed.

Lemma main_paired_builders (fuel : nat) :
  (forall pathName, paired (PkgMain.createMultiPartBody w fuel pathName))
  /\ (forall pathName, paired (PkgMain.createDirectoryMultiPartBody w fuel pathName)).
Proof.
  induction fuel as [|fuel [IHf IHd]]; split; intros pathName;
    try (intros s Hs; exact I).
  - rewrite main_createMultiPartBody_S.
    destruct (os_Stat w pathName) as [fi|e]; [|apply paired_ret].
    destruct (fi_IsDir fi).
    + apply paired_bind; [apply IHd|]. intros [bnd err]. apply paired_ret.
    + apply paired_bind; [apply paired_withWriter|].
      intros [formFile [e|]]; [apply paired_ret|].
      apply (paired_open_copy_close pathName formFile
               (fun e => ("", Some e)) (fun e => ("", Some e)) (fun b => (b, None))).
  - rewrite main_createDirectoryMultiPartBody_S.
    destruct (os_ReadDir w pathName) as [entries|e]; [|apply paired_ret].
    apply paired_bind; [|intros; apply paired_ret].
    apply paired_rangeEntries. intros i e a.
    destruct (de_IsDir e).
    + apply paired_bind; [apply IHd | intros; apply paired_ret].
    + destruct (Nat.eqb i 0 || String.eqb a "").
      * apply paired_bind; [apply IHf | intros [bnd err]; apply paired_ret].
      * apply paired_bind; [apply IHf | intros; apply paired_ret].
Qed.

(** The trace of package main's [Add]: open/close pairs, then possibly one
    exchange. *)
Lemma main_Add_trace (fuel : nat) (client : Client) (pathName : string) :
  exists l,
    pairs l = true
    /\ (events (exec (PkgMain.Add w fuel client pathName)) = l
        \/ exists req,
             events (exec (PkgMain.Add w fuel client pathName))
             = l ++ exchange_events w req).
Proof.
  remember (exec (PkgMain.Add w fuel client pathName)) as o eqn:Eo.
  unfold exec, PkgMain.Add in Eo. unfold bind at 1, multipart_NewWriter at 1 in Eo.
  cbn [st_trace init] in Eo. unfold bind at 1 in Eo.
  set (s0 := {| st_writer := _; st_trace := [] |}) in Eo.
  assert (H0 : st_writer s0 <> None) by discriminate.
  pose proof (proj1 (main_paired_builders fuel) pathName s0 H0) as P.
  destruct (PkgMain.createMultiPartBody w fuel pathName s0) as [[bnd err] s1|s1|];
    [|contradiction|subst o; exists []; split; [reflexivity|left; reflexivity]].
  destruct P as [W [l [E Pl]]]. simpl in E. exists l. split; [exact Pl|].
  destruct err as [e|]; [left; subst o; simpl; exact E|].
  unfold bind at 1, Writer_Close at 1, withWriter at 1 in Eo.
  destruct (st_writer s1) as [m|]; [|contradiction].
  unfold bind at 1, buffer at 1, withWriter at 1 in Eo. cbn [st_writer st_trace] in Eo.
  unfold http_NewRequest in Eo.
  destruct (url_rejects w _); [left; subst o; simpl; exact E|].
  rewrite exchange_run in Eo. right. eexists. subst o.
  cbn [events st_trace]. rewrite E. reflexivity.
Qed.

End MainHandles.

Lemma open_files_opens (names o : list string) :
  open_files o (map EvOpen names) = rev names ++ o
  /\ peak_open o (map EvOpen names) = length names + length o.
Proof.
  revert o. induction names as [|n names IH]; intros o;
    cbn [map open_files peak_open rev length app]; [auto|].
  destruct (IH (n :: o)) as [E P]. rewrite E, P, <- app_assoc.
  cbn [length app]. split; [reflexivity|lia].
Qed.

Lemma open_files_closes (names o : list string) :
  open_files (names ++ o) (map EvFileClose names) = o
  /\ peak_open (names ++ o) (map EvFileClose names) = length names + length o.
Proof.
  induction names as [|n names [E P]];
    cbn [map open_files peak_open length app remove_first]; [auto|].
  rewrite String.eqb_refl, E, P, length_app. split; [reflexivity|lia].
Qed.

Lemma held_then_released_files (names o : list string) :
  open_files o (held_then_released names) = o
  /\ peak_open o (held_then_released names) = length names + length o
  /\ forallb fileEvent (held_then_released names) = true.
Proof.
  unfold held_then_released.
  destruct (open_files_opens names o) as [E1 P1].
  destruct (open_files_closes (rev names) o) as [E2 P2].
  rewrite open_files_app, peak_open_app, E1, P1, E2, P2, length_rev.
  split; [reflexivity|]. split; [lia|].
  rewrite forallb_app.
  apply andb_true_intro; split; apply forallb_forall;
    intros e He; apply in_map_iff in He; destruct He as [x [<- _]]; reflexivity.
Qed.

Section ClientHandles.
Variable w : World.

Lemma client_directoryLoop_trace (path : string) (entries : list DirEntry) :
  forall (s : State) (deferred : list File),
    st_writer s <> None ->
    exists err files s',
      PkgClient.directoryLoop w path entries deferred s
      = Done (err, rev files ++ deferred) s'
      /\ st_writer s' <> None
      /\ st_trace s' = st_trace s ++ map EvOpen (map f_name files)
      /\ map f_name files
         = firstn (length files) (map (entryPath path) (regularEntries entries))
      /\ (forallb (fun e => opens w (entryPath path e)) (regularEntries entries) = true ->
          length files = length (regularEntries entries)).
Proof.
  induction entries as [|e rest IH]; intros s deferred Hs.
  - exists None, [], s. simpl. rewrite app_nil_r. auto.
  - simpl PkgClient.directoryLoop. unfold regularEntries. simpl filter.
    destruct (de_IsDir e) eqn:Ed; simpl negb; cbv iota.
    + apply IH. exact Hs.
    + fold (regularEntries rest).
      unfold bind at 1. unfold Writer_CreateFormFile at 1, withWriter at 1.
      destruct (st_writer s) as [m|] eqn:Em; [|contradiction].
      cbn [st_writer st_trace].
      unfold bind at 1. unfold os_Open, opens, entryPath in *.
      simpl forallb. simpl map.
      destruct (sys_open w ((path ++ "/") ++ de_Name e)%string) as [d|errno] eqn:Eo.
      * unfold bind at 1, emit at 1, ret at 1. cbn [st_writer st_trace].
        unfold bind at 1, io_Copy at 1, withWriter at 1. cbn [st_writer st_trace].
        match goal with
        | |- context [let (_, _) := ?p in _] => destruct p as [err0 m'] eqn:Ep
        end.
        set (f := {| f_name := ((path ++ "/") ++ de_Name e)%string; f_content := d |}).
        match goal with
        | |- context [PkgClient.directoryLoop w path rest (f :: deferred) ?s1] =>
            destruct (IH s1 (f :: deferred)) as (err & files & s' & Hrun & Hw & Ht & Hn & Hl);
              [discriminate|]
        end.
        exists err, (f :: files), s'. rewrite Hrun. simpl rev. rewrite <- app_assoc.
        split; [reflexivity|]. split; [exact Hw|].
        split; [rewrite Ht; cbn [st_trace]; rewrite <- app_assoc; reflexivity|].
        split; [simpl; rewrite Hn at 1; reflexivity|].
        intros Ho. simpl. rewrite (Hl Ho). reflexivity.
      * exists (Some (IOError "open" ((path ++ "/") ++ de_Name e)%string errno)), [],
          {| st_writer :=
               Some {| mp_boundary := mp_boundary m;
                       mp_parts := mp_parts m ++ [{| p_name := "file";
                                                     p_filename := de_Name e;
                                                     p_data := "" |}];
                       mp_closed := mp_closed m |};
             st_trace := st_trace s |}.
        unfold ret. simpl. rewrite app_nil_r.
        repeat split; try discriminate.
Qed.

Lemma client_runDeferred_trace (deferred : list File) (s : State) :
  PkgClient.runDeferred deferred s
  = Done tt {| st_writer := st_writer s;
               st_trace := st_trace s ++ map EvFileClose (map f_name deferred) |}.
Proof.
  revert s. induction deferred as [|f rest IH]; intros s; simpl.
  - rewrite app_nil_r. destruct s; reflexivity.
  - unfold bind, File_Close, emit. rewrite IH. simpl. rewrite <- app_assoc. reflexivity.
Qed.

(** The directory builder opens the files of the listing in order, up to
    the first that does not open, keeps them all open, and closes them in
    the reverse order when it returns. *)
Lemma client_createDirectoryMultiPartBody_trace (client : Client) (path : string)
    (entries : list DirEntry) (s : State) :
  sys_readdir w path = SysOk entries ->
  exists v names s',
    PkgClient.createDirectoryMultiPartBody w client path s = Done v s'
    /\ st_trace s' = st_trace s ++ held_then_released names
    /\ names = firstn (length names) (map (entryPath path) (regularEntries entries))
    /\ (forallb (fun e => opens w (entryPath path e)) (regularEntries entries) = true ->
        names = map (entryPath path) (regularEntries entries)).
Proof.
  intros Hd. unfold PkgClient.createDirectoryMultiPartBody.
  unfold bind at 1, multipart_NewWriter at 1. unfold os_ReadDir. rewrite Hd.
  unfold bind at 1.
  match goal with
  | |- context [PkgClient.directoryLoop w path entries [] ?s1] =>
      destruct (client_directoryLoop_trace path entries s1 [])
        as (err & files & s' & Hrun & Hw & Ht & Hn & Hl); [discriminate|]
  end.
  rewrite Hrun, app_nil_r. cbn [st_trace] in Ht.
  assert (Hall : forallb (fun e => opens w (entryPath path e)) (regularEntries entries) = true ->
                 map f_name files = map (entryPath path) (regularEntries entries)).
  { intros Ho. rewrite Hn, (Hl Ho), <- (length_map (entryPath path)). apply firstn_all. }
  assert (Hpre : map f_name files
                 = firstn (length (map f_name files))
                          (map (entryPath path) (regularEntries entries))).
  { rewrite length_map. exact Hn. }
  assert (Hheld : forall s1, st_trace s1 = st_trace s' ->
            st_trace s1 ++ map EvFileClose (map f_name (rev files))
            = st_trace s ++ held_then_released (map f_name files)).
  { intros s1 E1. rewrite E1, Ht. unfold held_then_released.
    rewrite <- app_assoc, map_rev. reflexivity. }
  destruct err as [e|].
  - unfold bind. rewrite client_runDeferred_trace. unfold ret.
    eexists _, (map f_name files), _. split; [reflexivity|].
    cbn [st_trace]. rewrite (Hheld s' eq_refl). auto.
  - unfold bind at 1, buffer at 1, withWriter at 1.
    destruct (st_writer s') as [m|] eqn:Em; [|contradiction].
    cbn [st_writer st_trace].
    destruct (http_NewRequest w "POST" _ _) as [req|e].
    + unfold bind at 1, Writer_Boundary at 1, withWriter at 1. cbn [st_writer st_trace].
      unfold bind. rewrite client_runDeferred_trace. unfold ret.
      eexists _, (map f_name files), _. split; [reflexivity|].
      cbn [st_trace]. rewrite (Hheld s' eq_refl). auto.
    + unfold bind. rewrite client_runDeferred_trace. unfold ret.
      eexists _, (map f_name files), _. split; [reflexivity|].
      cbn [st_trace]. rewrite (Hheld s' eq_refl). auto.
Qed.

End ClientHandles.

Section Handles.
Variable w : World.

Lemma client_Add_directory_trace (client : Client) (path : string)
    (entries : list DirEntry) :
  sys_stat w path = SysOk directory ->
  sys_readdir w path = SysOk entries ->
  exists names,
    names = firstn (length names) (map (entryPath path) (regularEntries entries))
    /\ (forallb (fun e => opens w (entryPath path e)) (regularEntries entries) = true ->
        names = map (entryPath path) (regularEntries entries))
    /\ (events (exec (PkgClient.Add w client path)) = held_then_released names
        \/ exists req,
             events (exec (PkgClient.Add w client path))
             = held_then_released names ++ exchange_events w req).
Proof.
  intros Hs Hd.
  destruct (client_createDirectoryMultiPartBody_trace w client path entries init Hd)
    as (v & names & s' & E & T & Hpre & Hall).
  exists names. split; [exact Hpre|]. split; [exact Hall|].
  remember (exec (PkgClient.Add w client path)) as o eqn:Eo.
  unfold exec, PkgClient.Add, os_Stat in Eo. rewrite Hs in Eo.
  cbn [fi_IsDir directory] in Eo. unfold bind in Eo. rewrite E in Eo.
  simpl in T. destruct v as [[req|] [e|]]; subst o.
  - left. exact T.
  - right. exists req. unfold PkgClient.doRequest. rewrite exchange_run.
    cbn [events st_trace]. rewrite T. reflexivity.
  - left. exact T.
  - left. exact T.
Qed.

Lemma client_Add_file_trace (client : Client) (path : string) (d : FileData) :
  sys_stat w path = SysOk regular ->
  sys_open w path = SysOk d ->
  events (exec (PkgClient.Add w client path)) = [EvOpen path; EvFileClose path]
  \/ exists req,
       events (exec (PkgClient.Add w client path))
       = [EvOpen path] ++ exchange_events w req ++ [EvFileClose path].
Proof.
  intros Hs Ho.
  pose (f := {| f_name := path; f_content := d |}).
  destruct (client_createMultiPartBody_run w client (File_Reader f) path
              {| st_writer := None; st_trace := [EvOpen path] |})
    as (v & m & E & _ & Hgen).
  remember (exec (PkgClient.Add w client path)) as o eqn:Eo.
  unfold exec, PkgClient.Add, os_Stat in Eo. rewrite Hs in Eo.
  cbn [fi_IsDir regular] in Eo. unfold bind at 1, os_Open in Eo. rewrite Ho in Eo.
  unfold bind at 1, emit at 1, ret at 1 in Eo. unfold bind at 1 in Eo.
  cbn [st_writer st_trace init app] in Eo. fold f in Eo. rewrite E in Eo.
  destruct Hgen as [->|[e ->]]; subst o.
  - right. eexists. unfold bind, PkgClient.doRequest. rewrite exchange_run.
    unfold File_Close, emit, ret. cbn [events st_trace st_writer f_name f].
    rewrite <- app_assoc. reflexivity.
  - left. reflexivity.
Qed.

Lemma client_AddBinary_trace (client : Client) (content : Reader) (fileName : string) :
  events (exec (PkgClient.AddBinary w client content fileName)) = []
  \/ events (exec (PkgClient.AddBinary w client content fileName))
     = exchange_events w (fileRequest w client fileName (r_data content)).
Proof.
  destruct (client_createMultiPartBody_run w client content fileName init)
    as (v & m & E & _ & Hgen).
  remember (exec (PkgClient.AddBinary w client content fileName)) as o eqn:Eo.
  unfold exec, PkgClient.AddBinary in Eo. unfold bind in Eo. rewrite E in Eo.
  destruct Hgen as [->|[e ->]]; subst o.
  - right. unfold PkgClient.doRequest. rewrite exchange_run. reflexivity.
  - left. reflexivity.
Qed.

Lemma client_Add_open_files (client : Client) (pathName : string) :
  open_files [] (events (exec (PkgClient.Add w client pathName))) = [].
Proof.
  destruct (sys_stat w pathName) as [[isDir]|errno] eqn:Es.
  - destruct isDir.
    + destruct (sys_readdir w pathName) as [entries|errno] eqn:Ed.
      * destruct (client_Add_directory_trace client pathName entries Es Ed)
          as (names & _ & _ & [E|[req E]]); rewrite E.
        -- apply held_then_released_files.
        -- rewrite open_files_app, (proj1 (held_then_released_files names [])).
           apply open_files_exchange.
      * unfold exec, PkgClient.Add, os_Stat. rewrite Es. cbn [fi_IsDir].
        unfold PkgClient.createDirectoryMultiPartBody, os_ReadDir. rewrite Ed.
        reflexivity.
    + destruct (sys_open w pathName) as [d|errno] eqn:Eo.
      * destruct (client_Add_file_trace client pathName d Es Eo) as [E|[req E]]; rewrite E.
        -- simpl. rewrite String.eqb_refl. reflexivity.
        -- cbn [app open_files]. rewrite open_files_app.
           rewrite (proj1 (open_files_exchange w req [pathName])).
           simpl. rewrite String.eqb_refl. reflexivity.
      * unfold exec, PkgClient.Add, os_Stat. rewrite Es. cbn [fi_IsDir].
        unfold bind, os_Open. rewrite Eo. reflexivity.
  - unfold exec, PkgClient.Add, os_Stat. rewrite Es. reflexivity.
Qed.

End Handles.

(** X1: whatever the file system and the node do, no file that [Add]
    (either package) opened is still open when it returns, and [AddBinary]
    opens none. *)
Theorem X1_no_file_left_open (w : World) (fuel : nat) (client : Client)
    (pathName : string) (content : Reader) (fileName : string) :
  open_files [] (events (exec (PkgMain.Add w fuel client pathName))) = []
  /\ open_files [] (events (exec (PkgClient.Add w client pathName))) = []
  /\ forallb (fun e => negb (fileEvent e))
             (events (exec (PkgClient.AddBinary w client content fileName))) = true.
Proof.
  split; [|split].
  - destruct (main_Add_trace w fuel client pathName) as (l & Pl & [E|[req E]]); rewrite E.
    + apply (pairs_open_files l [] Pl).
    + rewrite open_files_app, (proj1 (pairs_open_files l [] Pl)).
      apply open_files_exchange.
  - apply client_Add_open_files.
  - destruct (client_AddBinary_trace w client content fileName) as [E|E]; rewrite E.
    + reflexivity.
    + unfold exchange_events. destruct (transport w _); reflexivity.
Qed.

(** X2: package main never has more than one file open at a time. *)
Theorem X2_main_one_file_at_a_time (w : World) (fuel : nat) (client : Client)
    (pathName : string) :
  peak_open [] (events (exec (PkgMain.Add w fuel client pathName))) <= 1.
Proof.
  destruct (main_Add_trace w fuel client pathName) as (l & Pl & [E|[req E]]); rewrite E.
  - apply (pairs_open_files l [] Pl).
  - destruct (pairs_open_files l [] Pl) as [Eo Pk].
    rewrite peak_open_app, Eo, (proj2 (open_files_exchange w req [])).
    simpl in *. lia.
Qed.

(** X3: package client, on a directory whose files all open, opens them in
    the order of the listing, holds every one of them open until the last
    is copied and closes them in the reverse order before the request is
    sent: as many files are open at once as the listing has files. *)
Theorem X3_client_holds_directory_files (w : World) (client : Client)
    (pathName : string) (entries : list DirEntry) :
  sys_stat w pathName = SysOk directory ->
  sys_readdir w pathName = SysOk entries ->
  forallb (fun e => opens w (entryPath pathName e)) (regularEntries entries) = true ->
  url_rejects w (url client ++ "/api/v0/add")%string = false ->
  events (exec (PkgClient.Add w client pathName))
  = held_then_released (map (entryPath pathName) (regularEntries entries))
    ++ exchange_events w (directoryRequest w client pathName entries)
  /\ peak_open [] (events (exec (PkgClient.Add w client pathName)))
     = length (regularEntries entries).
Proof.
  intros Hs Hd Ho Hu.
  destruct (client_Add_directory_trace w client pathName entries Hs Hd)
    as (names & _ & Hall & Hev).
  rewrite (Hall Ho) in Hev.
  destruct (client_Add_directory w client pathName entries Hs Hd) as [Hok _].
  destruct (Hok Ho Hu) as [Hsent _].
  set (all := map (entryPath pathName) (regularEntries entries)) in *.
  destruct (held_then_released_files all []) as [Eo [Pk Fe]].
  assert (E : events (exec (PkgClient.Add w client pathName))
              = held_then_released all
                ++ exchange_events w (directoryRequest w client pathName entries)).
  { destruct Hev as [E|[req E]].
    - rewrite E, (sent_fileEvents _ Fe) in Hsent. discriminate.
    - rewrite E, sent_app, (sent_fileEvents _ Fe), exchange_events_sent in Hsent.
      injection Hsent as ->. exact E. }
  split; [exact E|].
  rewrite E, peak_open_app, Eo, Pk, (proj2 (open_files_exchange w _ [])).
  unfold all. rewrite length_map. simpl. lia.
Qed.

Lemma X3_client_holds_directory_files_witness :
  events (exec (PkgClient.Add nodeWorld localClient "/tmp/test"))
  = [EvOpen "/tmp/test/test1"; EvOpen "/tmp/test/test2";
     EvFileClose "/tmp/test/test2"; EvFileClose "/tmp/test/test1"]
    ++ exchange_events nodeWorld
         (directoryRequest nodeWorld localClient "/tmp/test"
                           [fileEntry "test1"; fileEntry "test2"])
  /\ peak_open [] (events (exec (PkgClient.Add nodeWorld localClient "/tmp/test"))) = 2.
Proof.
  exact (X3_client_holds_directory_files nodeWorld localClient "/tmp/test"
           [fileEntry "test1"; fileEntry "test2"] eq_refl eq_refl eq_refl eq_refl).
Defined.

(** ** What [Add] and [AddBinary] can return *)

Section Outcomes.
Variable w : World.

Lemma outcome_ret_err (e : error) : add_outcome_from w (ret (None, Some e)).
Proof. intros s H. left. split; [exact H | right; exists e; reflexivity]. Qed.

Lemma outcome_panic : add_outcome_from w panic.
Proof. intros s H. left. split; [exact H | left; reflexivity]. Qed.

Lemma outcome_bind_quiet {A} (m : M A) k :
  quiet m -> (forall a, add_outcome_from w (k a)) -> add_outcome_from w (bind m k).
Proof.
  intros Q Hk s Hs. unfold bind.
  pose proof (quiet_run m s Q) as R.
  destruct (m s) as [a s1|s1|].
  - destruct R as [l [E F]]. apply Hk. rewrite E, forallb_app, Hs, F. reflexivity.
  - destruct R as [l [E F]]. left. simpl.
    rewrite E, forallb_app, Hs, F. split; [reflexivity | left; reflexivity].
  - left. split; [reflexivity | left; reflexivity].
Qed.

Lemma outcome_exchange (client : Client) (req : Request) :
  add_outcome_from w (exchange w client req).
Proof.
  intros s Hs. rewrite exchange_run. right.
  exists (st_trace s), req, []. cbn [events result st_trace].
  rewrite app_nil_r. repeat split; auto.
Qed.

Lemma outcome_exchange_close (client : Client) (req : Request) (f : File) :
  add_outcome_from w (v <- exchange w client req ;; File_Close f ;; ret v).
Proof.
  intros s Hs. unfold bind. rewrite exchange_run. right.
  exists (st_trace s), req, [EvFileClose (f_name f)]. cbn.
  rewrite <- app_assoc. repeat split; auto.
Qed.

Lemma client_Add_outcome (client : Client) (pathName : string) :
  add_outcome w (exec (PkgClient.Add w client pathName)).
Proof.
  enough (H : add_outcome_from w (PkgClient.Add w client pathName))
    by (apply H; reflexivity).
  unfold PkgClient.Add.
  destruct (os_Stat w pathName) as [fi|e]; [|apply outcome_ret_err].
  destruct (fi_IsDir fi).
  - apply outcome_bind_quiet; [apply client_quiet_createDirectoryMultiPartBody|].
    intros [request [e|]]; [apply outcome_ret_err|].
    destruct request as [req|]; [apply outcome_exchange | apply outcome_panic].
  - apply outcome_bind_quiet; [apply quiet_Open|].
    intros [file|e]; [|apply outcome_ret_err].
    apply outcome_bind_quiet; [apply client_quiet_createMultiPartBody|].
    intros [request [e|]].
    + apply outcome_bind_quiet; [apply quiet_Close | intros; apply outcome_ret_err].
    + destruct request as [req|]; [apply outcome_exchange_close|].
      unfold PkgClient.doRequest. intros s Hs. left.
      split; [exact Hs | left; reflexivity].
Qed.

Lemma client_AddBinary_outcome (client : Client) (content : Reader) (fileName : string) :
  add_outcome w (exec (PkgClient.AddBinary w client content fileName)).
Proof.
  enough (H : add_outcome_from w (PkgClient.AddBinary w client content fileName))
    by (apply H; reflexivity).
  unfold PkgClient.AddBinary.
  apply outcome_bind_quiet; [apply client_quiet_createMultiPartBody|].
  intros [request [e|]]; [apply outcome_ret_err|].
  destruct request as [req|]; [apply outcome_exchange | apply outcome_panic].
Qed.

Lemma main_Add_outcome (fuel : nat) (client : Client) (pathName : string) :
  add_outcome w (exec (PkgMain.Add w fuel client pathName)).
Proof.
  enough (H : add_outcome_from w (PkgMain.Add w fuel client pathName))
    by (apply H; reflexivity).
  unfold PkgMain.Add.
  apply outcome_bind_quiet; [apply quiet_NewWriter|]. intros _.
  apply outcome_bind_quiet; [apply (main_quiet_builders w fuel)|].
  intros [boundary [e|]]; [apply outcome_ret_err|].
  apply outcome_bind_quiet; [apply quiet_withWriter|]. intros _.
  apply outcome_bind_quiet; [apply quiet_withWriter|]. intros multiPartBody.
  destruct (http_NewRequest w "POST" _ _) as [req|e];
    [apply outcome_exchange | apply outcome_panic].
Qed.

Lemma outcome_value o (v : IPFSResponse) (oe : option error) :
  add_outcome w o ->
  result o = Some (Some v, oe) ->
  oe = None
  /\ exists req resp,
       In (EvDo req (Ok resp)) (events o)
       /\ r_err (Body resp) = None
       /\ v = decoded w resp.
Proof.
  intros [[_ [R|[e R]]]|(l & req & l' & Hl & Hl' & E & R)] Hr; rewrite R in Hr;
    try discriminate.
  unfold exchange_result in Hr.
  destruct (transport w req) as [resp|e] eqn:T; [|discriminate].
  destruct (r_err (Body resp)) eqn:Er; [discriminate|].
  injection Hr as <- <-. split; [reflexivity|].
  exists req, resp. split; [|auto].
  rewrite E. apply in_or_app. right. apply in_or_app. left.
  unfold exchange_events. rewrite T. left. reflexivity.
Qed.

Lemma outcome_error o (e : error) :
  add_outcome w o ->
  result o = Some (None, Some e) ->
  sent (events o) = []
  \/ exists req, sent (events o) = [req] /\ transport w req = Err e.
Proof.
  intros [[F _]|(l & req & l' & Hl & Hl' & E & R)] Hr.
  - left. apply sent_fileEvents. exact F.
  - right. exists req. rewrite E. split; [apply sent_exchange; assumption|].
    rewrite R in Hr. unfold exchange_result in Hr.
    destruct (transport w req) as [resp|e'].
    + destruct (r_err (Body resp)); discriminate.
    + injection Hr as ->. reflexivity.
Qed.

End Outcomes.

(** X4: [Add] (either package) and [AddBinary] never return a result
    together with an error, and they return a result only when the node
    answered and the body of the answer was read to its end: the result is
    then what [json.Unmarshal] stored. *)
Theorem X4_result_only_after_answer (w : World) (fuel : nat) (client : Client)
    (pathName : string) (content : Reader) (fileName : string)
    (o : Outcome (option IPFSResponse * option error))
    (v : IPFSResponse) (oe : option error) :
  o = exec (PkgMain.Add w fuel client pathName)
  \/ o = exec (PkgClient.Add w client pathName)
  \/ o = exec (PkgClient.AddBinary w client content fileName) ->
  result o = Some (Some v, oe) ->
  oe = None
  /\ exists req resp,
       In (EvDo req (Ok resp)) (events o)
       /\ r_err (Body resp) = None
       /\ v = decoded w resp.
Proof.
  intros Ho. apply outcome_value.
  destruct Ho as [->|[->| ->]].
  - apply main_Add_outcome.
  - apply client_Add_outcome.
  - apply client_AddBinary_outcome.
Qed.

Lemma X4_result_only_after_answer_witness :
  result (exec (PkgClient.Add nodeWorld localClient "/tmp/test.txt"))
  = Some (Some added, None)
  /\ exists req resp,
       In (EvDo req (Ok resp))
          (events (exec (PkgClient.Add nodeWorld localClient "/tmp/test.txt")))
       /\ r_err (Body resp) = None
       /\ added = decoded nodeWorld resp.
Proof.
  split; [reflexivity|].
  exact (proj2 (X4_result_only_after_answer nodeWorld 0 localClient "/tmp/test.txt"
                  (bytesReader "") "" _ added None (or_intror (or_introl eq_refl))
                  eq_refl)).
Defined.

(** X5: an error that [Add] (either package) or [AddBinary] returns once a
    request has been sent is the error of that exchange; every other error
    is returned before anything is sent. *)
Theorem X5_error_after_send_is_transport (w : World) (fuel : nat) (client : Client)
    (pathName : string) (content : Reader) (fileName : string)
    (o : Outcome (option IPFSResponse * option error)) (e : error) :
  o = exec (PkgMain.Add w fuel client pathName)
  \/ o = exec (PkgClient.Add w client pathName)
  \/ o = exec (PkgClient.AddBinary w client content fileName) ->
  result o = Some (None, Some e) ->
  sent (events o) = []
  \/ exists req, sent (events o) = [req] /\ transport w req = Err e.
Proof.
  intros Ho. apply outcome_error.
  destruct Ho as [->|[->| ->]].
  - apply main_Add_outcome.
  - apply client_Add_outcome.
  - apply client_AddBinary_outcome.
Qed.

Lemma X5_error_after_send_witness :
  result (exec (PkgMain.Add (testWorld (Err (NetworkError "timeout")) rejectAll)
                            1 localClient "/tmp/test.txt"))
  = Some (None, Some (NetworkError "timeout"))
  /\ (sent (events (exec (PkgMain.Add (testWorld (Err (NetworkError "timeout")) rejectAll)
                                      1 localClient "/tmp/test.txt"))) = []
      \/ exists req,
           sent (events (exec (PkgMain.Add (testWorld (Err (NetworkError "timeout"))
                                                      rejectAll)
                                           1 localClient "/tmp/test.txt"))) = [req]
           /\ transport (testWorld (Err (NetworkError "timeout")) rejectAll) req
              = Err (NetworkError "timeout")).
Proof.
  split; [reflexivity|].
  exact (X5_error_after_send_is_transport
           (testWorld (Err (NetworkError "timeout")) rejectAll)
           1 localClient "/tmp/test.txt" (bytesReader "") "" _ (NetworkError "timeout")
           (or_introl eq_refl) eq_refl).
Defined.

(** ** Failures on a single file and on the listing *)

Section Failures.
Variable w : World.

Lemma main_file_run_unreadable (fuel : nat) (name : string) (b : string)
    (ps : list Part) (tr : list Event) :
  statsRegular w name = true ->
  readable w name = false ->
  exists errno op l s',
    PkgMain.createMultiPartBody w (S fuel) name
      {| st_writer := Some {| mp_boundary := b; mp_parts := ps; mp_closed := false |};
         st_trace := tr |}
    = Done ("", Some (IOError op name errno)) s'
    /\ (op = "open" \/ op = "read")
    /\ st_trace s' = tr ++ l
    /\ forallb fileEvent l = true.
Proof.
  unfold statsRegular, readable. intros Hs Hr.
  rewrite main_createMultiPartBody_S. unfold os_Stat.
  destruct (sys_stat w name) as [fi|]; [|discriminate].
  destruct (fi_IsDir fi); [discriminate|].
  unfold bind at 1, Writer_CreateFormFile at 1, withWriter at 1.
  cbn [st_writer st_trace mp_parts mp_boundary mp_closed].
  unfold bind at 1, os_Open.
  destruct (sys_open w name) as [d|errno].
  - destruct (fd_err d) as [errno|] eqn:Ee; [|discriminate].
    unfold bind at 1, emit at 1, ret at 1. cbn [st_writer st_trace].
    unfold bind at 1, io_Copy at 1, withWriter at 1. cbn [st_writer st_trace].
    rewrite writable_snoc.
    cbn [File_Reader r_data r_err f_content f_name]. rewrite Ee. cbn [option_map].
    unfold bind, File_Close, emit, ret. cbn [st_writer st_trace f_name].
    exists errno, "read", [EvOpen name; EvFileClose name]. eexists.
    split; [reflexivity|]. rewrite <- app_assoc. auto.
  - unfold ret. exists errno, "open", []. eexists.
    split; [reflexivity|]. cbn [st_trace]. rewrite app_nil_r. auto.
Qed.

Lemma client_createMultiPartBody_read_error (client : Client) (file : Reader)
    (fileName : string) (e : error) (s : State) :
  r_err file = Some e ->
  exists m,
    PkgClient.createMultiPartBody w client file fileName s
    = Done (None, Some e) {| st_writer := Some m; st_trace := st_trace s |}.
Proof.
  intros Er. unfold PkgClient.createMultiPartBody.
  unfold bind at 1, multipart_NewWriter at 1.
  unfold bind at 1, Writer_CreateFormFile at 1, withWriter at 1.
  cbn [st_writer st_trace mp_parts mp_boundary mp_closed app length].
  unfold bind at 1, io_Copy at 1, withWriter at 1.
  cbn [st_writer st_trace mp_parts mp_boundary mp_closed writable length Nat.eqb negb andb].
  rewrite Er. eexists. reflexivity.
Qed.

End Failures.

(** X6: a single regular file that cannot be opened, or whose reading
    fails, stops [Add] in both packages: the error of [os.Open] or of the
    read comes back with a nil result and no request is sent. *)
Theorem X6_single_file_failure_aborts (w : World) (fuel : nat) (client : Client)
    (pathName : string) :
  statsRegular w pathName = true ->
  readable w pathName = false ->
  (exists op errno,
     (op = "open" \/ op = "read")
     /\ result (exec (PkgMain.Add w (S fuel) client pathName))
        = Some (None, Some (IOError op pathName errno))
     /\ sent (events (exec (PkgMain.Add w (S fuel) client pathName))) = [])
  /\ (exists op errno,
        (op = "open" \/ op = "read")
        /\ result (exec (PkgClient.Add w client pathName))
           = Some (None, Some (IOError op pathName errno))
        /\ sent (events (exec (PkgClient.Add w client pathName))) = []).
Proof.
  intros Hs Hr. split.
  - destruct (main_file_run_unreadable w fuel pathName (rand_boundary w) [] [] Hs Hr)
      as (errno & op & l & s' & Hrun & Hop & Ht & Hl).
    exists op, errno. split; [exact Hop|].
    remember (exec (PkgMain.Add w (S fuel) client pathName)) as o eqn:Eo.
    unfold exec, PkgMain.Add in Eo.
    unfold bind at 1, multipart_NewWriter at 1 in Eo. cbn [st_trace init] in Eo.
    unfold bind at 1 in Eo. rewrite Hrun in Eo. subst o.
    cbn [result events ret]. rewrite Ht. split; [reflexivity|].
    apply sent_fileEvents. exact Hl.
  - unfold statsRegular, readable in Hs, Hr.
    remember (exec (PkgClient.Add w client pathName)) as o eqn:Eo.
    unfold exec, PkgClient.Add, os_Stat in Eo.
    destruct (sys_stat w pathName) as [fi|]; [|discriminate].
    destruct (fi_IsDir fi); [discriminate|].
    unfold bind at 1, os_Open in Eo.
    destruct (sys_open w pathName) as [d|errno].
    + destruct (fd_err d) as [errno|] eqn:Ee; [|discriminate].
      unfold bind at 1, emit at 1, ret at 1 in Eo. unfold bind at 1 in Eo.
      match type of Eo with
      | context [PkgClient.createMultiPartBody w client ?f pathName ?s0] =>
          destruct (client_createMultiPartBody_read_error w client f pathName
                      (IOError "read" pathName errno) s0) as [m E];
            [cbn; rewrite Ee; reflexivity | rewrite E in Eo]
      end.
      exists "read", errno. subst o. split; [auto|]. split; reflexivity.
    + exists "open", errno. subst o. split; [auto|]. split; reflexivity.
Qed.

Lemma X6_single_file_failure_witness :
  (exists op errno,
     (op = "open" \/ op = "read")
     /\ result (exec (PkgMain.Add lockedFileWorld 1 localClient "/tmp/test/test1"))
        = Some (None, Some (IOError op "/tmp/test/test1" errno))
     /\ sent (events (exec (PkgMain.Add lockedFileWorld 1 localClient "/tmp/test/test1")))
        = [])
  /\ (exists op errno,
        (op = "open" \/ op = "read")
        /\ result (exec (PkgClient.Add lockedFileWorld localClient "/tmp/test/test1"))
           = Some (None, Some (IOError op "/tmp/test/test1" errno))
        /\ sent (events (exec (PkgClient.Add lockedFileWorld localClient
                                             "/tmp/test/test1"))) = []).
Proof.
  exact (X6_single_file_failure_aborts lockedFileWorld 0 localClient "/tmp/test/test1"
           eq_refl eq_refl).
Defined.

(** X7: when the directory cannot be listed, package client's [Add]
    returns the error of [os.ReadDir] and sends nothing, while package
    main's [Add] drops that error: it sends a request with no part and an
    empty boundary in its Content-Type, and returns what the exchange
    gives. *)
Theorem X7_unlistable_directory (w : World) (fuel : nat) (client : Client)
    (pathName : string) (errno : Errno) :
  sys_stat w pathName = SysOk directory ->
  sys_readdir w pathName = SysErr errno ->
  (result (exec (PkgClient.Add w client pathName))
   = Some (None, Some (IOError "readdir" pathName errno))
   /\ events (exec (PkgClient.Add w client pathName)) = [])
  /\ (url_rejects w (url client ++ "/api/v0/add")%string = false ->
      events (exec (PkgMain.Add w (S (S fuel)) client pathName))
      = exchange_events w
          (multipartRequest client
             {| mp_boundary := rand_boundary w; mp_parts := []; mp_closed := true |} "")
      /\ result (exec (PkgMain.Add w (S (S fuel)) client pathName))
         = Some (exchange_result w
                   (multipartRequest client
                      {| mp_boundary := rand_boundary w; mp_parts := [];
                         mp_closed := true |} ""))).
Proof.
  intros Hs Hd. split.
  - unfold exec, PkgClient.Add, os_Stat. rewrite Hs. cbn [fi_IsDir directory].
    unfold PkgClient.createDirectoryMultiPartBody, os_ReadDir. rewrite Hd.
    split; reflexivity.
  - intros Hu.
    remember (exec (PkgMain.Add w (S (S fuel)) client pathName)) as o eqn:Eo.
    unfold exec, PkgMain.Add in Eo.
    unfold bind at 1, multipart_NewWriter at 1 in Eo. cbn [st_trace init] in Eo.
    unfold bind at 1 in Eo. rewrite main_createMultiPartBody_S in Eo.
    unfold os_Stat in Eo. rewrite Hs in Eo. cbn [fi_IsDir directory] in Eo.
    unfold bind at 1 in Eo. rewrite main_createDirectoryMultiPartBody_S in Eo.
    unfold os_ReadDir in Eo. rewrite Hd in Eo. unfold ret at 1 in Eo. unfold ret at 1 in Eo.
    unfold bind at 1, Writer_Close at 1, withWriter at 1 in Eo.
    cbn [st_writer st_trace] in Eo.
    unfold bind at 1, buffer at 1, withWriter at 1 in Eo. cbn [st_writer st_trace] in Eo.
    unfold http_NewRequest in Eo.
    change (url client ++ map_index apiEndpoint "add")%string
      with (url client ++ "/api/v0/add")%string in Eo.
    rewrite Hu in Eo. rewrite exchange_run in Eo. subst o. split; reflexivity.
Qed.

Lemma X7_unlistable_directory_witness :
  (result (exec (PkgClient.Add sealedDirectoryWorld localClient "/tmp/empty"))
   = Some (None, Some (IOError "readdir" "/tmp/empty" EACCES))
   /\ events (exec (PkgClient.Add sealedDirectoryWorld localClient "/tmp/empty")) = [])
  /\ (url_rejects sealedDirectoryWorld (url localClient ++ "/api/v0/add")%string = false ->
      events (exec (PkgMain.Add sealedDirectoryWorld 2 localClient "/tmp/empty"))
      = exchange_events sealedDirectoryWorld
          (multipartRequest localClient
             {| mp_boundary := rand_boundary sealedDirectoryWorld; mp_parts := [];
                mp_closed := true |} "")
      /\ result (exec (PkgMain.Add sealedDirectoryWorld 2 localClient "/tmp/empty"))
         = Some (exchange_result sealedDirectoryWorld
                   (multipartRequest localClient
                      {| mp_boundary := rand_boundary sealedDirectoryWorld;
                         mp_parts := []; mp_closed := true |} ""))).
Proof.
  exact (X7_unlistable_directory sealedDirectoryWorld 0 localClient "/tmp/empty" EACCES
           eq_refl eq_refl).
Defined.

(** ** The boundary package main announces for a directory *)

Section MainAnnounced.
Variable w : World.

Lemma main_file_boundary (fuel : nat) (name : string) (b : string) (ps : list Part)
    (tr : list Event) :
  statsRegular w name = true ->
  exists err l,
    PkgMain.createMultiPartBody w (S fuel) name
      {| st_writer := Some {| mp_boundary := b; mp_parts := ps; mp_closed := false |};
         st_trace := tr |}
    = Done (if readable w name then b else ""%string, err)
        {| st_writer := Some {| mp_boundary := b;
                                mp_parts := ps ++ [filePart w name];
                                mp_closed := false |};
           st_trace := tr ++ l |}
    /\ forallb fileEvent l = true.
Proof.
  intros Hs.
  destruct (main_file_run w fuel name b ps tr Hs) as (bnd & err & l & Hrun & Hl & _ & Hb).
  destruct (readable w name) eqn:Hr.
  - destruct (Hb eq_refl) as [-> ->]. exists None, l. auto.
  - destruct (main_file_run_unreadable w fuel name b ps tr Hs Hr)
      as (errno & op & l' & s' & Hrun' & _).
    rewrite Hrun in Hrun'. injection Hrun' as -> _ _.
    exists err, l. auto.
Qed.

Lemma main_rangeEntries_boundary (fuel : nat) (pathName : string) (b : string)
    (entries : list DirEntry) :
  forallb (fun e => statsRegular w (entryPath pathName e) && validName (de_Name e))
          (regularEntries entries) = true ->
  forallb (fun e => unlistable w (pathName ++ de_Name e)%string)
          (subdirectories entries) = true ->
  forall (index : nat) (acc : string) (ps : list Part) (tr : list Event),
  (index = 0 -> acc = ""%string) ->
  exists s',
    rangeEntries
      (fun index file writerBoundary =>
         if de_IsDir file then
           PkgMain.createDirectoryMultiPartBody w (S fuel) (pathName ++ de_Name file) ;;
           ret writerBoundary
         else if Nat.eqb index 0 || String.eqb writerBoundary "" then
           '(writerBoundary, _) <-
             PkgMain.createMultiPartBody w (S fuel) ((pathName ++ "/") ++ de_Name file) ;;
           ret writerBoundary
         else
           PkgMain.createMultiPartBody w (S fuel) ((pathName ++ "/") ++ de_Name file) ;;
           ret writerBoundary)
      index entries acc
      {| st_writer := Some {| mp_boundary := b; mp_parts := ps; mp_closed := false |};
         st_trace := tr |}
    = Done (if String.eqb acc ""
            then if existsb (fun e => readable w (entryPath pathName e))
                            (regularEntries entries)
                 then b else ""%string
            else acc) s'.
Proof.
  induction entries as [|e rest IH]; intros Hreg Hsub index acc ps tr Hi.
  - eexists. simpl. destruct (String.eqb_spec acc ""); [subst|]; reflexivity.
  - unfold regularEntries, subdirectories in Hreg, Hsub |- *.
    simpl filter in Hreg, Hsub |- *. cbn [rangeEntries].
    destruct (de_IsDir e) eqn:Ed; simpl negb in Hreg |- *; cbv iota in Hreg, Hsub |- *.
    + simpl in Hsub. apply andb_prop in Hsub. destruct Hsub as [Hu Hsub].
      unfold bind at 1. unfold bind at 1.
      rewrite main_createDirectoryMultiPartBody_S. unfold os_ReadDir.
      unfold unlistable in Hu.
      destruct (sys_readdir w (pathName ++ de_Name e)%string); [discriminate|].
      unfold ret at 1. unfold ret at 1.
      apply (IH Hreg Hsub). discriminate.
    + simpl in Hreg. apply andb_prop in Hreg. destruct Hreg as [He Hreg].
      apply andb_prop in He. destruct He as [Hst Hv].
      destruct (main_file_boundary fuel (entryPath pathName e) b ps tr Hst)
        as (err & l1 & Hrun & Hl1).
      unfold entryPath in Hrun at 1.
      cbn [existsb].
      destruct (Nat.eqb index 0 || String.eqb acc "") eqn:Ec.
      * assert (Ea : acc = ""%string).
        { apply Bool.orb_true_iff in Ec. destruct Ec as [Ec|Ec].
          - apply Hi. apply Nat.eqb_eq. exact Ec.
          - apply String.eqb_eq. exact Ec. }
        subst acc. cbn [String.eqb].
        unfold bind at 1. unfold bind at 1. rewrite Hrun. unfold ret at 1.
        match goal with
        | |- context [rangeEntries ?f (S index) rest ?a ?s0] =>
            destruct (IH Hreg Hsub (S index) a
                        (ps ++ [filePart w (entryPath pathName e)]) (tr ++ l1))
              as (s' & Hrun2); [discriminate|]
        end.
        exists s'. rewrite Hrun2.
        destruct (readable w (entryPath pathName e)); cbn [orb].
        -- destruct (String.eqb_spec b ""); [subst b|reflexivity].
           destruct (existsb _ _); reflexivity.
        -- reflexivity.
      * apply Bool.orb_false_iff in Ec. destruct Ec as [_ Ec]. rewrite Ec.
        unfold bind at 1. unfold bind at 1. rewrite Hrun. unfold ret at 1.
        destruct (IH Hreg Hsub (S index) acc
                    (ps ++ [filePart w (entryPath pathName e)]) (tr ++ l1))
          as (s' & Hrun2); [discriminate|].
        exists s'. rewrite Hrun2, Ec. reflexivity.
Qed.

End MainAnnounced.

(** X8: a directory upload of package main.  For a directory whose
    subdirectory entries lead nowhere and whose other entries are regular
    files, [Add] sends one request whose closed body has one part per file,
    empty or cut short where the file could not be opened or read to its
    end, and returns what the exchange gives: no failure on a file is
    reported.  The Content-Type announces the writer's boundary when at
    least one of the files was read to its end, and an empty boundary
    otherwise. *)
Theorem X8_main_directory_request (w : World) (fuel : nat) (client : Client)
    (pathName : string) (entries : list DirEntry) :
  sys_stat w pathName = SysOk directory ->
  sys_readdir w pathName = SysOk entries ->
  forallb (fun e => statsRegular w (entryPath pathName e) && validName (de_Name e))
          (regularEntries entries) = true ->
  forallb (fun e => unlistable w (pathName ++ de_Name e)%string)
          (subdirectories entries) = true ->
  url_rejects w (url client ++ "/api/v0/add")%string = false ->
  let req :=
    multipartRequest client
      {| mp_boundary := rand_boundary w;
         mp_parts := map (entryPart w pathName) (regularEntries entries);
         mp_closed := true |}
      (if existsb (fun e => readable w (entryPath pathName e)) (regularEntries entries)
       then rand_boundary w else ""%string) in
  sent (events (exec (PkgMain.Add w (S (S (S fuel))) client pathName))) = [req]
  /\ result (exec (PkgMain.Add w (S (S (S fuel))) client pathName))
     = Some (exchange_result w req).
Proof.
  intros Hs Hd Hreg Hsub Hu req.
  destruct (main_rangeEntries_run w fuel pathName (rand_boundary w) entries Hreg Hsub
              0 "" [] []) as (bnd & l & Hrun & Hl & _).
  destruct (main_rangeEntries_boundary w fuel pathName (rand_boundary w) entries Hreg Hsub
              0 "" [] [] (fun _ => eq_refl)) as (s' & Hrun').
  rewrite Hrun in Hrun'. cbn [String.eqb] in Hrun'. injection Hrun' as Hbnd _.
  remember (exec (PkgMain.Add w (S (S (S fuel))) client pathName)) as o eqn:Eo.
  unfold exec, PkgMain.Add in Eo.
  unfold bind at 1, multipart_NewWriter at 1 in Eo. cbn [st_trace init] in Eo.
  unfold bind at 1 in Eo. rewrite main_createMultiPartBody_S in Eo.
  unfold os_Stat in Eo. rewrite Hs in Eo. cbn [fi_IsDir directory] in Eo.
  unfold bind at 1 in Eo. rewrite main_createDirectoryMultiPartBody_S in Eo.
  unfold os_ReadDir in Eo. rewrite Hd in Eo.
  unfold bind at 1 in Eo. rewrite Hrun in Eo. unfold ret at 1 in Eo. unfold ret at 1 in Eo.
  unfold bind at 1, Writer_Close at 1, withWriter at 1 in Eo.
  cbn [st_writer st_trace] in Eo.
  unfold bind at 1, buffer at 1, withWriter at 1 in Eo. cbn [st_writer st_trace] in Eo.
  unfold http_NewRequest in Eo.
  change (url client ++ map_index apiEndpoint "add")%string
    with (url client ++ "/api/v0/add")%string in Eo.
  rewrite Hu in Eo. rewrite exchange_run in Eo. subst o bnd.
  cbn [events result st_trace app]. split; [|reflexivity].
  rewrite <- (app_nil_r (exchange_events _ _)). apply sent_exchange; auto.
Qed.

Lemma X8_main_directory_request_witness :
  sent (events (exec (PkgMain.Add lockedFileWorld 3 localClient "/tmp/test")))
  = [multipartRequest localClient
       {| mp_boundary := "7d3f1c";
          mp_parts := [{| p_name := "file"; p_filename := "test1"; p_data := "" |};
                       {| p_name := "file"; p_filename := "test2"; p_data := "Hello 2" |}];
          mp_closed := true |} "7d3f1c"]
  /\ result (exec (PkgMain.Add lockedFileWorld 3 localClient "/tmp/test"))
     = Some (Some added, None).
Proof.
  exact (X8_main_directory_request lockedFileWorld 0 localClient "/tmp/test"
           [fileEntry "test1"; fileEntry "test2"] eq_refl eq_refl eq_refl eq_refl eq_refl).
Defined.

(** ** The requests of package client *)

Lemma client_Add_request (w : World) (client : Client) (pathName : string)
    (req : Request) :
  In req (sent (events (exec (PkgClient.Add w client pathName)))) ->
  (exists entries,
     sys_stat w pathName = SysOk directory
     /\ sys_readdir w pathName = SysOk entries
     /\ req = directoryRequest w client pathName entries)
  \/ (exists d,
        sys_stat w pathName = SysOk regular
        /\ sys_open w pathName = SysOk d
        /\ req = fileRequest w client pathName (fd_data d)).
Proof.
  destruct (sys_stat w pathName) as [[isDir]|errno] eqn:Es.
  - destruct isDir.
    + destruct (sys_readdir w pathName) as [entries|errno] eqn:Ed.
      * destruct (client_Add_directory w client pathName entries Es Ed) as [_ [[E|[E _]] _]];
          rewrite E; simpl; [intros [<-|[]] | intros []].
        left. exists entries. auto.
      * unfold exec, PkgClient.Add, os_Stat. rewrite Es. cbn [fi_IsDir].
        unfold PkgClient.createDirectoryMultiPartBody, os_ReadDir. rewrite Ed.
        simpl. intros [].
    + destruct (sys_open w pathName) as [d|errno] eqn:Eo.
      * destruct (client_Add_file w client pathName d Es Eo) as [_ [E|[E _]]];
          rewrite E; simpl; [intros [<-|[]] | intros []].
        right. exists d. auto.
      * unfold exec, PkgClient.Add, os_Stat. rewrite Es. cbn [fi_IsDir].
        unfold bind, os_Open. rewrite Eo. simpl. intros [].
  - unfold exec, PkgClient.Add, os_Stat. rewrite Es. simpl. intros [].
Qed.

Lemma client_AddBinary_request (w : World) (client : Client) (content : Reader)
    (fileName : string) (req : Request) :
  In req (sent (events (exec (PkgClient.AddBinary w client content fileName)))) ->
  req = fileRequest w client fileName (r_data content).
Proof.
  destruct (client_AddBinary_sent w client content fileName) as [_ [E|[E _]]];
    rewrite E; simpl; [intros [<-|[]] | intros []].
  reflexivity.
Qed.

(** X9: a directory upload of package client.  When every file of the
    listing opens and the URL of the node is accepted, [Add] sends one
    request with one part per file, holding what could be read of the file
    before any read error, and returns what the exchange gives: a read
    error is reported nowhere.  The body is sent without its closing
    delimiter, the writer being never closed. *)
Theorem X9_client_directory_request (w : World) (client : Client) (path : string)
    (entries : list DirEntry) :
  sys_stat w path = SysOk directory ->
  sys_readdir w path = SysOk entries ->
  forallb (fun e => opens w (entryPath path e)) (regularEntries entries) = true ->
  url_rejects w (url client ++ "/api/v0/add")%string = false ->
  exists req m,
    sent (events (exec (PkgClient.Add w client path))) = [req]
    /\ ReqBody req = Some m
    /\ mp_parts m
       = map (fun e => {| p_name := "file";
                          p_filename := de_Name e;
                          p_data := readData w ((path ++ "/") ++ de_Name e) |})
             (regularEntries entries)
    /\ delimiters m = map (fun _ => ("--" ++ rand_boundary w)%string) (regularEntries entries)
    /\ result (exec (PkgClient.Add w client path)) = Some (exchange_result w req).
Proof.
  intros Hs Hd Ho Hu.
  destruct (client_Add_directory w client path entries Hs Hd) as [Hok _].
  destruct (Hok Ho Hu) as [E R].
  exists (directoryRequest w client path entries), (directoryBuffer w path entries).
  split; [exact E|]. split; [reflexivity|]. split; [reflexivity|].
  split; [|exact R].
  unfold delimiters, directoryBuffer. cbn [mp_parts mp_closed mp_boundary].
  rewrite app_nil_r, map_map. reflexivity.
Qed.

Lemma X9_client_directory_request_witness :
  exists req m,
    sent (events (exec (PkgClient.Add failingReadWorld localClient "/tmp/test"))) = [req]
    /\ ReqBody req = Some m
    /\ mp_parts m
       = map (fun e => {| p_name := "file";
                          p_filename := de_Name e;
                          p_data := readData failingReadWorld
                                      (("/tmp/test" ++ "/") ++ de_Name e) |})
             (regularEntries [fileEntry "test1"; fileEntry "test2"])
    /\ delimiters m
       = map (fun _ => ("--" ++ rand_boundary failingReadWorld)%string)
             (regularEntries [fileEntry "test1"; fileEntry "test2"])
    /\ result (exec (PkgClient.Add failingReadWorld localClient "/tmp/test"))
       = Some (exchange_result failingReadWorld req).
Proof.
  exact (X9_client_directory_request failingReadWorld localClient "/tmp/test"
           [fileEntry "test1"; fileEntry "test2"] eq_refl eq_refl eq_refl eq_refl).
Defined.

(** X10: whatever [Add] of either package or [AddBinary] is given, it sends
    at most one request, and a request it sends is a POST to the [add]
    endpoint of the client's URL whose only header is a multipart
    Content-Type and whose body is delimited with the boundary the writer
    drew. *)
Theorem X10_request_form (w : World) (fuel : nat) (client : Client)
    (pathName : string) (content : Reader) (fileName : string)
    (o : Outcome (option IPFSResponse * option error)) :
  o = exec (PkgMain.Add w fuel client pathName)
  \/ o = exec (PkgClient.Add w client pathName)
  \/ o = exec (PkgClient.AddBinary w client content fileName) ->
  length (sent (events o)) <= 1
  /\ forall req,
       In req (sent (events o)) ->
       Method req = "POST"%string
       /\ URL req = (url client ++ "/api/v0/add")%string
       /\ exists m bnd,
            ReqBody req = Some m
            /\ mp_boundary m = rand_boundary w
            /\ Header req = [("Content-Type", "multipart/form-data; boundary=" ++ bnd)%string].
Proof.
  intros [-> | [-> | ->]]; split.
  - apply (add_shape_sent w), main_Add_shape.
  - intros req Hin.
    destruct (main_Add_boundary w fuel client pathName req Hin)
      as (m & bnd & -> & Hb & _ & _).
    split; [reflexivity|]. split; [reflexivity|]. exists m, bnd. auto.
  - apply (add_shape_sent w), client_Add_shape.
  - intros req Hin.
    destruct (client_Add_request w client pathName req Hin)
      as [(entries & _ & _ & ->)|(d & _ & _ & ->)];
      (split; [reflexivity|]; split; [reflexivity|]; eexists _, _;
       split; [reflexivity|]; split; reflexivity).
  - apply (add_shape_sent w), client_AddBinary_shape.
  - intros req Hin.
    rewrite (client_AddBinary_request w client content fileName req Hin).
    split; [reflexivity|]. split; [reflexivity|]. eexists _, _.
    split; [reflexivity|]. split; reflexivity.
Qed.

Lemma X10_request_form_witness :
  length (sent (events (exec (PkgMain.Add nodeWorld 3 localClient "/tmp/test")))) <= 1
  /\ forall req,
       In req (sent (events (exec (PkgMain.Add nodeWorld 3 localClient "/tmp/test")))) ->
       Method req = "POST"%string
       /\ URL req = (url localClient ++ "/api/v0/add")%string
       /\ exists m bnd,
            ReqBody req = Some m
            /\ mp_boundary m = rand_boundary nodeWorld
            /\ Header req = [("Content-Type", "multipart/form-data; boundary=" ++ bnd)%string].
Proof.
  exact (X10_request_form nodeWorld 3 localClient "/tmp/test" (bytesReader "") ""
           _ (or_introl eq_refl)).
Defined.

(** X11: every request package client sends, from [Add] or from
    [AddBinary], announces in its Content-Type the boundary its body is
    delimited with.  The body ends with the closing delimiter when it
    carries a single file or stream, and lacks it when [Add] was given a
    directory. *)
Theorem X11_client_boundary_and_closing (w : World) (client : Client)
    (pathName : string) (content : Reader) (fileName : string) (req : Request) :
  (In req (sent (events (exec (PkgClient.Add w client pathName)))) ->
   boundary_consistent req
   /\ exists m fi,
        ReqBody req = Some m
        /\ sys_stat w pathName = SysOk fi
        /\ mp_closed m = negb (fi_IsDir fi))
  /\ (In req (sent (events (exec (PkgClient.AddBinary w client content fileName)))) ->
      boundary_consistent req
      /\ exists m, ReqBody req = Some m /\ mp_closed m = true).
Proof.
  split; intros Hin.
  - destruct (client_Add_request w client pathName req Hin)
      as [(entries & Hs & _ & ->)|(d & Hs & _ & ->)].
    + split; [apply (multipartRequest_consistent client (directoryBuffer w pathName entries))|].
      eexists _, _. split; [reflexivity|]. split; [exact Hs|]. reflexivity.
    + split; [apply (multipartRequest_consistent client (fileBuffer w pathName (fd_data d)))|].
      eexists _, _. split; [reflexivity|]. split; [exact Hs|]. reflexivity.
  - rewrite (client_AddBinary_request w client content fileName req Hin).
    split; [apply (multipartRequest_consistent client (fileBuffer w fileName (r_data content)))|].
    eexists. split; reflexivity.
Qed.

Lemma X11_client_boundary_and_closing_witness :
  In (directoryRequest nodeWorld localClient "/tmp/test"
        [fileEntry "test1"; fileEntry "test2"])
     (sent (events (exec (PkgClient.Add nodeWorld localClient "/tmp/test"))))
  /\ boundary_consistent (directoryRequest nodeWorld localClient "/tmp/test"
                            [fileEntry "test1"; fileEntry "test2"])
  /\ In (fileRequest nodeWorld localClient "hello.txt" "Hello")
        (sent (events (exec (PkgClient.AddBinary nodeWorld localClient
                               (bytesReader "Hello") "hello.txt"))))
  /\ boundary_consistent (fileRequest nodeWorld localClient "hello.txt" "Hello").
Proof.
  pose (Hdir := or_introl eq_refl
          : In (directoryRequest nodeWorld localClient "/tmp/test"
                  [fileEntry "test1"; fileEntry "test2"])
               (sent (events (exec (PkgClient.Add nodeWorld localClient "/tmp/test"))))).
  pose (Hbin := or_introl eq_refl
          : In (fileRequest nodeWorld localClient "hello.txt" "Hello")
               (sent (events (exec (PkgClient.AddBinary nodeWorld localClient
                                      (bytesReader "Hello") "hello.txt"))))).
  split; [exact Hdir|].
  split; [exact (proj1 (proj1 (X11_client_boundary_and_closing nodeWorld localClient
                                 "/tmp/test" (bytesReader "Hello") "hello.txt" _) Hdir))|].
  split; [exact Hbin|].
  exact (proj1 (proj2 (X11_client_boundary_and_closing nodeWorld localClient
                         "/tmp/test" (bytesReader "Hello") "hello.txt" _) Hbin)).
Defined.

(** ** A URL that [http.NewRequest] rejects *)

Section Rejected.
Variable w : World.
Variable client : Client.
Hypothesis Hrej : url_rejects w (url client ++ "/api/v0/add")%string = true.

Lemma client_createMultiPartBody_rejected (file : Reader) (fileName : string)
    (s : State) :
  exists e m,
    PkgClient.createMultiPartBody w client file fileName s
    = Done (None, Some e) {| st_writer := Some m; st_trace := st_trace s |}.
Proof.
  unfold PkgClient.createMultiPartBody.
  unfold bind at 1, multipart_NewWriter at 1.
  unfold bind at 1, Writer_CreateFormFile at 1, withWriter at 1.
  cbn [st_writer st_trace mp_parts mp_boundary mp_closed app length].
  unfold bind at 1, io_Copy at 1, withWriter at 1.
  cbn [st_writer st_trace mp_parts mp_boundary mp_closed writable length Nat.eqb negb andb
       writeLast appendData p_name p_filename p_data].
  destruct (r_err file) as [e|] eqn:Er.
  - eexists _, _. reflexivity.
  - unfold bind at 1, Writer_Close at 1, withWriter at 1. cbn [st_writer st_trace].
    unfold bind at 1, buffer at 1, withWriter at 1. cbn [st_writer st_trace].
    unfold http_NewRequest.
    change (url client ++ map_index apiEndpoint "add")%string
      with (url client ++ "/api/v0/add")%string.
    rewrite Hrej. eexists _, _. reflexivity.
Qed.

Lemma client_createDirectoryMultiPartBody_rejected (path : string)
    (entries : list DirEntry) (s : State) :
  sys_readdir w path = SysOk entries ->
  exists e l s',
    PkgClient.createDirectoryMultiPartBody w client path s = Done (None, Some e) s'
    /\ st_trace s' = st_trace s ++ l
    /\ forallb fileEvent l = true.
Proof.
  intros Hd. unfold PkgClient.createDirectoryMultiPartBody.
  unfold bind at 1, multipart_NewWriter at 1. unfold os_ReadDir. rewrite Hd.
  unfold bind at 1.
  destruct (client_directoryLoop_spec w path entries (rand_boundary w) [] (st_trace s) [])
    as (err & deferred & l & ps' & Hrun & Hl & _ & _).
  rewrite Hrun. destruct err as [e|].
  - destruct (client_runDeferred_run deferred
                {| st_writer := Some {| mp_boundary := rand_boundary w;
                                        mp_parts := ps'; mp_closed := false |};
                   st_trace := st_trace s ++ l |}) as (l2 & E2 & F2).
    unfold bind. rewrite E2. unfold ret.
    eexists _, (l ++ l2), _. split; [reflexivity|]. simpl.
    rewrite app_assoc, forallb_app, Hl, F2. auto.
  - unfold bind at 1, buffer at 1, withWriter at 1. cbn [st_writer st_trace].
    unfold http_NewRequest.
    change (url client ++ map_index apiEndpoint "add")%string
      with (url client ++ "/api/v0/add")%string.
    rewrite Hrej.
    match goal with
    | |- context [bind (PkgClient.runDeferred deferred) _ ?s0] =>
        destruct (client_runDeferred_run deferred s0) as (l2 & E2 & F2)
    end.
    unfold bind. rewrite E2. unfold ret.
    eexists _, (l ++ l2), _. split; [reflexivity|]. simpl.
    rewrite app_assoc, forallb_app, Hl, F2. auto.
Qed.

Lemma client_Add_rejected (pathName : string) :
  sent (events (exec (PkgClient.Add w client pathName))) = []
  /\ exists e, result (exec (PkgClient.Add w client pathName)) = Some (None, Some e).
Proof.
  remember (exec (PkgClient.Add w client pathName)) as o eqn:Eo.
  unfold exec, PkgClient.Add, os_Stat in Eo.
  destruct (sys_stat w pathName) as [fi|errno];
    [|subst o; split; [reflexivity | eexists; reflexivity]].
  destruct (fi_IsDir fi).
  - destruct (sys_readdir w pathName) as [entries|errno] eqn:Ed.
    + destruct (client_createDirectoryMultiPartBody_rejected pathName entries init Ed)
        as (e & l & s' & E & T & F).
      unfold bind at 1 in Eo. rewrite E in Eo. subst o.
      cbn [events result ret]. rewrite T. simpl.
      split; [apply sent_fileEvents; exact F | eexists; reflexivity].
    + unfold PkgClient.createDirectoryMultiPartBody, os_ReadDir in Eo.
      rewrite Ed in Eo. subst o. split; [reflexivity | eexists; reflexivity].
  - unfold bind at 1, os_Open in Eo.
    destruct (sys_open w pathName) as [d|errno].
    + unfold bind at 1, emit at 1, ret at 1 in Eo. unfold bind at 1 in Eo.
      match type of Eo with
      | context [PkgClient.createMultiPartBody w client ?f pathName ?s0] =>
          destruct (client_createMultiPartBody_rejected f pathName s0) as (e & m & E);
            rewrite E in Eo
      end.
      subst o. split; [reflexivity | eexists; reflexivity].
    + subst o. split; [reflexivity | eexists; reflexivity].
Qed.

Lemma client_AddBinary_rejected (content : Reader) (fileName : string) :
  sent (events (exec (PkgClient.AddBinary w client content fileName))) = []
  /\ exists e,
       result (exec (PkgClient.AddBinary w client content fileName)) = Some (None, Some e).
Proof.
  remember (exec (PkgClient.AddBinary w client content fileName)) as o eqn:Eo.
  unfold exec, PkgClient.AddBinary in Eo. unfold bind at 1 in Eo.
  destruct (client_createMultiPartBody_rejected content fileName init) as (e & m & E).
  rewrite E in Eo. subst o. split; [reflexivity | eexists; reflexivity].
Qed.

Lemma main_Add_rejected (fuel : nat) (pathName : string) :
  sent (events (exec (PkgMain.Add w fuel client pathName))) = []
  /\ forall v, result (exec (PkgMain.Add w fuel client pathName)) <> Some (Some v, None).
Proof.
  remember (exec (PkgMain.Add w fuel client pathName)) as o eqn:Eo.
  unfold exec, PkgMain.Add in Eo.
  unfold bind at 1, multipart_NewWriter at 1 in Eo. cbn [st_trace init] in Eo.
  unfold bind at 1 in Eo.
  match type of Eo with
  | context [PkgMain.createMultiPartBody w fuel pathName ?s0] =>
      pose proof (proj1 (main_quiet_builders w fuel) pathName s0) as Q;
        destruct (PkgMain.createMultiPartBody w fuel pathName s0) as [[bnd err] s1|s1|]
  end.
  - destruct Q as [[l [E F]] Hw]. simpl in E.
    destruct err as [e|].
    + subst o. cbn [events result ret]. rewrite E.
      split; [apply sent_fileEvents; exact F | discriminate].
    + unfold bind at 1, Writer_Close at 1, withWriter at 1 in Eo.
      destruct (st_writer s1) as [m|] eqn:Em; [|exfalso; apply Hw; [discriminate|reflexivity]].
      unfold bind at 1, buffer at 1, withWriter at 1 in Eo. cbn [st_writer st_trace] in Eo.
      unfold http_NewRequest in Eo.
      change (url client ++ map_index apiEndpoint "add")%string
        with (url client ++ "/api/v0/add")%string in Eo.
      rewrite Hrej in Eo. subst o. cbn [events result panic st_trace]. rewrite E.
      split; [apply sent_fileEvents; exact F | discriminate].
  - destruct Q as [[l [E F]] _]. simpl in E. subst o. cbn [events result]. rewrite E.
    split; [apply sent_fileEvents; exact F | discriminate].
  - subst o. split; [reflexivity | discriminate].
Qed.

Lemma main_Add_rejected_file (fuel : nat) (pathName : string) :
  statsRegular w pathName = true ->
  readable w pathName = true ->
  panicked (exec (PkgMain.Add w (S fuel) client pathName)) = true.
Proof.
  intros Hs Hr.
  destruct (main_file_run w fuel pathName (rand_boundary w) [] [] Hs)
    as (bnd & err & l & Hrun & Hl & _ & Hb).
  destruct (Hb Hr) as [-> ->].
  unfold exec, PkgMain.Add.
  unfold bind at 1, multipart_NewWriter at 1. cbn [st_trace init].
  unfold bind at 1. rewrite Hrun.
  unfold bind at 1, Writer_Close at 1, withWriter at 1. cbn [st_writer st_trace].
  unfold bind at 1, buffer at 1, withWriter at 1. cbn [st_writer st_trace].
  unfold http_NewRequest.
  change (url client ++ map_index apiEndpoint "add")%string
    with (url client ++ "/api/v0/add")%string.
  rewrite Hrej. reflexivity.
Qed.

Lemma main_Add_rejected_directory (fuel : nat) (pathName : string)
    (entries : list DirEntry) :
  sys_stat w pathName = SysOk directory ->
  sys_readdir w pathName = SysOk entries ->
  forallb (fun e => statsRegular w (entryPath pathName e) && validName (de_Name e))
          (regularEntries entries) = true ->
  forallb (fun e => unlistable w (pathName ++ de_Name e)%string)
          (subdirectories entries) = true ->
  panicked (exec (PkgMain.Add w (S (S (S fuel))) client pathName)) = true.
Proof.
  intros Hs Hd Hreg Hsub.
  destruct (main_rangeEntries_run w fuel pathName (rand_boundary w) entries Hreg Hsub
              0 "" [] []) as (bnd & l & Hrun & Hl & _).
  unfold exec, PkgMain.Add.
  unfold bind at 1, multipart_NewWriter at 1. cbn [st_trace init].
  unfold bind at 1. rewrite main_createMultiPartBody_S.
  unfold os_Stat. rewrite Hs. cbn [fi_IsDir directory].
  unfold bind at 1. rewrite main_createDirectoryMultiPartBody_S.
  unfold os_ReadDir. rewrite Hd.
  unfold bind at 1. rewrite Hrun. unfold ret at 1. unfold ret at 1.
  unfold bind at 1, Writer_Close at 1, withWriter at 1. cbn [st_writer st_trace].
  unfold bind at 1, buffer at 1, withWriter at 1. cbn [st_writer st_trace].
  unfold http_NewRequest.
  change (url client ++ map_index apiEndpoint "add")%string
    with (url client ++ "/api/v0/add")%string.
  rewrite Hrej. reflexivity.
Qed.

End Rejected.

(** X12: when [http.NewRequest] rejects the URL of the [add] endpoint, no
    operation sends anything.  [Add] and [AddBinary] of package client
    return an error and a nil result.  [Add] of package main never returns
    a result, and where the body was built (a regular file read to its end,
    or a directory of regular files) it panics: it sets the header on the
    nil request before looking at the error. *)
Theorem X12_rejected_url (w : World) (fuel : nat) (client : Client)
    (pathName : string) (content : Reader) (fileName : string) :
  url_rejects w (url client ++ "/api/v0/add")%string = true ->
  (sent (events (exec (PkgClient.Add w client pathName))) = []
   /\ exists e, result (exec (PkgClient.Add w client pathName)) = Some (None, Some e))
  /\ (sent (events (exec (PkgClient.AddBinary w client content fileName))) = []
      /\ exists e,
           result (exec (PkgClient.AddBinary w client content fileName))
           = Some (None, Some e))
  /\ (sent (events (exec (PkgMain.Add w fuel client pathName))) = []
      /\ forall v, result (exec (PkgMain.Add w fuel client pathName)) <> Some (Some v, None))
  /\ (statsRegular w pathName = true ->
      readable w pathName = true ->
      panicked (exec (PkgMain.Add w (S fuel) client pathName)) = true)
  /\ (forall entries,
        sys_stat w pathName = SysOk directory ->
        sys_readdir w pathName = SysOk entries ->
        forallb (fun e => statsRegular w (entryPath pathName e) && validName (de_Name e))
                (regularEntries entries) = true ->
        forallb (fun e => unlistable w (pathName ++ de_Name e)%string)
                (subdirectories entries) = true ->
        panicked (exec (PkgMain.Add w (S (S (S fuel))) client pathName)) = true).
Proof.
  intros Hrej.
  split; [apply client_Add_rejected; exact Hrej|].
  split; [apply client_AddBinary_rejected; exact Hrej|].
  split; [apply main_Add_rejected; exact Hrej|].
  split; [apply main_Add_rejected_file; exact Hrej|].
  intros entries. apply main_Add_rejected_directory. exact Hrej.
Qed.

Lemma X12_rejected_url_witness :
  result (exec (PkgClient.Add strictUrlWorld newlineClient "/tmp/test.txt"))
  = Some (None, Some (URLError "parse" ("http://127.0.0.1:5001" ++ newline ++ "/api/v0/add")))
  /\ panicked (exec (PkgMain.Add strictUrlWorld 1 newlineClient "/tmp/test.txt")) = true
  /\ panicked (exec (PkgMain.Add strictUrlWorld 3 newlineClient "/tmp/test")) = true.
Proof.
  pose proof (X12_rejected_url strictUrlWorld 0 newlineClient "/tmp/test.txt"
                (bytesReader "") "" eq_refl) as [_ [_ [_ [Hfile _]]]].
  pose proof (X12_rejected_url strictUrlWorld 0 newlineClient "/tmp/test"
                (bytesReader "") "" eq_refl) as [_ [_ [_ [_ Hdir]]]].
  split; [reflexivity|].
  split; [exact (Hfile eq_refl eq_refl)|].
  exact (Hdir [fileEntry "test1"; fileEntry "test2"] eq_refl eq_refl eq_refl eq_refl).
Defined.

(** ** One regular file *)

(** X13: the upload of one regular file that opens and reads to its end,
    to a node whose URL is accepted.  Package main opens the file, closes
    it, and then sends one part under the base name of the path; package
    client sends the part under the path as given, and closes the file
    only after the answer has been read.  Both return what the exchange
    gives. *)
Theorem X13_single_file_upload (w : World) (fuel : nat) (client : Client)
    (pathName : string) :
  statsRegular w pathName = true ->
  readable w pathName = true ->
  url_rejects w (url client ++ "/api/v0/add")%string = false ->
  let req name :=
    multipartRequest client
      {| mp_boundary := rand_boundary w;
         mp_parts := [{| p_name := "file"; p_filename := name;
                         p_data := readData w pathName |}];
         mp_closed := true |}
      (rand_boundary w) in
  (events (exec (PkgMain.Add w (S fuel) client pathName))
   = [EvOpen pathName; EvFileClose pathName]
     ++ exchange_events w (req (path_Base pathName))
   /\ result (exec (PkgMain.Add w (S fuel) client pathName))
      = Some (exchange_result w (req (path_Base pathName))))
  /\ (events (exec (PkgClient.Add w client pathName))
      = [EvOpen pathName] ++ exchange_events w (req pathName) ++ [EvFileClose pathName]
      /\ result (exec (PkgClient.Add w client pathName))
         = Some (exchange_result w (req pathName))).
Proof.
  intros Hs Hr Hu req. unfold statsRegular, readable in Hs, Hr.
  unfold readData in req. split.
  - remember (exec (PkgMain.Add w (S fuel) client pathName)) as o eqn:Eo.
    unfold exec, PkgMain.Add in Eo.
    unfold bind at 1, multipart_NewWriter at 1 in Eo. cbn [st_trace init] in Eo.
    unfold bind at 1 in Eo. rewrite main_createMultiPartBody_S in Eo.
    unfold os_Stat in Eo.
    destruct (sys_stat w pathName) as [fi|]; [|discriminate].
    destruct (fi_IsDir fi); [discriminate|].
    unfold bind at 1, Writer_CreateFormFile at 1, withWriter at 1 in Eo.
    cbn [st_writer st_trace mp_parts mp_boundary mp_closed app length] in Eo.
    unfold bind at 1, os_Open in Eo.
    destruct (sys_open w pathName) as [d|errno]; [|discriminate].
    destruct (fd_err d) as [errno|] eqn:Ee; [discriminate|].
    unfold bind at 1, emit at 1, ret at 1 in Eo. cbn [st_writer st_trace] in Eo.
    unfold bind at 1, io_Copy at 1, withWriter at 1 in Eo.
    cbn [st_writer st_trace mp_parts mp_boundary mp_closed writable length Nat.eqb negb
         andb writeLast appendData p_name p_filename p_data File_Reader r_data r_err
         f_content f_name] in Eo.
    rewrite Ee in Eo. cbn [option_map] in Eo.
    unfold bind at 1, Writer_Boundary at 1, withWriter at 1 in Eo.
    cbn [st_writer st_trace mp_boundary] in Eo.
    unfold bind at 1, File_Close at 1, emit at 1 in Eo.
    cbn [st_writer st_trace f_name] in Eo. unfold ret at 1 in Eo.
    unfold bind at 1, Writer_Close at 1, withWriter at 1 in Eo.
    cbn [st_writer st_trace mp_parts mp_boundary mp_closed] in Eo.
    unfold bind at 1, buffer at 1, withWriter at 1 in Eo. cbn [st_writer st_trace] in Eo.
    unfold http_NewRequest in Eo.
    change (url client ++ map_index apiEndpoint "add")%string
      with (url client ++ "/api/v0/add")%string in Eo.
    rewrite Hu in Eo. rewrite exchange_run in Eo. subst o.
    cbn [events result st_trace app String.append]. split; reflexivity.
  - remember (exec (PkgClient.Add w client pathName)) as o eqn:Eo.
    unfold exec, PkgClient.Add, os_Stat in Eo.
    destruct (sys_stat w pathName) as [fi|]; [|discriminate].
    destruct (fi_IsDir fi); [discriminate|].
    unfold bind at 1, os_Open in Eo.
    destruct (sys_open w pathName) as [d|errno]; [|discriminate].
    destruct (fd_err d) as [errno|] eqn:Ee; [discriminate|].
    unfold bind at 1, emit at 1, ret at 1 in Eo. unfold bind at 1 in Eo.
    match type of Eo with
    | context [PkgClient.createMultiPartBody w client ?f pathName ?s0] =>
        destruct (client_createMultiPartBody_run w client f pathName s0)
          as (v & m & E & Hok & _);
          rewrite E in Eo;
          rewrite (Hok ltac:(cbn; rewrite Ee; reflexivity) Hu) in Eo
    end.
    unfold PkgClient.doRequest, bind in Eo. rewrite exchange_run in Eo.
    unfold File_Close, emit, ret in Eo. subst o.
    cbn [events result st_trace st_writer f_name app File_Reader r_data f_content].
    rewrite <- app_assoc. split; reflexivity.
Qed.

Lemma X13_single_file_upload_witness :
  (events (exec (PkgMain.Add nodeWorld 1 localClient "/tmp/test.txt"))
   = [EvOpen "/tmp/test.txt"; EvFileClose "/tmp/test.txt"]
     ++ exchange_events nodeWorld
          (multipartRequest localClient
             {| mp_boundary := "7d3f1c";
                mp_parts := [{| p_name := "file"; p_filename := "test.txt";
                                p_data := "test for file" |}];
                mp_closed := true |} "7d3f1c")
   /\ result (exec (PkgMain.Add nodeWorld 1 localClient "/tmp/test.txt"))
      = Some (Some added, None))
  /\ (events (exec (PkgClient.Add nodeWorld localClient "/tmp/test.txt"))
      = [EvOpen "/tmp/test.txt"]
        ++ exchange_events nodeWorld
             (multipartRequest localClient
                {| mp_boundary := "7d3f1c";
                   mp_parts := [{| p_name := "file"; p_filename := "/tmp/test.txt";
                                   p_data := "test for file" |}];
                   mp_closed := true |} "7d3f1c")
        ++ [EvFileClose "/tmp/test.txt"]
      /\ result (exec (PkgClient.Add nodeWorld localClient "/tmp/test.txt"))
         = Some (Some added, None)).
Proof.
  exact (X13_single_file_upload nodeWorld 0 localClient "/tmp/test.txt"
           eq_refl eq_refl eq_refl).
Defined.

(** ** [AddBinary] *)

(** X14: [AddBinary] never touches the file system.  When reading the
    stream fails, it returns that very error and a nil result, and nothing
    is sent.  When the stream reads to its end and the URL is accepted, it
    sends one request whose closed body has the single part ["file"] under
    [fileName] with all the bytes of the stream, and returns what the
    exchange gives. *)
Theorem X14_AddBinary (w : World) (client : Client) (content : Reader)
    (fileName : string) :
  (forall e,
     r_err content = Some e ->
     result (exec (PkgClient.AddBinary w client content fileName)) = Some (None, Some e)
     /\ events (exec (PkgClient.AddBinary w client content fileName)) = [])
  /\ (r_err content = None ->
      url_rejects w (url client ++ "/api/v0/add")%string = false ->
      let req :=
        {| Method := "POST";
           URL := url client ++ "/api/v0/add";
           Header := [("Content-Type",
                       "multipart/form-data; boundary=" ++ rand_boundary w)%string];
           ReqBody := Some {| mp_boundary := rand_boundary w;
                              mp_parts := [{| p_name := "file";
                                              p_filename := fileName;
                                              p_data := r_data content |}];
                              mp_closed := true |} |} in
      events (exec (PkgClient.AddBinary w client content fileName))
      = exchange_events w req
      /\ result (exec (PkgClient.AddBinary w client content fileName))
         = Some (exchange_result w req)).
Proof.
  split.
  - intros e Er.
    destruct (client_createMultiPartBody_read_error w client content fileName e init Er)
      as [m E].
    remember (exec (PkgClient.AddBinary w client content fileName)) as o eqn:Eo.
    unfold exec, PkgClient.AddBinary in Eo. unfold bind at 1 in Eo.
    rewrite E in Eo. subst o. split; reflexivity.
  - intros Er Hu req.
    destruct (client_createMultiPartBody_run w client content fileName init)
      as (v & m & E & Hok & _).
    rewrite (Hok Er Hu) in E.
    remember (exec (PkgClient.AddBinary w client content fileName)) as o eqn:Eo.
    unfold exec, PkgClient.AddBinary in Eo. unfold bind at 1 in Eo.
    rewrite E in Eo. unfold PkgClient.doRequest in Eo. rewrite exchange_run in Eo.
    subst o. split; reflexivity.
Qed.

Lemma X14_AddBinary_witness :
  (result (exec (PkgClient.AddBinary nodeWorld localClient
                   {| r_data := "Hel"; r_err := Some (IOError "read" "pipe" EIO) |}
                   "hello.txt"))
   = Some (None, Some (IOError "read" "pipe" EIO))
   /\ events (exec (PkgClient.AddBinary nodeWorld localClient
                      {| r_data := "Hel"; r_err := Some (IOError "read" "pipe" EIO) |}
                      "hello.txt")) = [])
  /\ (sent (events (exec (PkgClient.AddBinary nodeWorld localClient
                            (bytesReader "Hello") "hello.txt")))
      = [fileRequest nodeWorld localClient "hello.txt" "Hello"]
      /\ result (exec (PkgClient.AddBinary nodeWorld localClient
                         (bytesReader "Hello") "hello.txt"))
         = Some (Some added, None)).
Proof.
  split.
  - exact (proj1 (X14_AddBinary nodeWorld localClient
                    {| r_data := "Hel"; r_err := Some (IOError "read" "pipe" EIO) |}
                    "hello.txt") _ eq_refl).
  - destruct (proj2 (X14_AddBinary nodeWorld localClient (bytesReader "Hello") "hello.txt")
                eq_refl eq_refl) as [E R].
    split; [rewrite E; reflexivity | exact R].
Defined.

(** ** The client of [NewIPFSApi] *)



(** ** The first file of a directory that does not open *)

Section FirstFailure.
Variable w : World.

Lemma client_directoryLoop_first_failure (path : string) (pre post : list DirEntry)
    (e : DirEntry) (errno : Errno) :
  de_IsDir e = false ->
  sys_open w (entryPath path e) = SysErr errno ->
  forallb (fun x => opens w (entryPath path x)) (regularEntries pre) = true ->
  forall (s : State) (deferred : list File),
    st_writer s <> None ->
    exists files s',
      PkgClient.directoryLoop w path (pre ++ e :: post) deferred s
      = Done (Some (IOError "open" (entryPath path e) errno), rev files ++ deferred) s'
      /\ st_trace s' = st_trace s ++ map EvOpen (map f_name files)
      /\ map f_name files = map (entryPath path) (regularEntries pre).
Proof.
  intros Ed Ho. induction pre as [|a pre IH]; intros Hpre s deferred Hs.
  - cbn [app]. simpl PkgClient.directoryLoop. rewrite Ed.
    unfold bind at 1. unfold Writer_CreateFormFile at 1, withWriter at 1.
    destruct (st_writer s) as [m|] eqn:Em; [|contradiction].
    cbn [st_writer st_trace].
    unfold bind at 1. unfold os_Open. unfold entryPath in Ho. rewrite Ho.
    unfold ret. eexists [], _. split; [reflexivity|].
    cbn [st_trace map]. rewrite app_nil_r. split; reflexivity.
  - cbn [app]. simpl PkgClient.directoryLoop.
    unfold regularEntries in Hpre |- *. simpl filter in Hpre |- *.
    destruct (de_IsDir a) eqn:Ea; simpl negb in Hpre |- *; cbv iota in Hpre |- *.
    + apply IH; assumption.
    + fold (regularEntries pre) in Hpre |- *.
      simpl forallb in Hpre. apply andb_prop in Hpre. destruct Hpre as [Ha Hpre].
      unfold bind at 1. unfold Writer_CreateFormFile at 1, withWriter at 1.
      destruct (st_writer s) as [m|] eqn:Em; [|contradiction].
      cbn [st_writer st_trace].
      unfold bind at 1. unfold os_Open. unfold opens, entryPath in Ha.
      destruct (sys_open w ((path ++ "/") ++ de_Name a)%string) as [d|] eqn:Eo;
        [|discriminate].
      unfold bind at 1, emit at 1, ret at 1. cbn [st_writer st_trace].
      unfold bind at 1, io_Copy at 1, withWriter at 1. cbn [st_writer st_trace].
      match goal with
      | |- context [let (_, _) := ?p in _] => destruct p as [err0 m'] eqn:Ep
      end.
      set (f := {| f_name := ((path ++ "/") ++ de_Name a)%string; f_content := d |}).
      match goal with
      | |- context [PkgClient.directoryLoop w path _ (f :: deferred) ?s1] =>
          destruct (IH Hpre s1 (f :: deferred)) as (files & s' & Hrun & Ht & Hn);
            [discriminate|]
      end.
      exists (f :: files), s'. rewrite Hrun. simpl rev. rewrite <- app_assoc.
      split; [reflexivity|].
      split; [rewrite Ht; cbn [st_trace]; rewrite <- app_assoc; reflexivity|].
      simpl. rewrite Hn. reflexivity.
Qed.

End FirstFailure.

(** X16: package client, on a directory one of whose files does not open.
    [Add] opens the files listed before it and holds them, stops at the
    first file that does not open, closes the files it holds in the reverse
    order and returns the error of that [os.Open]; files listed after it
    are not touched and no request is sent. *)
Theorem X16_client_first_unopenable (w : World) (client : Client) (path : string)
    (pre post : list DirEntry) (e : DirEntry) (errno : Errno) :
  sys_stat w path = SysOk directory ->
  sys_readdir w path = SysOk (pre ++ e :: post) ->
  forallb (fun x => opens w (entryPath path x)) (regularEntries pre) = true ->
  de_IsDir e = false ->
  sys_open w (entryPath path e) = SysErr errno ->
  result (exec (PkgClient.Add w client path))
  = Some (None, Some (IOError "open" (entryPath path e) errno))
  /\ events (exec (PkgClient.Add w client path))
     = held_then_released (map (entryPath path) (regularEntries pre)).
Proof.
  intros Hs Hd Hpre Ed Ho.
  remember (exec (PkgClient.Add w client path)) as o eqn:Eo.
  unfold exec, PkgClient.Add, os_Stat in Eo. rewrite Hs in Eo.
  cbn [fi_IsDir directory] in Eo.
  unfold PkgClient.createDirectoryMultiPartBody in Eo.
  unfold bind at 1 in Eo. unfold bind at 1, multipart_NewWriter at 1 in Eo.
  unfold os_ReadDir in Eo. rewrite Hd in Eo. unfold bind at 1 in Eo.
  match type of Eo with
  | context [PkgClient.directoryLoop w path _ [] ?s1] =>
      destruct (client_directoryLoop_first_failure w path pre post e errno Ed Ho Hpre s1 [])
        as (files & s' & Hrun & Ht & Hn); [discriminate|]
  end.
  rewrite Hrun in Eo. unfold bind at 1 in Eo.
  rewrite client_runDeferred_trace in Eo. unfold ret in Eo. subst o.
  cbn [result events st_trace]. split; [reflexivity|].
  rewrite Ht, app_nil_r. cbn [st_trace init app].
  unfold held_then_released. rewrite map_rev, Hn. reflexivity.
Qed.

Lemma X16_client_first_unopenable_witness :
  result (exec (PkgClient.Add lockedSecondWorld localClient "/tmp/test"))
  = Some (None, Some (IOError "open" "/tmp/test/test2" EACCES))
  /\ events (exec (PkgClient.Add lockedSecondWorld localClient "/tmp/test"))
     = [EvOpen "/tmp/test/test1"; EvFileClose "/tmp/test/test1"].
Proof.
  exact (X16_client_first_unopenable lockedSecondWorld localClient "/tmp/test"
           [fileEntry "test1"] [] (fileEntry "test2") EACCES
           eq_refl eq_refl eq_refl eq_refl eq_refl).
Defined.

(** ** A nil result with a nil error *)

Lemma outcome_nil (w : World) o :
  add_outcome w o ->
  result o = Some (None, None) ->
  exists req resp e,
    sent (events o) = [req]
    /\ transport w req = Ok resp
    /\ r_err (Body resp) = Some e.
Proof.
  intros [[_ [R|[e R]]]|(l & req & l' & Hl & Hl' & E & R)] Hr; rewrite R in Hr;
    try discriminate.
  injection Hr as Hr. unfold exchange_result in Hr.
  destruct (transport w req) as [resp|e0] eqn:Et; [|discriminate].
  destruct (r_err (Body resp)) as [e|] eqn:Er; [|discriminate].
  exists req, resp, e. rewrite E. split; [apply sent_exchange; assumption|]. auto.
Qed.

(** X17: [Add] (either package) and [AddBinary] return a nil result with a
    nil error in one case only: a request was sent, the node answered, and
    reading the body of the answer failed. *)
Theorem X17_nil_nil_only_on_body_failure (w : World) (fuel : nat) (client : Client)
    (pathName : string) (content : Reader) (fileName : string)
    (o : Outcome (option IPFSResponse * option error)) :
  o = exec (PkgMain.Add w fuel client pathName)
  \/ o = exec (PkgClient.Add w client pathName)
  \/ o = exec (PkgClient.AddBinary w client content fileName) ->
  result o = Some (None, None) ->
  exists req resp e,
    sent (events o) = [req]
    /\ transport w req = Ok resp
    /\ r_err (Body resp) = Some e.
Proof.
  intros Ho. apply outcome_nil.
  destruct Ho as [->|[->| ->]].
  - apply main_Add_outcome.
  - apply client_Add_outcome.
  - apply client_AddBinary_outcome.
Qed.

Lemma X17_nil_nil_witness :
  result (exec (PkgClient.AddBinary brokenBodyWorld localClient
                  (bytesReader "Hello") "hello.txt")) = Some (None, None)
  /\ exists req resp e,
       sent (events (exec (PkgClient.AddBinary brokenBodyWorld localClient
                             (bytesReader "Hello") "hello.txt"))) = [req]
       /\ transport brokenBodyWorld req = Ok resp
       /\ r_err (Body resp) = Some e.
Proof.
  split; [reflexivity|].
  exact (X17_nil_nil_only_on_body_failure brokenBodyWorld 0 localClient ""
           (bytesReader "Hello") "hello.txt" _ (or_intror (or_intror eq_refl)) eq_refl).
Defined.
